(** * app-transcribe: the acquisition pipeline, verified against its source

  A shallow embedding of [src/lib/cobalt.ts], [src/lib/compress.ts],
  [src/lib/storage.ts] and of the download route (the [POST] handler),
  followed by the properties of the pipeline.

  Conventions of the embedding.
  - A JavaScript string is a [string] of 8-bit characters; the inputs
    considered are ASCII, where UTF-16 code units and bytes coincide.
  - A JavaScript number that the code only uses as an integer is a [Z]
    (or an [N] when it is never negative); [NaN] is explicit where the
    code can produce it. The integers are exact; a double is up to
    [2^53 - 1], and a property of a number read from a string carries
    that bound.
  - A [Buffer] is a list of bytes.
  - A promise that rejects and a [throw] are the same thing: a
    computation ends in [Return v] or in [Throw e].
  - Everything the code reads from its environment (network, clock,
    random source, file system faults, the encoder process) is a field
    of a host record, so that every run of the code is a function of the
    host and of the initial world. *)

From Stdlib Require Import ZArith NArith QArith Ascii String List Bool.
From Stdlib Require Import Decimal DecimalString DecimalPos DecimalN Lia.
From stdpp Require Import gmap strings list.

Local Open Scope Z_scope.

(** ** JavaScript primitives used by the sources *)

Module Js.

(** [String.prototype.toUpperCase] on one ASCII character; strings are
    ASCII throughout, and a property that depends on the upper case of a
    character is stated for ASCII strings. *)
Definition toUpperCaseChar (c : ascii) : ascii :=
  let n := nat_of_ascii c in
  if ((97 <=? n) && (n <=? 122))%nat then ascii_of_nat (n - 32) else c.

Fixpoint toUpperCase (s : string) : string :=
  match s with
  | EmptyString => EmptyString
  | String c s' => String (toUpperCaseChar c) (toUpperCase s')
  end.

(** [s.charAt(0)]: the first character as a string, or the empty string. *)
Definition charAt0 (s : string) : string :=
  match s with
  | EmptyString => EmptyString
  | String c _ => String c EmptyString
  end.

Fixpoint drop (n : nat) (s : string) : string :=
  match n, s with
  | O, _ => s
  | S _, EmptyString => EmptyString
  | S n', String _ s' => drop n' s'
  end.

Fixpoint take (n : nat) (s : string) : string :=
  match n, s with
  | O, _ => EmptyString
  | S _, EmptyString => EmptyString
  | S n', String c s' => String c (take n' s')
  end.

(** [s.slice(k)] for a non-negative literal [k]. *)
Definition sliceFrom (k : nat) (s : string) : string := drop k s.

(** [s.slice(-k)] for a positive literal [k]: the last [k] characters. *)
Definition sliceLast (k : nat) (s : string) : string :=
  drop (String.length s - k) s.

(** [s.substring(a, b)] for literals [a <= b]. *)
Definition substring (a b : nat) (s : string) : string :=
  take (b - a) (drop a s).

(** [s.split(sep).pop()] for a one-character separator: the text after
    the last separator, the whole string when there is none. *)
Fixpoint splitPop (sep : ascii) (acc s : string) : string :=
  match s with
  | EmptyString => acc
  | String c s' =>
      if Ascii.eqb c sep then splitPop sep EmptyString s'
      else splitPop sep (acc +:+ String c EmptyString) s'
  end.

(** Canonicalization of a character by a regular expression with the [i]
    flag and without the [u] flag: upper-casing. *)
Definition canonicalize (c : ascii) : ascii := toUpperCaseChar c.

(** A literal matched against the start of [s], ignoring case. *)
Fixpoint matchLiteralI (lit s : string) : bool :=
  match lit, s with
  | EmptyString, _ => true
  | String _ _, EmptyString => false
  | String a lit', String b s' =>
      Ascii.eqb (canonicalize a) (canonicalize b) && matchLiteralI lit' s'
  end.

(** [/lit1|lit2|.../i.test(s)]: the alternatives are tried in order at
    every position, left to right; the pattern is not anchored. *)
Fixpoint testAlternativesI (alts : list string) (s : string) : bool :=
  existsb (fun lit => matchLiteralI lit s) alts ||
  match s with
  | EmptyString => false
  | String _ s' => testAlternativesI alts s'
  end.

(** The character class [[^/.]]. *)
Definition notSlashDot (c : ascii) : bool :=
  negb (Ascii.eqb c "/") && negb (Ascii.eqb c ".").

Fixpoint allNotSlashDot (s : string) : bool :=
  match s with
  | EmptyString => true
  | String c s' => notSlashDot c && allNotSlashDot s'
  end.

(** [/\.[^/.]+$/] tried at the start of [s]: a dot, then one or more
    characters of the class, then the end of the input. *)
Definition matchExtensionHere (s : string) : bool :=
  match s with
  | String "."%char (String c rest) => notSlashDot c && allNotSlashDot rest
  | _ => false
  end.

(** [s.replace(/\.[^/.]+$/, repl)]: the leftmost match is replaced, a
    string without a match is returned as it is. [repl] has no [$]. *)
Fixpoint replaceExtension (repl s : string) : string :=
  if matchExtensionHere s then repl
  else match s with
       | EmptyString => EmptyString
       | String c s' => String c (replaceExtension repl s')
       end.

(** The character class [[_-]]. *)
Definition isSeparator (c : ascii) : bool :=
  Ascii.eqb c "_" || Ascii.eqb c "-".

(** [s.replace(/[_-]/g, " ")]. *)
Fixpoint replaceSeparators (s : string) : string :=
  match s with
  | EmptyString => EmptyString
  | String c s' =>
      String (if isSeparator c then " "%char else c) (replaceSeparators s')
  end.

(** A number that is an integer or [NaN]. *)
Inductive number : Type :=
| Num (z : Z)
| NaN.

(** Truthiness of a number: [0] and [NaN] are falsy. *)
Definition truthy (x : number) : bool :=
  match x with
  | Num z => negb (z =? 0)
  | NaN => false
  end.

(** White space skipped by [parseInt] (the ASCII part of it). *)
Definition isWhiteSpace (c : ascii) : bool :=
  match nat_of_ascii c with
  | 9%nat | 10%nat | 11%nat | 12%nat | 13%nat | 32%nat => true
  | _ => false
  end.

Fixpoint trimStart (s : string) : string :=
  match s with
  | EmptyString => EmptyString
  | String c s' => if isWhiteSpace c then trimStart s' else s
  end.

(** The value of a character as a digit: [0]-[9], then the letters of
    either case for 10 to 35. *)
Definition digitValue36 (c : ascii) : option Z :=
  let n := nat_of_ascii c in
  if ((48 <=? n) && (n <=? 57))%nat then Some (Z.of_nat (n - 48))
  else if ((97 <=? n) && (n <=? 122))%nat then Some (Z.of_nat (n - 87))
  else if ((65 <=? n) && (n <=? 90))%nat then Some (Z.of_nat (n - 55))
  else None.

Definition digitValue (radix : Z) (c : ascii) : option Z :=
  match digitValue36 c with
  | Some d => if d <? radix then Some d else None
  | None => None
  end.

(** The value of the longest prefix of digits of the radix, [None] when
    that prefix is empty; [acc] is the value of the digits read so far. *)
Fixpoint digitsPrefix (radix : Z) (acc : option Z) (s : string) : option Z :=
  match s with
  | EmptyString => acc
  | String c s' =>
      match digitValue radix c with
      | Some d =>
          digitsPrefix radix
            (Some (radix * (match acc with Some a => a | None => 0 end) + d)) s'
      | None => acc
      end
  end.

(** The sign read by [parseInt] and the rest of the string. *)
Definition readSign (s : string) : Z * string :=
  match s with
  | String "-"%char r => (-1, r)
  | String "+"%char r => (1, r)
  | _ => (1, s)
  end.

(** [parseInt(s, 10)]: leading white space, an optional sign, then the
    longest prefix of decimal digits; [NaN] when there is no digit.
    The value is the exact integer: it is the code's for digits of value
    at most [2^53 - 1], which a double holds exactly, and the properties
    of a value read by [parseInt] are stated within that bound. *)
Definition parseInt10 (s : string) : number :=
  let '(sign, s2) := readSign (trimStart s) in
  match digitsPrefix 10 None s2 with
  | Some n => Num (sign * n)
  | None => NaN
  end.

(** [parseInt(s)]: as [parseInt(s, 10)], but a [0x] or [0X] after the
    sign selects radix 16. *)
Definition parseInt (s : string) : number :=
  let '(sign, s2) := readSign (trimStart s) in
  let '(radix, s3) :=
    match s2 with
    | String "0"%char (String "x"%char r) => (16, r)
    | String "0"%char (String "X"%char r) => (16, r)
    | _ => (10, s2)
    end in
  match digitsPrefix radix None s3 with
  | Some n => Num (sign * n)
  | None => NaN
  end.

(** [x * 2] on numbers. *)
Definition double (x : number) : number :=
  match x with
  | Num z => Num (z * 2)
  | NaN => NaN
  end.

(** [`${n}`] for a non-negative integer. *)
Definition showN (n : N) : string := NilZero.string_of_uint (N.to_uint n).

(** [`${z}`] for an integer. *)
Definition showZ (z : Z) : string :=
  if z <? 0 then String "-"%char (showN (Z.to_N (- z))) else showN (Z.to_N z).

Definition showNumber (x : number) : string :=
  match x with
  | Num z => showZ z
  | NaN => "NaN"
  end.

(** What a [throw] carries: an [Error] with its message, or another value. *)
Inductive exn : Type :=
| Error (message : string)
| Thrown.

(** The outcome of a call that may throw, or of an awaited promise. *)
Inductive result (A : Type) : Type :=
| Return (a : A)
| Throw (e : exn).
Arguments Return {A} a.
Arguments Throw {A} e.

Definition Buffer : Type := list Byte.byte.

Definition lengthZ (b : Buffer) : Z := Z.of_nat (length b).

End Js.

(** ** [src/lib/cobalt.ts]: the resolution client and the media fetcher *)

Module Cobalt.
Import Js.

(** The names of [SUPPORTED_PLATFORMS], the type [Platform]. *)
Inductive Platform : Type :=
| YouTube | TikTok | Instagram | LinkedIn | TwitterX | Vimeo.

Definition platformName (p : Platform) : string :=
  match p with
  | YouTube => "YouTube"
  | TikTok => "TikTok"
  | Instagram => "Instagram"
  | LinkedIn => "LinkedIn"
  | TwitterX => "Twitter/X"
  | Vimeo => "Vimeo"
  end.

(** An entry of the table; [pattern] lists the literal alternatives of
    the entry's case-insensitive regular expression. *)
Record PlatformEntry : Type := {
  name : Platform;
  pattern : list string;
  icon : string
}.

Definition SUPPORTED_PLATFORMS : list PlatformEntry :=
  [ {| name := YouTube; pattern := ["youtube.com"; "youtu.be"]; icon := "youtube" |};
    {| name := TikTok; pattern := ["tiktok.com"]; icon := "tiktok" |};
    {| name := Instagram; pattern := ["instagram.com"]; icon := "instagram" |};
    {| name := LinkedIn; pattern := ["linkedin.com"]; icon := "linkedin" |};
    {| name := TwitterX; pattern := ["twitter.com"; "x.com"]; icon := "twitter" |};
    {| name := Vimeo; pattern := ["vimeo.com"]; icon := "vimeo" |} ].

(** The loop of [detectPlatform] over a table. *)
Fixpoint detectIn (table : list PlatformEntry) (url : string) : option Platform :=
  match table with
  | [] => None
  | platform :: rest =>
      if testAlternativesI (pattern platform) url then Some (name platform)
      else detectIn rest url
  end.

Definition detectPlatform (url : string) : option Platform :=
  detectIn SUPPORTED_PLATFORMS url.

Definition isUrlSupported (url : string) : bool :=
  match detectPlatform url with
  | Some _ => true
  | None => false
  end.

(** [CobaltDownloadOptions]; an absent optional field is [None]. *)
Record CobaltDownloadOptions : Type := {
  url : string;
  videoQuality : option string;
  audioFormat : option string;
  audioBitrate : option string;
  downloadMode : option string;
  filenameStyle : option string;
  youtubeVideoCodec : option string
}.

(** The JSON body sent to the service: every field is set. *)
Record CobaltRequestBody : Type := {
  bodyUrl : string;
  bodyVideoQuality : string;
  bodyAudioFormat : string;
  bodyAudioBitrate : string;
  bodyDownloadMode : string;
  bodyFilenameStyle : string;
  bodyYoutubeVideoCodec : string
}.

Inductive PickerItemType : Type := video | photo.

Record PickerItem : Type := {
  type : PickerItemType;
  itemUrl : string;
  thumb : option string
}.

(** [CobaltResponse], by its [status] field; [other] is a body whose
    status is none of the declared ones (the cast of [response.json()]
    is not checked at run time). *)
Inductive CobaltResponse : Type :=
| tunnel (mediaUrl filename : string)
| redirect (mediaUrl filename : string)
| picker (items : list PickerItem)
| error (code : string) (service : option string)
| other (status : string).

(** What [fetch] resolves to: the parts of a [Response] the code reads. *)
Record Response : Type := {
  ok : bool;
  status : N;
  statusText : string;
  headers : string -> option string;
  json : result CobaltResponse;
  arrayBuffer : result Buffer
}.

(** The network as the client sees it: [fetch] resolves to a response or
    rejects. *)
Record Net : Type := {
  COBALT_API_URL : string;
  fetchPost : string -> CobaltRequestBody -> result Response;
  fetchGet : string -> result Response
}.

(** [x || d] for an optional string: absent and empty are falsy. *)
Definition orDefault (x : option string) (d : string) : string :=
  match x with
  | None => d
  | Some EmptyString => d
  | Some s => s
  end.

Definition requestBody (options : CobaltDownloadOptions) : CobaltRequestBody :=
  {| bodyUrl := url options;
     bodyVideoQuality := orDefault (videoQuality options) "1080";
     bodyAudioFormat := orDefault (audioFormat options) "mp3";
     bodyAudioBitrate := orDefault (audioBitrate options) "128";
     bodyDownloadMode := orDefault (downloadMode options) "auto";
     bodyFilenameStyle := orDefault (filenameStyle options) "basic";
     bodyYoutubeVideoCodec := orDefault (youtubeVideoCodec options) "h264" |}.

Definition requestDownload (net : Net) (options : CobaltDownloadOptions)
  : result CobaltResponse :=
  match fetchPost net (COBALT_API_URL net) (requestBody options) with
  | Throw e => Throw e
  | Return response =>
      if negb (ok response) then
        Throw (Error ("Cobalt API error: " +:+ showN (status response)
                      +:+ " " +:+ statusText response))
      else json response
  end.

Record Download : Type := {
  buffer : Buffer;
  contentType : string;
  contentLength : Z
}.

Definition downloadFromUrl (net : Net) (target : string) : result Download :=
  match fetchGet net target with
  | Throw e => Throw e
  | Return response =>
      if negb (ok response) then
        Throw (Error ("Download failed: " +:+ showN (status response)
                      +:+ " " +:+ statusText response))
      else
        let contentType := orDefault (headers response "content-type") "video/mp4" in
        let contentLength :=
          parseInt10 (orDefault (headers response "content-length") "0") in
        match arrayBuffer response with
        | Throw e => Throw e
        | Return buffer =>
            Return {| buffer := buffer;
                      contentType := contentType;
                      contentLength :=
                        match contentLength with
                        | Num z => if truthy contentLength then z else lengthZ buffer
                        | NaN => lengthZ buffer
                        end |}
        end
  end.

Definition extractTitleFromFilename (filename : string) : string :=
  let withoutExt := replaceExtension "" filename in
  let cleaned := replaceSeparators withoutExt in
  toUpperCase (charAt0 cleaned) +:+ sliceFrom 1 cleaned.

End Cobalt.

(** ** The world the pipeline acts on, and computations over it *)

Module Sys.
Import Js.

(** An object of the bucket. *)
Record Blob : Type := {
  blobBody : Buffer;
  blobContentType : string
}.

(** The [data] of [prisma.video.create], as the route writes it. *)
Record VideoData : Type := {
  title : string;
  fileName : string;
  fileKey : string;
  fileSize : Z;
  mimeType : string;
  status : string;
  platform : option Cobalt.Platform;
  originalUrl : string
}.

(** A row of the [video] table: the data and the [id] the database gave. *)
Record VideoRecord : Type := {
  id : string;
  data : VideoData
}.

Record World : Type := {
  files : gmap string Buffer;     (* the file system, by path *)
  blobs : gmap string Blob;       (* the bucket, by key *)
  videos : list VideoRecord       (* the table, oldest first *)
}.

Definition withFiles (w : World) (f : gmap string Buffer) : World :=
  {| files := f; blobs := blobs w; videos := videos w |}.

Definition withBlobs (w : World) (b : gmap string Blob) : World :=
  {| files := files w; blobs := b; videos := videos w |}.

Definition withVideos (w : World) (v : list VideoRecord) : World :=
  {| files := files w; blobs := blobs w; videos := v |}.

(** An asynchronous function: from a world to the world it leaves and
    the value it resolves to, or the error it rejects with. *)
Definition M (A : Type) : Type := World -> World * result A.

Definition ret {A : Type} (a : A) : M A := fun w => (w, Return a).

Definition throw {A : Type} (e : exn) : M A := fun w => (w, Throw e).

Definition lift {A : Type} (r : result A) : M A := fun w => (w, r).

Definition bind {A B : Type} (m : M A) (k : A -> M B) : M B :=
  fun w =>
    match m w with
    | (w1, Return a) => k a w1
    | (w1, Throw e) => (w1, Throw e)
    end.

(** [try { body } catch (e) { handler }]. *)
Definition tryCatch {A : Type} (body : M A) (handler : exn -> M A) : M A :=
  fun w =>
    match body w with
    | (w1, Return a) => (w1, Return a)
    | (w1, Throw e) => handler e w1
    end.

(** [try { body } finally { finalizer }]: the finalizer runs on every
    exit of the body; the outcome is the body's, unless the finalizer
    itself throws. *)
Definition tryFinally {A : Type} (body : M A) (finalizer : M unit) : M A :=
  fun w =>
    let '(w1, r) := body w in
    match finalizer w1 with
    | (w2, Return _) => (w2, r)
    | (w2, Throw e) => (w2, Throw e)
    end.

(** [try { body } catch { }]. *)
Definition swallow (body : M unit) : M unit :=
  tryCatch body (fun _ => ret tt).

Module Notations.
Notation "x <- c ;; k" := (bind c (fun x => k))
  (at level 20, c at level 99, k at level 200, only parsing).
Notation "' pat <- c ;; k" := (bind c (fun pat => k))
  (at level 20, pat pattern, c at level 99, k at level 200, only parsing).
End Notations.

End Sys.

(** ** [src/lib/compress.ts]: the transcoder *)

Module Compress.
Import Js Sys Sys.Notations.

(** How a spawned process ends for its parent: the [close] event with
    the exit code ([None] for [null], a process ended by a signal) and
    what it wrote to its standard error, or the [error] event. *)
Inductive ProcessEnd : Type :=
| closed (code : option Z) (stderr : string)
| spawnError (message : string).

(** The host of the transcoder. *)
Record Host : Type := {
  env : string -> option string;            (* process.env *)
  tmpdir : string;                          (* os.tmpdir() *)
  inputId : string;                         (* the first randomUUID() *)
  outputId : string;                        (* the second randomUUID() *)
  (* spawn("ffmpeg", args): what the process does to the files, and how it ends *)
  spawnFFmpeg : list string -> gmap string Buffer -> gmap string Buffer * ProcessEnd;
  (* injected faults: a failing writeFile may leave the first bytes of the data *)
  writeFault : string -> option (exn * option nat);
  readFault : string -> option exn;
  unlinkFault : string -> option exn
}.

Definition MAX_RESOLUTION (h : Host) : number :=
  parseInt10 (Cobalt.orDefault (env h "VIDEO_MAX_RESOLUTION") "720").
Definition VIDEO_BITRATE (h : Host) : string :=
  Cobalt.orDefault (env h "VIDEO_BITRATE") "1500k".
Definition VIDEO_CRF (h : Host) : string :=
  Cobalt.orDefault (env h "VIDEO_CRF") "28".
Definition AUDIO_BITRATE (h : Host) : string :=
  Cobalt.orDefault (env h "AUDIO_BITRATE") "128k".

(** [(1 - compressed / original) * 100], exactly; the division by zero
    of an empty input gives the two special values. *)
Inductive ratio : Type :=
| Finite (q : Q)
| MinusInfinity
| NotANumber.

Definition ratioOf (original compressed : Z) : ratio :=
  if original =? 0 then
    if compressed =? 0 then NotANumber else MinusInfinity
  else Finite ((1 - inject_Z compressed / inject_Z original) * inject_Z 100)%Q.

Record CompressionResult : Type := {
  buffer : Buffer;
  originalSize : Z;
  compressedSize : Z;
  compressionRatio : ratio
}.

Record CompressionOptions : Type := {
  maxResolution : option number;
  videoBitrate : option string;
  crf : option string;
  audioBitrate : option string
}.

(** The default [options = {}]. *)
Definition noOptions : CompressionOptions :=
  {| maxResolution := None; videoBitrate := None; crf := None; audioBitrate := None |}.

(** The options with every field set, as [runFFmpeg] takes them. *)
Record FFmpegOptions : Type := {
  ffMaxResolution : number;
  ffVideoBitrate : string;
  ffCrf : string;
  ffAudioBitrate : string
}.

(** [fs.writeFile(path, data)]. *)
Definition writeFile (h : Host) (path : string) (data : Buffer) : M unit :=
  fun w =>
    match writeFault h path with
    | Some (e, Some k) => (withFiles w (<[path := firstn k data]> (files w)), Throw e)
    | Some (e, None) => (w, Throw e)
    | None => (withFiles w (<[path := data]> (files w)), Return tt)
    end.

(** [fs.readFile(path)]. *)
Definition readFile (h : Host) (path : string) : M Buffer :=
  fun w =>
    match readFault h path with
    | Some e => (w, Throw e)
    | None =>
        match files w !! path with
        | Some data => (w, Return data)
        | None =>
            (w, Throw (Error ("ENOENT: no such file or directory, open '"
                              +:+ path +:+ "'")))
        end
    end.

(** [fs.unlink(path)]. *)
Definition unlink (h : Host) (path : string) : M unit :=
  fun w =>
    match unlinkFault h path with
    | Some e => (w, Throw e)
    | None =>
        match files w !! path with
        | Some _ => (withFiles w (delete path (files w)), Return tt)
        | None =>
            (w, Throw (Error ("ENOENT: no such file or directory, unlink '"
                              +:+ path +:+ "'")))
        end
    end.

(** [path.join(dir, name)] for a directory without a trailing slash. *)
Definition join (dir name : string) : string := dir +:+ "/" +:+ name.

(** The argument vector of the encoder (the unused [scaleFilter] of the
    source is left out). *)
Definition ffmpegArgs (inputPath outputPath : string) (options : FFmpegOptions)
  : list string :=
  [ "-i"; inputPath;
    "-y";
    "-c:v"; "libx264";
    "-preset"; "medium";
    "-crf"; ffCrf options;
    "-maxrate"; ffVideoBitrate options;
    "-bufsize"; showNumber (double (parseInt (ffVideoBitrate options))) +:+ "k";
    "-vf"; "scale=-2:'min(" +:+ showNumber (ffMaxResolution options) +:+ ",ih)'";
    "-c:a"; "aac";
    "-b:a"; ffAudioBitrate options;
    "-ac"; "2";
    "-movflags"; "+faststart";
    "-pix_fmt"; "yuv420p";
    outputPath ].

Definition runFFmpeg (h : Host) (inputPath outputPath : string)
    (options : FFmpegOptions) : M unit :=
  fun w =>
    let '(files', ending) :=
      spawnFFmpeg h (ffmpegArgs inputPath outputPath options) (files w) in
    let w' := withFiles w files' in
    match ending with
    | closed (Some 0) _ => (w', Return tt)
    | closed code stderr =>
        (w', Throw (Error ("FFmpeg exited with code "
                           +:+ match code with Some c => showZ c | None => "null" end
                           +:+ ": " +:+ sliceLast 500 stderr)))
    | spawnError message =>
        (w', Throw (Error ("FFmpeg spawn error: " +:+ message)))
    end.

Definition mimeMap : gmap string string :=
  list_to_map
    [ ("video/mp4", "mp4");
      ("video/webm", "webm");
      ("video/quicktime", "mov");
      ("video/x-msvideo", "avi");
      ("video/x-matroska", "mkv");
      ("video/mpeg", "mpeg");
      ("video/3gpp", "3gp") ].

(** The text of a built-in function in a template literal, as Node
    prints it. *)
Definition nativeFunction (name : string) : string :=
  "function " +:+ name +:+ "() { [native code] }".

(** The properties an object literal inherits from [Object.prototype],
    each with the text its value has in a template literal: the text of a
    built-in function, and [[object Object]] for the prototype itself,
    which [__proto__] gives. *)
Definition objectPrototype : list (string * string) :=
  [ ("constructor", nativeFunction "Object");
    ("__defineGetter__", nativeFunction "__defineGetter__");
    ("__defineSetter__", nativeFunction "__defineSetter__");
    ("hasOwnProperty", nativeFunction "hasOwnProperty");
    ("__lookupGetter__", nativeFunction "__lookupGetter__");
    ("__lookupSetter__", nativeFunction "__lookupSetter__");
    ("isPrototypeOf", nativeFunction "isPrototypeOf");
    ("propertyIsEnumerable", nativeFunction "propertyIsEnumerable");
    ("toString", nativeFunction "toString");
    ("valueOf", nativeFunction "valueOf");
    ("__proto__", "[object Object]");
    ("toLocaleString", nativeFunction "toLocaleString") ].

Definition inherited (key : string) : option string :=
  (list_to_map objectPrototype : gmap string string) !! key.

(** [mimeMap[mimeType]]: the property of the literal itself, or else the
    one it inherits. *)
Definition mimeMapAt (mimeType : string) : option string :=
  match mimeMap !! mimeType with
  | Some extension => Some extension
  | None => inherited mimeType
  end.

(** [mimeMap[mimeType] || "mp4"]. For an inherited key the value is an
    object, which is truthy; the function is only used inside the template
    literal of the input path, so it is given here by its text. *)
Definition getExtensionFromMimeType (mimeType : string) : string :=
  Cobalt.orDefault (mimeMapAt mimeType) "mp4".

(** The [finally] block of [compressVideo]. *)
Definition cleanup (h : Host) (inputPath outputPath : string) : M unit :=
  _ <- swallow (unlink h inputPath) ;;
  swallow (unlink h outputPath).

Definition inputPathOf (h : Host) (inputMimeType : string) : string :=
  join (tmpdir h) (inputId h +:+ "." +:+ getExtensionFromMimeType inputMimeType).

Definition outputPathOf (h : Host) : string :=
  join (tmpdir h) (outputId h +:+ ".mp4").

(** The four defaults at the head of [compressVideo]. *)
Definition resolveOptions (h : Host) (options : CompressionOptions) : FFmpegOptions :=
  {| ffMaxResolution :=
       match maxResolution options with
       | Some x => if truthy x then x else MAX_RESOLUTION h
       | None => MAX_RESOLUTION h
       end;
     ffVideoBitrate := Cobalt.orDefault (videoBitrate options) (VIDEO_BITRATE h);
     ffCrf := Cobalt.orDefault (crf options) (VIDEO_CRF h);
     ffAudioBitrate := Cobalt.orDefault (audioBitrate options) (AUDIO_BITRATE h) |}.

(** The [try] block of [compressVideo]. *)
Definition compressBody (h : Host) (inputPath outputPath : string)
    (inputBuffer : Buffer) (resolved : FFmpegOptions) : M CompressionResult :=
  _ <- writeFile h inputPath inputBuffer ;;
  _ <- runFFmpeg h inputPath outputPath resolved ;;
  compressedBuffer <- readFile h outputPath ;;
  ret {| buffer := compressedBuffer;
         originalSize := lengthZ inputBuffer;
         compressedSize := lengthZ compressedBuffer;
         compressionRatio := ratioOf (lengthZ inputBuffer) (lengthZ compressedBuffer) |}.

Definition compressVideo (h : Host) (inputBuffer : Buffer) (inputMimeType : string)
    (options : CompressionOptions) : M CompressionResult :=
  let resolved := resolveOptions h options in
  let inputPath := inputPathOf h inputMimeType in
  let outputPath := outputPathOf h in
  tryFinally
    (compressBody h inputPath outputPath inputBuffer resolved)
    (cleanup h inputPath outputPath).

(** The same host with other faults of [unlink]. *)
Definition withUnlinkFault (h : Host) (fault : string -> option exn) : Host :=
  {| env := env h;
     tmpdir := tmpdir h;
     inputId := inputId h;
     outputId := outputId h;
     spawnFFmpeg := spawnFFmpeg h;
     writeFault := writeFault h;
     readFault := readFault h;
     unlinkFault := fault |}.

(** The version probe: [spawn("ffmpeg", ["-version"])]. *)
Definition checkFFmpegAvailable (h : Host) : M bool :=
  fun w =>
    let '(files', ending) := spawnFFmpeg h ["-version"] (files w) in
    (withFiles w files',
     Return match ending with
            | closed (Some 0) _ => true
            | _ => false
            end).

End Compress.

(** ** [src/lib/storage.ts]: the blob gateway *)

Module Storage.
Import Js Sys.

Record Host : Type := {
  (* s3Client.send(new PutObjectCommand(...)) rejects with this error *)
  putFault : string -> option exn
}.

Definition uploadFile (h : Host) (key : string) (body : Buffer)
    (contentType : string) : M string :=
  fun w =>
    match putFault h key with
    | Some e => (w, Throw e)
    | None =>
        (withBlobs w (<[key := {| blobBody := body; blobContentType := contentType |}]>
                        (blobs w)),
         Return key)
    end.

(** [generateFileKey], with what it reads from its environment as
    arguments: [timestamp] is [Date.now()] and [random36] is
    [Math.random().toString(36)]. *)
Definition generateFileKey (timestamp : N) (random36 : string)
    (originalFileName : string) : string :=
  let randomString := substring 2 15 random36 in
  let extension := splitPop "." "" originalFileName in
  "videos/" +:+ showN timestamp +:+ "-" +:+ randomString +:+ "." +:+ extension.

End Storage.

(** ** The download route: the orchestrator *)

Module Route.
Import Js Sys Sys.Notations.

Record DownloadRequest : Type := {
  url : option string;
  videoQuality : option string;
  downloadMode : option string;
  compress : option bool
}.

Record Host : Type := {
  net : Cobalt.Net;
  transcoder : Compress.Host;
  storage : Storage.Host;
  now : N;                        (* Date.now() in generateFileKey *)
  random36 : string;              (* Math.random().toString(36) in generateFileKey *)
  createFault : VideoData -> option exn;   (* prisma.video.create rejects *)
  newId : string                  (* the id the database gives the new row *)
}.

Definition COMPRESSION_ENABLED (h : Host) : bool :=
  match Compress.env (transcoder h) "VIDEO_COMPRESSION_ENABLED" with
  | Some v => negb (String.eqb v "false")
  | None => true
  end.

(** [prisma.video.create({ data })]. *)
Definition videoCreate (h : Host) (d : VideoData) : M VideoRecord :=
  fun w =>
    match createFault h d with
    | Some e => (w, Throw e)
    | None =>
        let row := {| id := newId h; data := d |} in
        (withVideos w (videos w ++ [row]), Return row)
    end.

Inductive Payload : Type :=
| errorBody (error : string)
| pickerBody (id title fileKey : string) (fileSize : Z)
    (platform : option Cobalt.Platform)
| directBody (id title fileName fileKey : string)
    (fileSize originalSize compressionSaved : Z) (mimeType : string)
    (platform : option Cobalt.Platform).

(** [NextResponse.json(payload, { status })]. *)
Record HttpResponse : Type := {
  httpStatus : N;
  payload : Payload
}.

Definition respond (payload : Payload) (status : N) : HttpResponse :=
  {| httpStatus := status; payload := payload |}.

(** [`${platform}`]. *)
Definition showPlatform (p : option Cobalt.Platform) : string :=
  match p with
  | Some x => Cobalt.platformName x
  | None => "null"
  end.

(** The block "Compress video if enabled" of both branches: the
    buffer, the size and the content type to store. *)
Definition compressIfEnabled (h : Host) (shouldCompress : bool)
    (buffer : Buffer) (contentType : string) : M (Buffer * Z * string) :=
  let finalSize := lengthZ buffer in
  available <- (if shouldCompress then Compress.checkFFmpegAvailable (transcoder h)
                else ret false) ;;
  if available then
    tryCatch
      (compressed <- Compress.compressVideo (transcoder h) buffer contentType
                       Compress.noOptions ;;
       ret (Compress.buffer compressed, Compress.compressedSize compressed, "video/mp4"))
      (fun compressError => ret (buffer, finalSize, contentType))
  else ret (buffer, finalSize, contentType).

(** The picker branch, once the first video is found. *)
Definition handlePicker (h : Host) (bodyUrl : string)
    (platform : option Cobalt.Platform) (shouldCompress : bool)
    (firstVideo : Cobalt.PickerItem) : M HttpResponse :=
  download <- lift (Cobalt.downloadFromUrl (net h) (Cobalt.itemUrl firstVideo)) ;;
  ' (buffer, finalSize, contentType) <-
    compressIfEnabled h shouldCompress (Cobalt.buffer download)
      (Cobalt.contentType download) ;;
  let fileKey := Storage.generateFileKey (now h) (random36 h) "video.mp4" in
  _ <- Storage.uploadFile (storage h) fileKey buffer contentType ;;
  video <- videoCreate h
    {| title := "Video from " +:+ showPlatform platform;
       fileName := "video.mp4";
       fileKey := fileKey;
       fileSize := finalSize;
       mimeType := contentType;
       status := "COMPLETED";
       platform := platform;
       originalUrl := bodyUrl |} ;;
  ret (respond (pickerBody (id video) (Sys.title (data video))
                  (Sys.fileKey (data video)) (Sys.fileSize (data video)) platform) 200).

(** The tunnel and redirect branch. *)
Definition handleDirect (h : Host) (bodyUrl : string)
    (platform : option Cobalt.Platform) (shouldCompress : bool)
    (downloadUrl filename : string) : M HttpResponse :=
  download <- lift (Cobalt.downloadFromUrl (net h) downloadUrl) ;;
  let originalSize := lengthZ (Cobalt.buffer download) in
  ' (buffer, finalSize, contentType) <-
    compressIfEnabled h shouldCompress (Cobalt.buffer download)
      (Cobalt.contentType download) ;;
  let compressedFilename := replaceExtension ".mp4" filename in
  let fileKey := Storage.generateFileKey (now h) (random36 h) compressedFilename in
  _ <- Storage.uploadFile (storage h) fileKey buffer contentType ;;
  let title := Cobalt.extractTitleFromFilename filename in
  video <- videoCreate h
    {| title := title;
       fileName := compressedFilename;
       fileKey := fileKey;
       fileSize := finalSize;
       mimeType := contentType;
       status := "COMPLETED";
       platform := platform;
       originalUrl := bodyUrl |} ;;
  ret (respond (directBody (id video) (Sys.title (data video))
                  (Sys.fileName (data video)) (Sys.fileKey (data video))
                  (Sys.fileSize (data video)) originalSize
                  (originalSize - finalSize) (Sys.mimeType (data video)) platform) 200).

(** Is [body.url] falsy. *)
Definition missing (x : option string) : bool :=
  match x with
  | None => true
  | Some EmptyString => true
  | Some _ => false
  end.

(** The options the route passes to [requestDownload]. *)
Definition cobaltOptions (bodyUrl : string) (body : DownloadRequest)
  : Cobalt.CobaltDownloadOptions :=
  {| Cobalt.url := bodyUrl;
     Cobalt.videoQuality := Some (Cobalt.orDefault (videoQuality body) "1080");
     Cobalt.audioFormat := None;
     Cobalt.audioBitrate := None;
     Cobalt.downloadMode := Some (Cobalt.orDefault (downloadMode body) "auto");
     Cobalt.filenameStyle := None;
     Cobalt.youtubeVideoCodec := None |}.

(** [body.compress !== false && COMPRESSION_ENABLED]. *)
Definition shouldCompressOf (h : Host) (body : DownloadRequest) : bool :=
  negb (match compress body with Some false => true | _ => false end)
  && COMPRESSION_ENABLED h.

Definition isVideo (item : Cobalt.PickerItem) : bool :=
  match Cobalt.type item with
  | Cobalt.video => true
  | Cobalt.photo => false
  end.

(** The branching of [POST] on the response of the resolution service. *)
Definition dispatch (h : Host) (bodyUrl : string) (platform : option Cobalt.Platform)
    (shouldCompress : bool) (cobaltResponse : Cobalt.CobaltResponse) : M HttpResponse :=
  match cobaltResponse with
  | Cobalt.error code _ =>
      ret (respond (errorBody ("Download failed: " +:+ code)) 400)
  | Cobalt.picker items =>
      match List.find isVideo items with
      | None => ret (respond (errorBody "No video found in the content") 400)
      | Some firstVideo => handlePicker h bodyUrl platform shouldCompress firstVideo
      end
  | Cobalt.tunnel downloadUrl filename
  | Cobalt.redirect downloadUrl filename =>
      handleDirect h bodyUrl platform shouldCompress downloadUrl filename
  | Cobalt.other _ =>
      ret (respond (errorBody "Unexpected response from download service") 500)
  end.

(** The [catch] of [POST]. *)
Definition onError (error : exn) : M HttpResponse :=
  ret (respond (errorBody match error with
                          | Error message => message
                          | Thrown => "Download failed"
                          end) 500).

(** [POST]; [requestJson] is what [request.json()] resolves to. *)
Definition POST (h : Host) (requestJson : result DownloadRequest) : M HttpResponse :=
  tryCatch
    (body <- lift requestJson ;;
     if missing (url body) then
       ret (respond (errorBody "URL is required") 400)
     else
       let bodyUrl := Cobalt.orDefault (url body) "" in
       if negb (Cobalt.isUrlSupported bodyUrl) then
         ret (respond (errorBody
           "URL is not supported. Try YouTube, TikTok, Instagram, or LinkedIn.") 400)
       else
         let platform := Cobalt.detectPlatform bodyUrl in
         let shouldCompress := shouldCompressOf h body in
         cobaltResponse <- lift (Cobalt.requestDownload (net h)
                                   (cobaltOptions bodyUrl body)) ;;
         dispatch h bodyUrl platform shouldCompress cobaltResponse)
    onError.

End Route.

(** ** What the properties are stated with *)

Module Spec.
Import Js.

(** [lit] occurs in [s] as a substring, up to the case of the letters. *)
Definition occursI (lit s : string) : Prop :=
  exists pre mid post,
    s = pre +:+ mid +:+ post /\ toUpperCase mid = toUpperCase lit.

(** One of the alternatives of a pattern occurs in [s]. *)
Definition matchesI (alts : list string) (s : string) : Prop :=
  exists lit, In lit alts /\ occursI lit s.

(** [s] ends with [suffix]. *)
Definition endsWith (suffix s : string) : bool :=
  String.eqb (sliceLast (String.length suffix) s) suffix
  && (String.length suffix <=? String.length s)%nat.

(** A file extension as the route's pattern sees it: not empty, and
    without a dot or a slash. *)
Definition isExtension (ext : string) : Prop :=
  ext <> EmptyString /\ allNotSlashDot ext = true.

(** [s] has an extension: it ends with a dot and an extension. *)
Definition hasExtension (s : string) : Prop :=
  exists base ext, s = base +:+ "." +:+ ext /\ isExtension ext.

(** [s] is made of decimal digits only. *)
Fixpoint allDigits (s : string) : bool :=
  match s with
  | EmptyString => true
  | String c s' =>
      match digitValue 10 c with
      | Some _ => allDigits s'
      | None => false
      end
  end.

(** A header value that is a decimal numeral. *)
Definition numeric (s : string) : bool :=
  negb (String.eqb s EmptyString) && allDigits s.

(** [s] has no occurrence of the character [c]. *)
Fixpoint lacks (c : ascii) (s : string) : bool :=
  match s with
  | EmptyString => true
  | String a s' => negb (Ascii.eqb a c) && lacks c s'
  end.

(** The encoder did not end with exit code zero: another code, a signal,
    or a failure to start. *)
Definition encoderFailed (ending : Compress.ProcessEnd) : bool :=
  match ending with
  | Compress.closed (Some 0) _ => false
  | _ => true
  end.

(** A computation that touches the file system only. *)
Definition filesOnly {A : Type} (m : Sys.M A) : Prop :=
  forall w, Sys.blobs (fst (m w)) = Sys.blobs w /\
            Sys.videos (fst (m w)) = Sys.videos w.

(** A computation that never throws. *)
Definition total {A : Type} (m : Sys.M A) : Prop :=
  forall w, exists a, snd (m w) = Return a.

(** What a run of the route has stored: nothing; a blob without a row
    (the row could not be written); or a blob and then the row that
    points to it. A blob is only ever stored after a successful download
    and by a successful upload. *)
Inductive Stored (h : Route.Host) (w w' : Sys.World) (r : result Route.HttpResponse)
  : Prop :=
| storedNothing :
    Sys.blobs w' = Sys.blobs w ->
    Sys.videos w' = Sys.videos w ->
    Stored h w w' r
| storedBlob (key : string) (blob : Sys.Blob) (target : string) (d : Cobalt.Download) :
    Cobalt.downloadFromUrl (Route.net h) target = Return d ->
    Storage.putFault (Route.storage h) key = None ->
    Sys.blobs w' = <[key := blob]> (Sys.blobs w) ->
    Sys.videos w' = Sys.videos w ->
    Stored h w w' r
| storedRecord (key : string) (blob : Sys.Blob) (row : Sys.VideoRecord)
    (target : string) (d : Cobalt.Download) (response : Route.HttpResponse) :
    Cobalt.downloadFromUrl (Route.net h) target = Return d ->
    Storage.putFault (Route.storage h) key = None ->
    Sys.blobs w' = <[key := blob]> (Sys.blobs w) ->
    Sys.videos w' = Sys.videos w ++ [row] ->
    Sys.fileKey (Sys.data row) = key ->
    Sys.mimeType (Sys.data row) = Sys.blobContentType blob ->
    Sys.fileSize (Sys.data row) = lengthZ (Sys.blobBody blob) ->
    Sys.status (Sys.data row) = "COMPLETED" ->
    r = Return response ->
    Route.httpStatus response = 200%N ->
    Stored h w w' r.

(** Every row of the table points to an object of the bucket. *)
Definition backed (w : Sys.World) : Prop :=
  forall row, In row (Sys.videos w) ->
              is_Some (Sys.blobs w !! Sys.fileKey (Sys.data row)).

(** The value of a string of decimal digits after the digits of value
    [acc]. *)
Fixpoint decimalValue (acc : Z) (s : string) : Z :=
  match s with
  | EmptyString => acc
  | String c s' =>
      decimalValue (10 * acc + match digitValue 10 c with Some d => d | None => 0 end) s'
  end.

(** A digit of base 36 as [toString(36)] prints it. *)
Definition isBase36 (c : ascii) : bool :=
  let n := nat_of_ascii c in
  (((48 <=? n) && (n <=? 57)) || ((97 <=? n) && (n <=? 122)))%nat.

Fixpoint allBase36 (s : string) : bool :=
  match s with
  | EmptyString => true
  | String c s' => isBase36 c && allBase36 s'
  end.

(** What [Math.random().toString(36)] can be: [0], or [0.] followed by
    digits of base 36. *)
Definition isRandom36 (s : string) : bool :=
  match s with
  | String "0"%char EmptyString => true
  | String "0"%char (String "."%char frac) => allBase36 frac
  | _ => false
  end.

End Spec.

(** ** Concrete hosts and inputs, to run the code on *)

Module Samples.
Import Js.

Definition noHeaders : string -> option string := fun _ => None.

(** Three bytes of media. *)
Definition media3 : Buffer := [Byte.x00; Byte.x01; Byte.x02].

(** Two bytes: what the sample encoder writes. *)
Definition media2 : Buffer := [Byte.x0a; Byte.x0b].

(** A successful response of a media server, with the given
    [content-length] header. *)
Definition mediaResponse (contentLength : option string) (body : Buffer)
  : Cobalt.Response :=
  {| Cobalt.ok := true;
     Cobalt.status := 200;
     Cobalt.statusText := "OK";
     Cobalt.headers := fun name =>
       if String.eqb name "content-length" then contentLength
       else if String.eqb name "content-type" then Some "video/webm"
       else None;
     Cobalt.json := Throw (Error "Unexpected token");
     Cobalt.arrayBuffer := Return body |}.

(** A response of the resolution service with the given body. *)
Definition serviceResponse (body : Cobalt.CobaltResponse) : Cobalt.Response :=
  {| Cobalt.ok := true;
     Cobalt.status := 200;
     Cobalt.statusText := "OK";
     Cobalt.headers := noHeaders;
     Cobalt.json := Return body;
     Cobalt.arrayBuffer := Throw Thrown |}.

(** The resolution service answers 500. *)
Definition serviceDown : Cobalt.Response :=
  {| Cobalt.ok := false;
     Cobalt.status := 500;
     Cobalt.statusText := "Internal Server Error";
     Cobalt.headers := noHeaders;
     Cobalt.json := Throw (Error "Unexpected end of JSON input");
     Cobalt.arrayBuffer := Throw Thrown |}.

(** A network: what the service answers, and what every media URL serves. *)
Definition netOf (service : result Cobalt.Response) (media : result Cobalt.Response)
  : Cobalt.Net :=
  {| Cobalt.COBALT_API_URL := "http://cobalt:9000";
     Cobalt.fetchPost := fun _ _ => service;
     Cobalt.fetchGet := fun _ => media |}.

Definition sampleOptions : Cobalt.CobaltDownloadOptions :=
  {| Cobalt.url := "https://www.youtube.com/watch?v=abc";
     Cobalt.videoQuality := Some "720";
     Cobalt.audioFormat := None;
     Cobalt.audioBitrate := None;
     Cobalt.downloadMode := None;
     Cobalt.filenameStyle := None;
     Cobalt.youtubeVideoCodec := None |}.

(** A transcoder host: the probe succeeds; the encoder ends as told,
    after writing [media2] to its last argument when [writes] is set. *)
Definition transcoderOf (ending : Compress.ProcessEnd) (writes : bool)
    (unlinkFault : string -> option exn) : Compress.Host :=
  {| Compress.env := fun _ => None;
     Compress.tmpdir := "/tmp";
     Compress.inputId := "11111111-aaaa";
     Compress.outputId := "22222222-bbbb";
     Compress.spawnFFmpeg := fun args fs =>
       if bool_decide (args = ["-version"])
       then (fs, Compress.closed (Some 0) "ffmpeg version 6.0")
       else (if writes then <[List.last args "" := media2]> fs else fs, ending);
     Compress.writeFault := fun _ => None;
     Compress.readFault := fun _ => None;
     Compress.unlinkFault := unlinkFault |}.

Definition noFault : string -> option exn := fun _ => None.

Definition goodEncoder : Compress.Host :=
  transcoderOf (Compress.closed (Some 0) "") true noFault.

Definition failingEncoder : Compress.Host :=
  transcoderOf (Compress.closed (Some 1) "Invalid data found when processing input")
    false noFault.

Definition missingEncoder : Compress.Host :=
  transcoderOf (Compress.spawnError "spawn ffmpeg ENOENT") false noFault.

Definition emptyWorld : Sys.World :=
  {| Sys.files := ∅; Sys.blobs := ∅; Sys.videos := [] |}.

(** A host of the route. *)
Definition hostOf (n : Cobalt.Net) (t : Compress.Host) (putFault : string -> option exn)
  : Route.Host :=
  {| Route.net := n;
     Route.transcoder := t;
     Route.storage := {| Storage.putFault := putFault |};
     Route.now := 1700000000000;
     Route.random36 := "0.k3j9x2m1qa7";
     Route.createFault := fun _ => None;
     Route.newId := "ckv1" |}.

Definition sampleRequest : Route.DownloadRequest :=
  {| Route.url := Some "https://www.youtube.com/watch?v=abc";
     Route.videoQuality := Some "720";
     Route.downloadMode := None;
     Route.compress := Some true |}.

(** The service resolves to a direct download with the given filename. *)
Definition directNet (filename : string) : Cobalt.Net :=
  netOf (Return (serviceResponse (Cobalt.tunnel "https://cdn/example.mp4" filename)))
        (Return (mediaResponse None media3)).

(** A post with a photo first and two videos after it. *)
Definition pickerItems : list Cobalt.PickerItem :=
  [ {| Cobalt.type := Cobalt.photo; Cobalt.itemUrl := "https://cdn/1.jpg";
       Cobalt.thumb := None |};
    {| Cobalt.type := Cobalt.video; Cobalt.itemUrl := "https://cdn/2.mp4";
       Cobalt.thumb := Some "https://cdn/2.jpg" |};
    {| Cobalt.type := Cobalt.video; Cobalt.itemUrl := "https://cdn/3.mp4";
       Cobalt.thumb := None |} ].

Definition secondItem : Cobalt.PickerItem :=
  {| Cobalt.type := Cobalt.video; Cobalt.itemUrl := "https://cdn/2.mp4";
     Cobalt.thumb := Some "https://cdn/2.jpg" |}.

Definition pickerNet : Cobalt.Net :=
  netOf (Return (serviceResponse (Cobalt.picker pickerItems)))
        (Return (mediaResponse None media3)).

Definition sampleUrl : string := "https://www.youtube.com/watch?v=abc".

End Samples.

(** ** [src/lib/storage.ts]: the other operations of the blob gateway *)

Module Bucket.
Import Js Sys Sys.Notations.

Record Host : Type := {
  headFault : option exn;                  (* HeadBucketCommand rejects *)
  deleteFault : string -> option exn;      (* DeleteObjectCommand rejects *)
  presign : string -> N -> result string   (* getSignedUrl of a GetObjectCommand *)
}.

(** [s3Client.send(new HeadBucketCommand(...))]. *)
Definition headBucket (h : Host) : M unit :=
  fun w =>
    match headFault h with
    | Some e => (w, Throw e)
    | None => (w, Return tt)
    end.

Definition checkStorageHealth (h : Host) : M bool :=
  tryCatch (_ <- headBucket h ;; ret true) (fun _ => ret false).

(** [deleteFile]: the object store removes the key, present or not. *)
Definition deleteFile (h : Host) (key : string) : M unit :=
  fun w =>
    match deleteFault h key with
    | Some e => (w, Throw e)
    | None => (withBlobs w (delete key (blobs w)), Return tt)
    end.

(** [getSignedDownloadUrl(key, expiresIn = 3600)]. *)
Definition getSignedDownloadUrl (h : Host) (key : string) (expiresIn : option N)
  : M string :=
  lift (presign h key (match expiresIn with Some n => n | None => 3600%N end)).

End Bucket.

(** ** The videos route: listing and deleting *)

Module Videos.
Import Js Sys Sys.Notations.

Record Host : Type := {
  bucket : Bucket.Host;
  findManyFault : option exn;              (* prisma.video.findMany rejects *)
  findUniqueFault : string -> option exn;  (* prisma.video.findUnique rejects *)
  rowDeleteFault : string -> option exn    (* prisma.video.delete rejects *)
}.

(** [findMany({ orderBy: { createdAt: "desc" }, take: 50 })]; the table is
    kept oldest first, [createdAt] being the time of the insertion. *)
Definition findMany (h : Host) : M (list VideoRecord) :=
  fun w =>
    match findManyFault h with
    | Some e => (w, Throw e)
    | None => (w, Return (firstn 50 (rev (videos w))))
    end.

Definition hasId (wanted : string) (row : VideoRecord) : bool :=
  String.eqb (id row) wanted.

(** [findUnique({ where: { id } })]. *)
Definition findUnique (h : Host) (wanted : string) : M (option VideoRecord) :=
  fun w =>
    match findUniqueFault h wanted with
    | Some e => (w, Throw e)
    | None => (w, Return (List.find (hasId wanted) (videos w)))
    end.

(** [delete({ where: { id } })]: rejects when no row has the id. *)
Definition rowDelete (h : Host) (wanted : string) : M unit :=
  fun w =>
    match rowDeleteFault h wanted with
    | Some e => (w, Throw e)
    | None =>
        if existsb (hasId wanted) (videos w) then
          (withVideos w (List.filter (fun row => negb (hasId wanted row)) (videos w)),
           Return tt)
        else (w, Throw (Error "Record to delete does not exist."))
    end.

Inductive Payload : Type :=
| errorBody (error : string)
| videosBody (videos : list (VideoRecord * option string))
| successBody.

Record HttpResponse : Type := {
  httpStatus : N;
  payload : Payload
}.

Definition respond (payload : Payload) (status : N) : HttpResponse :=
  {| httpStatus := status; payload := payload |}.

(** The body of the [map] of [GET]: the row with its signed URL, or with
    [null] when the signing throws. *)
Definition withUrl (h : Host) (video : VideoRecord) : M (VideoRecord * option string) :=
  tryCatch
    (downloadUrl <- Bucket.getSignedDownloadUrl (bucket h) (fileKey (data video)) None ;;
     ret (video, Some downloadUrl))
    (fun _ => ret (video, None)).

(** [Promise.all(list.map(f))] for an [f] that leaves the world alone. *)
Fixpoint all {A B : Type} (f : A -> M B) (l : list A) : M (list B) :=
  match l with
  | [] => ret []
  | a :: rest =>
      b <- f a ;;
      bs <- all f rest ;;
      ret (b :: bs)
  end.

Definition GET (h : Host) : M HttpResponse :=
  tryCatch
    (rows <- findMany h ;;
     videosWithUrls <- all (withUrl h) rows ;;
     ret (respond (videosBody videosWithUrls) 200))
    (fun _ => ret (respond (errorBody "Failed to list videos") 500)).

(** [DELETE]; [idParam] is [searchParams.get("id")]. *)
Definition DELETE (h : Host) (idParam : option string) : M HttpResponse :=
  tryCatch
    (if Route.missing idParam then
       ret (respond (errorBody "Video ID is required") 400)
     else
       let wanted := Cobalt.orDefault idParam "" in
       video <- findUnique h wanted ;;
       match video with
       | None => ret (respond (errorBody "Video not found") 404)
       | Some found =>
           _ <- swallow (Bucket.deleteFile (bucket h) (fileKey (data found))) ;;
           _ <- rowDelete h wanted ;;
           ret (respond successBody 200)
       end)
    (fun _ => ret (respond (errorBody "Failed to delete video") 500)).

End Videos.

(** ** The health route *)

Module Health.
Import Js Sys Sys.Notations.

Record Host : Type := {
  bucket : Bucket.Host;
  queryFault : option exn;     (* prisma.$queryRaw`SELECT 1` rejects *)
  dbStart : N;                 (* Date.now() before the query *)
  dbEnd : N;                   (* Date.now() after the query *)
  isoNow : string;             (* new Date().toISOString() *)
  env : string -> option string
}.

Record HealthStatus : Type := {
  status : string;
  timestamp : string;
  databaseStatus : string;
  databaseLatency : option Z;
  storageStatus : string;
  appName : string;
  appEnvironment : string
}.

Record HttpResponse : Type := {
  httpStatus : N;
  payload : HealthStatus
}.

Definition queryRaw (h : Host) : M unit :=
  fun w =>
    match queryFault h with
    | Some e => (w, Throw e)
    | None => (w, Return tt)
    end.

Definition GET (h : Host) : M HttpResponse :=
  ' (dbStatus, dbLatency) <-
    tryCatch
      (_ <- queryRaw h ;;
       ret ("connected", Some (Z.of_N (dbEnd h) - Z.of_N (dbStart h))))
      (fun _ => ret ("disconnected", None)) ;;
  storageStatus <-
    tryCatch
      (isHealthy <- Bucket.checkStorageHealth (bucket h) ;;
       ret (if isHealthy : bool then "connected" else "disconnected"))
      (fun _ => ret "disconnected") ;;
  let isHealthy :=
    String.eqb dbStatus "connected" && String.eqb storageStatus "connected" in
  ret {| httpStatus := if isHealthy then 200 else 503;
         payload :=
           {| status := if isHealthy then "healthy" else "unhealthy";
              timestamp := isoNow h;
              databaseStatus := dbStatus;
              databaseLatency := dbLatency;
              storageStatus := storageStatus;
              appName := Cobalt.orDefault (env h "NEXT_PUBLIC_APP_NAME") "app-transcribe";
              appEnvironment := Cobalt.orDefault (env h "NODE_ENV") "development" |} |}.

End Health.

(** ** [formatSize] of [src/lib/compress.ts] *)

Module Format.
Import Js.

Local Open Scope N_scope.

(** The digits of [n] on at least [width] places. *)
Fixpoint pad (width : nat) (n : N) : string :=
  match width with
  | O => EmptyString
  | S width' => pad width' (n / 10) +:+ showN (n mod 10)
  end.

(** [(num / den).toFixed(digits)] for integers [num >= 0] and [den] a
    power of two: the quotient is then exact as a double, and [toFixed]
    takes the integer [n] for which [n / 10^digits] is nearest to it, the
    larger one in a tie. *)
Definition toFixed (digits : nat) (num den : N) : string :=
  let scale := 10 ^ N.of_nat digits in
  let n := (2 * num * scale + den) / (2 * den) in
  showN (n / scale) +:+ "." +:+ pad digits (n mod scale).

(** [formatSize(bytes)] for a length: an integer that a double holds
    exactly, so at most [2^53 - 1]. *)
Definition formatSize (bytes : N) : string :=
  if bytes <? 1024 then showN bytes +:+ " B"
  else if bytes <? 1024 * 1024 then toFixed 1 bytes 1024 +:+ " KB"
  else if bytes <? 1024 * 1024 * 1024 then toFixed 1 bytes (1024 * 1024) +:+ " MB"
  else toFixed 2 bytes (1024 * 1024 * 1024) +:+ " GB".

End Format.

(** ** The queue of the downloader component *)

Module Queue.
Import Js.

Inductive Status : Type := pending | downloading | completed | error.

Record QueueItem : Type := {
  id : string;
  url : string;
  status : Status;
  progress : Z;
  errorMessage : option string
}.

(** The state of the component. *)
Record State : Type := {
  urlInput : string;
  queue : list QueueItem;
  isProcessing : bool
}.

Inductive Toast : Type :=
| toastError (message : string)
| toastWarning (message : string).

(** [!s.trim()]: the string has white space only. *)
Fixpoint blank (s : string) : bool :=
  match s with
  | EmptyString => true
  | String c s' => isWhiteSpace c && blank s'
  end.

(** A new item; [random36] is [Math.random().toString(36)]. *)
Definition newItem (random36 : string) (u : string) : QueueItem :=
  {| id := sliceFrom 7 random36;
     url := u;
     status := pending;
     progress := 0;
     errorMessage := None |}.

Definition hasUrl (u : string) (item : QueueItem) : bool := String.eqb (url item) u.

(** [addToQueue(urlToAdd)], in a render whose [queue] is the state's. *)
Definition addToQueue (random36 : string) (s : State) (urlToAdd : string)
  : State * list Toast :=
  if blank urlToAdd then (s, [])
  else if existsb (hasUrl urlToAdd) (queue s) then
    (s, [toastError "Link already in queue"])
  else
    ({| urlInput := "";
        queue := queue s ++ [newItem random36 urlToAdd];
        isProcessing := isProcessing s |}, []).

(** The loop of [addMultipleToQueue]; [draw k] is the random number of
    the item pushed when [k] items are already in [newItems]. *)
Fixpoint addLoop (draw : nat -> string) (urls : list string)
    (existingUrls : gset string) (newItems : list QueueItem) (skipped : nat)
  : list QueueItem * nat :=
  match urls with
  | [] => (newItems, skipped)
  | u :: rest =>
      if decide (u ∈ existingUrls) then
        addLoop draw rest existingUrls newItems (S skipped)
      else
        addLoop draw rest ({[u]} ∪ existingUrls)
          (newItems ++ [newItem (draw (length newItems)) u]) skipped
  end.

Definition plural (n : nat) : string :=
  if (1 <? n)%nat then "s" else "".

Definition addMultipleToQueue (draw : nat -> string) (s : State) (urls : list string)
  : State * list Toast :=
  let existingUrls : gset string := list_to_set (map url (queue s)) in
  let '(newItems, skipped) := addLoop draw urls existingUrls [] 0 in
  ({| urlInput := "";
      queue := match newItems with [] => queue s | _ => queue s ++ newItems end;
      isProcessing := isProcessing s |},
   if (0 <? skipped)%nat then
     [toastWarning (showN (N.of_nat skipped) +:+ " duplicate link" +:+ plural skipped
                    +:+ " skipped")]
   else []).

Definition removeFromQueue (wanted : string) (s : State) : State :=
  {| urlInput := urlInput s;
     queue := List.filter (fun item => negb (String.eqb (id item) wanted)) (queue s);
     isProcessing := isProcessing s |}.

(** What the request of one item comes to: [fetch] rejects; or it
    resolves with [ok] and a body that [json()] parses or not, whose
    [error] field is read. *)
Inductive Answer : Type :=
| rejected (e : exn)
| answered (ok : bool) (body : result (option string)).

(** The updates of [downloadItem], each a [setQueue(prev => prev.map(...))]. *)
Definition markDownloading (wanted : string) (q : list QueueItem) : list QueueItem :=
  map (fun i =>
         if String.eqb (id i) wanted then
           {| id := id i; url := url i; status := downloading; progress := 10;
              errorMessage := errorMessage i |}
         else i) q.

Definition isDownloading (i : QueueItem) : bool :=
  match status i with
  | downloading => true
  | _ => false
  end.

(** One tick of the progress timer. *)
Definition tick (wanted : string) (q : list QueueItem) : list QueueItem :=
  map (fun i =>
         if String.eqb (id i) wanted && isDownloading i then
           {| id := id i; url := url i; status := status i;
              progress := Z.min (progress i + 5) 90;
              errorMessage := errorMessage i |}
         else i) q.

Definition markCompleted (wanted : string) (q : list QueueItem) : list QueueItem :=
  map (fun i =>
         if String.eqb (id i) wanted then
           {| id := id i; url := url i; status := completed; progress := 100;
              errorMessage := errorMessage i |}
         else i) q.

Definition markError (wanted : string) (message : string) (q : list QueueItem)
  : list QueueItem :=
  map (fun i =>
         if String.eqb (id i) wanted then
           {| id := id i; url := url i; status := error; progress := progress i;
              errorMessage := Some message |}
         else i) q.

(** [error instanceof Error ? error.message : "Failed"]. *)
Definition messageOf (e : exn) : string :=
  match e with
  | Error message => message
  | Thrown => "Failed"
  end.

(** [downloadItem(item)]: [ticks] is the number of times the timer fires
    before the request settles. The callback [onDownloadComplete], a
    state update of the page, is left out. *)
Definition downloadItem (ticks : nat) (answer : Answer) (item : QueueItem)
    (q : list QueueItem) : list QueueItem :=
  let q1 := markDownloading (id item) q in
  let q2 := Nat.iter ticks (tick (id item)) q1 in
  match answer with
  | rejected e => markError (id item) (messageOf e) q2
  | answered _ (Throw e) => markError (id item) (messageOf e) q2
  | answered false (Return dataError) =>
      markError (id item) (Cobalt.orDefault dataError "Failed") q2
  | answered true (Return _) => markCompleted (id item) q2
  end.

Definition isPending (i : QueueItem) : bool :=
  match status i with
  | pending => true
  | _ => false
  end.

(** [processQueue()], while nothing else touches the queue. *)
Definition processQueue (ticks : QueueItem -> nat) (answer : QueueItem -> Answer)
    (s : State) : State :=
  if isProcessing s then s
  else
    let pendingItems := List.filter isPending (queue s) in
    {| urlInput := urlInput s;
       queue := fold_left (fun q item => downloadItem (ticks item) (answer item) item q)
                  pendingItems (queue s);
       isProcessing := false |}.

End Queue.

(** ** What the further properties are stated with *)

Module Facts.
Import Js.

(** What the compression block hands to the upload: the download as it
    is, or the output of [compressVideo] under the MP4 type. *)
Definition stores (h : Route.Host) (shouldCompress : bool) (d : Cobalt.Download)
    (b : Buffer) (type : string) : Prop :=
  (b = Cobalt.buffer d /\ type = Cobalt.contentType d) \/
  (shouldCompress = true /\ type = "video/mp4" /\
   exists c w1,
     snd (Compress.compressVideo (Route.transcoder h) (Cobalt.buffer d)
            (Cobalt.contentType d) Compress.noOptions w1) = Return c /\
     b = Compress.buffer c).

(** The key the route generates for a file name. *)
Definition keyOf (h : Route.Host) (name : string) : string :=
  Storage.generateFileKey (Route.now h) (Route.random36 h) name.

(** The row the route writes for a title, a file name and the bytes it
    has stored. *)
Definition rowOf (h : Route.Host) (title name : string)
    (platform : option Cobalt.Platform) (bodyUrl : string) (b : Buffer) (type : string)
  : Sys.VideoRecord :=
  {| Sys.id := Route.newId h;
     Sys.data :=
       {| Sys.title := title;
          Sys.fileName := name;
          Sys.fileKey := keyOf h name;
          Sys.fileSize := lengthZ b;
          Sys.mimeType := type;
          Sys.status := "COMPLETED";
          Sys.platform := platform;
          Sys.originalUrl := bodyUrl |} |}.

(** The three ways a branch of the route ends, for the URL it downloads,
    the title and the file name it uses and the response it builds: an
    error before anything is stored; a stored object whose row could not
    be written; a stored object and its row. *)
Inductive Run (h : Route.Host) (shouldCompress : bool) (target title name : string)
    (platform : option Cobalt.Platform) (bodyUrl : string)
    (answer : Sys.VideoRecord -> Cobalt.Download -> Route.HttpResponse)
    (w w' : Sys.World) (r : result Route.HttpResponse) : Prop :=
| runFailed (e : exn) :
    r = Throw e ->
    Sys.blobs w' = Sys.blobs w ->
    Sys.videos w' = Sys.videos w ->
    Run h shouldCompress target title name platform bodyUrl answer w w' r
| runOrphan (d : Cobalt.Download) (b : Buffer) (type : string) (e : exn) :
    Cobalt.downloadFromUrl (Route.net h) target = Return d ->
    stores h shouldCompress d b type ->
    Storage.putFault (Route.storage h) (keyOf h name) = None ->
    r = Throw e ->
    Sys.blobs w' =
      <[keyOf h name := {| Sys.blobBody := b; Sys.blobContentType := type |}]>
        (Sys.blobs w) ->
    Sys.videos w' = Sys.videos w ->
    Run h shouldCompress target title name platform bodyUrl answer w w' r
| runCommitted (d : Cobalt.Download) (b : Buffer) (type : string) :
    Cobalt.downloadFromUrl (Route.net h) target = Return d ->
    stores h shouldCompress d b type ->
    Storage.putFault (Route.storage h) (keyOf h name) = None ->
    r = Return (answer (rowOf h title name platform bodyUrl b type) d) ->
    Sys.blobs w' =
      <[keyOf h name := {| Sys.blobBody := b; Sys.blobContentType := type |}]>
        (Sys.blobs w) ->
    Sys.videos w' = Sys.videos w ++ [rowOf h title name platform bodyUrl b type] ->
    Run h shouldCompress target title name platform bodyUrl answer w w' r.

(** The largest integer below which every integer is a double. *)
Definition MAX_SAFE_INTEGER : Z := 9007199254740991.

(** A string of ASCII characters. *)
Fixpoint isAscii (s : string) : bool :=
  match s with
  | EmptyString => true
  | String c s' => (nat_of_ascii c <? 128)%nat && isAscii s'
  end.


(** The response of the route for an error that its [catch] receives. *)
Definition caught (e : exn) : Route.HttpResponse :=
  Route.respond
    (Route.errorBody match e with
                     | Error message => message
                     | Thrown => "Download failed"
                     end) 500.

(** The response of the direct branch for a row and its download. *)
Definition directAnswer (platform : option Cobalt.Platform)
    (row : Sys.VideoRecord) (d : Cobalt.Download) : Route.HttpResponse :=
  Route.respond
    (Route.directBody (Sys.id row) (Sys.title (Sys.data row))
       (Sys.fileName (Sys.data row)) (Sys.fileKey (Sys.data row))
       (Sys.fileSize (Sys.data row)) (lengthZ (Cobalt.buffer d))
       (lengthZ (Cobalt.buffer d) - Sys.fileSize (Sys.data row))
       (Sys.mimeType (Sys.data row)) platform) 200.

(** The response of the picker branch. *)
Definition pickerAnswer (platform : option Cobalt.Platform)
    (row : Sys.VideoRecord) (d : Cobalt.Download) : Route.HttpResponse :=
  Route.respond
    (Route.pickerBody (Sys.id row) (Sys.title (Sys.data row))
       (Sys.fileKey (Sys.data row)) (Sys.fileSize (Sys.data row)) platform) 200.

(** What a run works on, for an answer of the resolution service: the
    URL it downloads, the title and the file name of the row, and the
    response for the row; [None] for an answer that starts no download. *)
Definition branch (platform : option Cobalt.Platform) (answer : Cobalt.CobaltResponse)
  : option (string * string * string *
            (Sys.VideoRecord -> Cobalt.Download -> Route.HttpResponse)) :=
  match answer with
  | Cobalt.tunnel downloadUrl filename
  | Cobalt.redirect downloadUrl filename =>
      Some (downloadUrl, Cobalt.extractTitleFromFilename filename,
            replaceExtension ".mp4" filename, directAnswer platform)
  | Cobalt.picker items =>
      match List.find Route.isVideo items with
      | Some firstVideo =>
          Some (Cobalt.itemUrl firstVideo, "Video from " +:+ Route.showPlatform platform,
                "video.mp4", pickerAnswer platform)
      | None => None
      end
  | _ => None
  end.

(** The result [after] of a request that starts a download, step by
    step. When the download of [target] fails the world is untouched.
    Otherwise the bytes handed to the upload are those of this download,
    as they are or compressed; when the upload under the run's key fails,
    neither the bucket nor the table changes; when it succeeds the bucket
    holds the bytes under that key, and the row is then added, unless its
    creation fails. Every failure is answered 500 with its message. *)
Definition Outcome (h : Route.Host) (shouldCompress : bool) (target title name : string)
    (platform : option Cobalt.Platform) (bodyUrl : string)
    (answer : Sys.VideoRecord -> Cobalt.Download -> Route.HttpResponse)
    (w : Sys.World) (after : Sys.World * result Route.HttpResponse) : Prop :=
  match Cobalt.downloadFromUrl (Route.net h) target with
  | Throw e => after = (w, Return (caught e))
  | Return d =>
      exists b type,
        stores h shouldCompress d b type /\
        match Storage.putFault (Route.storage h) (keyOf h name) with
        | Some e =>
            Sys.blobs (fst after) = Sys.blobs w /\
            Sys.videos (fst after) = Sys.videos w /\
            snd after = Return (caught e)
        | None =>
            let row := rowOf h title name platform bodyUrl b type in
            (Sys.blobs (fst after) =
               <[keyOf h name := {| Sys.blobBody := b; Sys.blobContentType := type |}]>
                 (Sys.blobs w)) /\
            match Route.createFault h (Sys.data row) with
            | Some e =>
                Sys.videos (fst after) = Sys.videos w /\
                snd after = Return (caught e)
            | None =>
                Sys.videos (fst after) = Sys.videos w ++ [row] /\
                snd after = Return (answer row d)
            end
        end
  end.

(** [l] starts with [l0]. *)
Definition extends {A : Type} (l0 l : list A) : Prop := exists more, l = l0 ++ more.

(** The signed URL of a row as the listing shows it. *)
Definition signedUrl (h : Videos.Host) (row : Sys.VideoRecord) : option string :=
  match Bucket.presign (Videos.bucket h) (Sys.fileKey (Sys.data row)) 3600 with
  | Return u => Some u
  | Throw _ => None
  end.

(** An item of the queue once its request has settled after [ticks]
    ticks of the progress timer. *)
Definition settled (ticks : nat) (answer : Queue.Answer) (i : Queue.QueueItem)
  : Queue.QueueItem :=
  let failed message :=
    {| Queue.id := Queue.id i; Queue.url := Queue.url i; Queue.status := Queue.error;
       Queue.progress := Z.min (10 + 5 * Z.of_nat ticks) 90;
       Queue.errorMessage := Some message |} in
  match answer with
  | Queue.rejected e => failed (Queue.messageOf e)
  | Queue.answered _ (Throw e) => failed (Queue.messageOf e)
  | Queue.answered false (Return dataError) => failed (Cobalt.orDefault dataError "Failed")
  | Queue.answered true (Return _) =>
      {| Queue.id := Queue.id i; Queue.url := Queue.url i;
         Queue.status := Queue.completed; Queue.progress := 100;
         Queue.errorMessage := Queue.errorMessage i |}
  end.

(** A new item: pending, without progress and without error. *)
Definition fresh_item (i : Queue.QueueItem) : Prop :=
  Queue.status i = Queue.pending /\ Queue.progress i = 0 /\ Queue.errorMessage i = None.

(** What the download of [p] makes of an item [x]: it settles it when
    it has the id of [p]. *)
Definition hit (ticks : Queue.QueueItem -> nat) (answer : Queue.QueueItem -> Queue.Answer)
    (x p : Queue.QueueItem) : Queue.QueueItem :=
  if String.eqb (Queue.id x) (Queue.id p) then settled (ticks p) (answer p) x else x.

(** An item as [processQueue] leaves it. *)
Definition processed (ticks : Queue.QueueItem -> nat)
    (answer : Queue.QueueItem -> Queue.Answer) (i : Queue.QueueItem) : Queue.QueueItem :=
  if Queue.isPending i then settled (ticks i) (answer i) i else i.

End Facts.

(** ** Further hosts and inputs *)

Module Cases.
Import Js.

(** The row and the object that the sample run of the route stores. *)
Definition clipKey : string := "videos/1700000000000-k3j9x2m1qa7.mp4".

Definition clipRow : Sys.VideoRecord :=
  {| Sys.id := "ckv1";
     Sys.data :=
       {| Sys.title := "My Video Clip";
          Sys.fileName := "My_Video-Clip.mp4";
          Sys.fileKey := clipKey;
          Sys.fileSize := 2;
          Sys.mimeType := "video/mp4";
          Sys.status := "COMPLETED";
          Sys.platform := Some Cobalt.YouTube;
          Sys.originalUrl := Samples.sampleUrl |} |}.

Definition pickedRow : Sys.VideoRecord :=
  {| Sys.id := "ckv1";
     Sys.data :=
       {| Sys.title := "Video from YouTube";
          Sys.fileName := "video.mp4";
          Sys.fileKey := clipKey;
          Sys.fileSize := 2;
          Sys.mimeType := "video/mp4";
          Sys.status := "COMPLETED";
          Sys.platform := Some Cobalt.YouTube;
          Sys.originalUrl := Samples.sampleUrl |} |}.

Definition clipBlob : Sys.Blob :=
  {| Sys.blobBody := Samples.media2; Sys.blobContentType := "video/mp4" |}.

(** A world with that row and that object. *)
Definition clipWorld : Sys.World :=
  {| Sys.files := ∅; Sys.blobs := {[clipKey := clipBlob]}; Sys.videos := [clipRow] |}.

Definition directHost : Route.Host :=
  Samples.hostOf (Samples.directNet "My_Video-Clip.mp4") Samples.goodEncoder
    Samples.noFault.

Definition pickerHost : Route.Host :=
  Samples.hostOf Samples.pickerNet Samples.goodEncoder Samples.noFault.

(** The resolution service answers with its error variant. *)
Definition refusingHost : Route.Host :=
  Samples.hostOf
    (Samples.netOf
       (Return (Samples.serviceResponse (Cobalt.error "error.api.link.invalid" None)))
       (Throw Thrown))
    Samples.goodEncoder Samples.noFault.

(** The bucket rejects every upload. *)
Definition bucketDown : string -> option exn :=
  fun _ => Some (Error "bucket unavailable").

(** The service answers with the picker of three items, and of their
    URLs only that of the second item, the first video, can be fetched. *)
Definition secondOnlyNet : Cobalt.Net :=
  {| Cobalt.COBALT_API_URL := "http://cobalt:9000";
     Cobalt.fetchPost :=
       fun _ _ => Return (Samples.serviceResponse (Cobalt.picker Samples.pickerItems));
     Cobalt.fetchGet :=
       fun target =>
         if String.eqb target "https://cdn/2.mp4"
         then Return (Samples.mediaResponse None Samples.media3)
         else Throw (Error "fetch failed") |}.

Definition otherRequest : Route.DownloadRequest :=
  {| Route.url := Some "https://example.org/clip";
     Route.videoQuality := None;
     Route.downloadMode := None;
     Route.compress := None |}.

(** A bucket and a database for the videos route, with the given faults
    of the two deletions. *)
Definition videosHost (blobFault rowFault : option exn) : Videos.Host :=
  {| Videos.bucket :=
       {| Bucket.headFault := None;
          Bucket.deleteFault := fun _ => blobFault;
          Bucket.presign := fun key _ => Return ("https://minio/videos/" +:+ key) |};
     Videos.findManyFault := None;
     Videos.findUniqueFault := fun _ => None;
     Videos.rowDeleteFault := fun _ => rowFault |}.

Definition defaultOptions : Compress.FFmpegOptions :=
  Compress.resolveOptions Samples.failingEncoder Compress.noOptions.

Definition item (i u : string) (st : Queue.Status) : Queue.QueueItem :=
  {| Queue.id := i; Queue.url := u; Queue.status := st; Queue.progress := 0;
     Queue.errorMessage := None |}.

Definition twoItems : Queue.State :=
  {| Queue.urlInput := "";
     Queue.queue := [item "a1" "https://youtu.be/1" Queue.pending;
                     item "b2" "https://youtu.be/2" Queue.completed];
     Queue.isProcessing := false |}.

End Cases.

(** * Properties *)

(** ** Strings *)

Section Strings.
Import Js.

Lemma sapp_nil_l (s : string) : "" +:+ s = s.
Proof. reflexivity. Qed.

Lemma sapp_cons (c : ascii) (s t : string) : String c s +:+ t = String c (s +:+ t).
Proof. reflexivity. Qed.

Lemma sapp_nil_r (s : string) : s +:+ "" = s.
Proof. induction s as [|c s IH]; [reflexivity|]. rewrite sapp_cons. by rewrite IH. Qed.

Lemma sapp_assoc (s t u : string) : (s +:+ t) +:+ u = s +:+ (t +:+ u).
Proof.
  induction s as [|c s IH]; [reflexivity|].
  rewrite !sapp_cons. by rewrite IH.
Qed.

Lemma toUpperCase_app (s t : string) :
  toUpperCase (s +:+ t) = toUpperCase s +:+ toUpperCase t.
Proof.
  induction s as [|c s IH]; [reflexivity|].
  rewrite sapp_cons. simpl. rewrite IH. by rewrite sapp_cons.
Qed.

(** A literal matches at the start of [s] exactly when [s] starts with
    the literal up to case. *)
Lemma matchLiteralI_iff (lit s : string) :
  matchLiteralI lit s = true <->
  exists mid post, s = mid +:+ post /\ toUpperCase mid = toUpperCase lit.
Proof.
  revert s. induction lit as [|a lit IH]; intros s.
  - split; [intros _; by exists "", s|]. by destruct s.
  - destruct s as [|b s]; simpl.
    + split; [done|]. intros (mid & post & Hs & Hup).
      destruct mid; [done|]. by rewrite sapp_cons in Hs.
    + rewrite andb_true_iff, IH. split.
      * intros [Hc (mid & post & -> & Hup)].
        apply Ascii.eqb_eq in Hc.
        exists (String b mid), post. split; [by rewrite sapp_cons|].
        simpl. unfold canonicalize in Hc. by rewrite Hup, Hc.
      * intros (mid & post & Hs & Hup).
        destruct mid as [|m mid]; [done|].
        rewrite sapp_cons in Hs. simpl in Hup.
        injection Hs as -> ->. injection Hup as Hc Hup.
        split; [apply Ascii.eqb_eq; unfold canonicalize; by rewrite Hc|].
        by exists mid, post.
Qed.

(** The test of an alternation of literals is the search for an
    occurrence of one of them. *)
Lemma testAlternativesI_iff (alts : list string) (s : string) :
  testAlternativesI alts s = true <-> Spec.matchesI alts s.
Proof.
  unfold Spec.matchesI, Spec.occursI.
  induction s as [|c s IH].
  - simpl. rewrite orb_false_r, existsb_exists. split.
    + intros (lit & Hin & Hm). apply matchLiteralI_iff in Hm.
      destruct Hm as (mid & post & Hs & Hup).
      exists lit. split; [done|]. by exists "", mid, post.
    + intros (lit & Hin & pre & mid & post & Hs & Hup).
      exists lit. split; [done|]. apply matchLiteralI_iff.
      destruct pre; [|done]. by exists mid, post.
  - simpl. rewrite orb_true_iff, existsb_exists, IH. split.
    + intros [(lit & Hin & Hm)|(lit & Hin & pre & mid & post & -> & Hup)].
      * apply matchLiteralI_iff in Hm. destruct Hm as (mid & post & Hs & Hup).
        exists lit. split; [done|]. by exists "", mid, post.
      * exists lit. split; [done|]. by exists (String c pre), mid, post.
    + intros (lit & Hin & pre & mid & post & Hs & Hup).
      destruct pre as [|p pre].
      * left. exists lit. split; [done|]. apply matchLiteralI_iff.
        by exists mid, post.
      * right. rewrite sapp_cons in Hs. injection Hs as -> ->.
        exists lit. split; [done|]. by exists pre, mid, post.
Qed.

Lemma detectIn_Some (table : list Cobalt.PlatformEntry) (s : string) (p : Cobalt.Platform) :
  Cobalt.detectIn table s = Some p <->
  exists before entry after,
    table = before ++ entry :: after /\ Cobalt.name entry = p /\
    testAlternativesI (Cobalt.pattern entry) s = true /\
    forall e, In e before -> testAlternativesI (Cobalt.pattern e) s = false.
Proof.
  induction table as [|e table IH]; simpl.
  - split; [done|]. intros (before & entry & after & Heq & _). by destruct before.
  - destruct (testAlternativesI (Cobalt.pattern e) s) eqn:He.
    + split.
      * intros [= <-]. exists [], e, table. by repeat split.
      * intros (before & entry & after & Heq & Hn & Ht & Hb).
        destruct before as [|b before]; simpl in Heq; injection Heq as -> ->.
        -- by rewrite Hn.
        -- specialize (Hb b (or_introl eq_refl)). congruence.
    + rewrite IH. split.
      * intros (before & entry & after & -> & Hn & Ht & Hb).
        exists (e :: before), entry, after. repeat split; [done..|].
        intros e' [<-|Hin]; [done|]. by apply Hb.
      * intros (before & entry & after & Heq & Hn & Ht & Hb).
        destruct before as [|b before]; simpl in Heq; injection Heq as -> ->.
        -- congruence.
        -- exists before, entry, after. repeat split; [done..|].
           intros e' Hin. apply Hb. by right.
Qed.

Lemma detectIn_None (table : list Cobalt.PlatformEntry) (s : string) :
  Cobalt.detectIn table s = None <->
  forall e, In e table -> testAlternativesI (Cobalt.pattern e) s = false.
Proof.
  induction table as [|e table IH]; simpl.
  - split; [by intros _ e []|done].
  - destruct (testAlternativesI (Cobalt.pattern e) s) eqn:He.
    + split; [done|]. intros H. specialize (H e (or_introl eq_refl)). congruence.
    + rewrite IH. split.
      * intros H e' [<-|Hin]; [done|]. by apply H.
      * intros H e' Hin. apply H. by right.
Qed.

Lemma allNotSlashDot_dot (x y : string) : allNotSlashDot (x +:+ "." +:+ y) = false.
Proof.
  induction x as [|c x IH]; [reflexivity|].
  rewrite sapp_cons. simpl. rewrite IH. apply andb_false_r.
Qed.

Lemma matchExtensionHere_iff (s : string) :
  matchExtensionHere s = true <-> exists ext, s = "." +:+ ext /\ Spec.isExtension ext.
Proof.
  unfold Spec.isExtension. split.
  - destruct s as [|c [|c2 rest]]; simpl; try done.
    + by destruct (Ascii.eqb_spec c "."%char); destruct c as [[] [] [] [] [] [] [] []].
    + intros H. assert (c = "."%char) as ->.
      { destruct c as [[] [] [] [] [] [] [] []]; try done. }
      exists (String c2 rest). by repeat split.
  - intros (ext & -> & Hne & Hall). destruct ext as [|c2 rest]; [done|].
    exact Hall.
Qed.

Lemma replaceExtension_cons (repl : string) (c : ascii) (s : string) :
  replaceExtension repl (String c s) =
  if matchExtensionHere (String c s) then repl
  else String c (replaceExtension repl s).
Proof. reflexivity. Qed.

(** The extension is the text after the last dot, when it is not empty
    and has no slash: replacing it keeps what is before that dot. *)
Lemma replaceExtension_ext (repl base ext : string) :
  Spec.isExtension ext ->
  replaceExtension repl (base +:+ "." +:+ ext) = base +:+ repl.
Proof.
  intros Hext. induction base as [|c base IH].
  - rewrite !sapp_nil_l.
    assert (matchExtensionHere ("." +:+ ext) = true) as Hm.
    { apply matchExtensionHere_iff. by exists ext. }
    destruct ext; [by destruct Hext|].
    change ("." +:+ String a ext) with (String "." (String a ext)) in *.
    by rewrite replaceExtension_cons, Hm.
  - rewrite !(sapp_cons c base).
    assert (matchExtensionHere (String c (base +:+ "." +:+ ext)) = false) as Hm.
    { apply not_true_is_false. intros Hm.
      apply matchExtensionHere_iff in Hm. destruct Hm as (e & He & _ & Hall).
      change ("." +:+ e) with (String "." e) in He. injection He as -> <-.
      by rewrite allNotSlashDot_dot in Hall. }
    by rewrite replaceExtension_cons, Hm, IH.
Qed.

(** A name without an extension is returned as it is. *)
Lemma replaceExtension_none (repl s : string) :
  ~ Spec.hasExtension s -> replaceExtension repl s = s.
Proof.
  induction s as [|c s IH]; intros Hno; [reflexivity|].
  assert (matchExtensionHere (String c s) = false) as Hm.
  { apply not_true_is_false. intros Hm. apply Hno.
    apply matchExtensionHere_iff in Hm. destruct Hm as (e & He & Hext).
    exists "", e. split; [exact He|exact Hext]. }
  rewrite replaceExtension_cons, Hm. f_equal. apply IH.
  intros (base & ext & -> & Hext). apply Hno. by exists (String c base), ext.
Qed.

Lemma replaceSeparators_lacks (s : string) :
  Spec.lacks "_" (replaceSeparators s) = true /\
  Spec.lacks "-" (replaceSeparators s) = true.
Proof.
  induction s as [|c s [IH1 IH2]]; [done|]. simpl. rewrite IH1, IH2.
  unfold isSeparator.
  destruct (Ascii.eqb_spec c "_"%char) as [->|H1]; [done|].
  destruct (Ascii.eqb_spec c "-"%char) as [->|H2]; [done|]. simpl.
  split; rewrite andb_true_r; apply negb_true_iff, Ascii.eqb_neq; done.
Qed.

End Strings.

(** ** Platform detection and titles *)

Section Titles.
Import Js.

(** C10. [detectPlatform] tries the six patterns in the order of the
    table (YouTube, TikTok, Instagram, LinkedIn, Twitter/X, Vimeo) and
    returns the first whose pattern occurs in the input as a substring,
    up to case and at any position; it returns [null] when none occurs.
    So validation accepts every string in which a platform domain occurs
    anywhere, and a string with several of them is classified as the
    platform declared first. *)
Theorem detectPlatform_first_match :
  map Cobalt.name Cobalt.SUPPORTED_PLATFORMS =
    [Cobalt.YouTube; Cobalt.TikTok; Cobalt.Instagram; Cobalt.LinkedIn;
     Cobalt.TwitterX; Cobalt.Vimeo]
  /\ (forall url p,
        Cobalt.detectPlatform url = Some p <->
        exists before entry after,
          Cobalt.SUPPORTED_PLATFORMS = before ++ entry :: after /\
          Cobalt.name entry = p /\
          Spec.matchesI (Cobalt.pattern entry) url /\
          forall e, In e before -> ~ Spec.matchesI (Cobalt.pattern e) url)
  /\ (forall url,
        Cobalt.detectPlatform url = None <->
        forall e, In e Cobalt.SUPPORTED_PLATFORMS ->
                  ~ Spec.matchesI (Cobalt.pattern e) url)
  /\ (forall url,
        Cobalt.isUrlSupported url = true <->
        exists e lit pre mid post,
          In e Cobalt.SUPPORTED_PLATFORMS /\ In lit (Cobalt.pattern e) /\
          url = pre +:+ mid +:+ post /\ toUpperCase mid = toUpperCase lit)
  /\ Cobalt.isUrlSupported "https://unrelated.example/watch?next=VIMEO.com" = true
  /\ Cobalt.detectPlatform "https://www.tiktok.com/@someone?from=youtu.be" =
       Some Cobalt.YouTube.
Proof.
  split; [reflexivity|].
  assert (forall alts s, testAlternativesI alts s = false <-> ~ Spec.matchesI alts s) as Hneg.
  { intros alts s. rewrite <- testAlternativesI_iff. by destruct (testAlternativesI alts s). }
  split; [|split; [|split; [|split; reflexivity]]].
  - intros url p. unfold Cobalt.detectPlatform. rewrite detectIn_Some.
    split; intros (before & entry & after & Heq & Hn & Ht & Hb);
      exists before, entry, after; repeat split; try done.
    + by apply testAlternativesI_iff.
    + intros e He. apply Hneg. by apply Hb.
    + by apply testAlternativesI_iff.
    + intros e He. apply Hneg. by apply Hb.
  - intros url. unfold Cobalt.detectPlatform. rewrite detectIn_None.
    split; intros H e He; apply Hneg; by apply H.
  - intros url. unfold Cobalt.isUrlSupported.
    destruct (Cobalt.detectPlatform url) as [p|] eqn:Hd.
    + split; [intros _|done].
      apply detectIn_Some in Hd.
      destruct Hd as (before & entry & after & Heq & _ & Ht & _).
      apply testAlternativesI_iff in Ht.
      destruct Ht as (lit & Hin & pre & mid & post & Hs & Hup).
      exists entry, lit, pre, mid, post. repeat split; try done.
      rewrite Heq. apply in_or_app. right. by left.
    + split; [done|].
      intros (e & lit & pre & mid & post & He & Hlit & Hs & Hup).
      apply detectIn_None with (e := e) in Hd; [|done].
      apply Hneg in Hd. exfalso. apply Hd. exists lit. split; [done|].
      by exists pre, mid, post.
Qed.

(** C4, as the code has it. On the direct path the title is the
    suggested filename without its extension (a last dot followed by one
    or more characters other than a dot and a slash), with every
    underscore and dash replaced by a space and the first character in
    upper case; the other characters keep their case. For
    [My_Video-Clip.mp4] the title is [My Video Clip]. *)
Theorem extractTitle_of_filename :
  Cobalt.extractTitleFromFilename "My_Video-Clip.mp4" = "My Video Clip"
  /\ (forall base ext,
        Spec.isExtension ext ->
        Cobalt.extractTitleFromFilename (base +:+ "." +:+ ext) =
        toUpperCase (charAt0 (replaceSeparators base))
        +:+ sliceFrom 1 (replaceSeparators base))
  /\ (forall filename,
        ~ Spec.hasExtension filename ->
        Cobalt.extractTitleFromFilename filename =
        toUpperCase (charAt0 (replaceSeparators filename))
        +:+ sliceFrom 1 (replaceSeparators filename))
  /\ (forall s,
        Spec.lacks "_" (replaceSeparators s) = true /\
        Spec.lacks "-" (replaceSeparators s) = true /\
        String.length (replaceSeparators s) = String.length s).
Proof.
  split; [reflexivity|]. split; [|split].
  - intros base ext Hext. unfold Cobalt.extractTitleFromFilename.
    rewrite replaceExtension_ext by done. by rewrite sapp_nil_r.
  - intros filename Hno. unfold Cobalt.extractTitleFromFilename.
    by rewrite replaceExtension_none.
  - intros s. destruct (replaceSeparators_lacks s) as [H1 H2].
    split; [done|]. split; [done|]. clear H1 H2.
    induction s as [|c s IH]; [done|]. simpl. by rewrite IH.
Qed.

Lemma extractTitle_of_filename_witness :
  Spec.isExtension "mp4" /\
  Cobalt.extractTitleFromFilename ("My_Video-Clip" +:+ "." +:+ "mp4") = "My Video Clip".
Proof.
  assert (Spec.isExtension "mp4") as Hext by (split; [discriminate|reflexivity]).
  split; [exact Hext|].
  exact (proj1 (proj2 extractTitle_of_filename) "My_Video-Clip" "mp4" Hext).
Defined.

(** The title of [My_Video-Clip.mp4] is not [My video clip]: the letters
    after the first one are never lower-cased. *)
Lemma extractTitle_example_keeps_capitals :
  Cobalt.extractTitleFromFilename "My_Video-Clip.mp4" <> "My video clip".
Proof. discriminate. Qed.

End Titles.

(** ** The resolution client and the media fetcher *)

Section Fetching.
Import Js.

Lemma digit_not_space (c : ascii) (d : Z) :
  digitValue 10 c = Some d ->
  isWhiteSpace c = false /\ c <> "-"%char /\ c <> "+"%char /\ 0 <= d.
Proof.
  destruct c as [[] [] [] [] [] [] [] []]; vm_compute; intros [= <-];
    repeat split; discriminate.
Qed.

Lemma digitsPrefix_allDigits (s : string) (a : Z) :
  Spec.allDigits s = true ->
  digitsPrefix 10 (Some a) s = Some (Spec.decimalValue a s).
Proof.
  revert a. induction s as [|c s IH]; intros a; [done|]. simpl.
  destruct (digitValue 10 c) as [d|]; [|done]. intros H. by rewrite IH.
Qed.

Lemma decimalValue_nonneg (s : string) (a : Z) :
  0 <= a -> 0 <= Spec.decimalValue a s.
Proof.
  revert a. induction s as [|c s IH]; intros a Ha; [done|]. simpl. apply IH.
  destruct (digitValue 10 c) as [d|] eqn:Hd; [|lia].
  apply digit_not_space in Hd. lia.
Qed.

(** [parseInt] reads a decimal numeral as its value. *)
Lemma parseInt10_numeric (s : string) :
  Spec.numeric s = true -> parseInt10 s = Num (Spec.decimalValue 0 s).
Proof.
  unfold Spec.numeric. destruct s as [|c s]; [done|]. simpl.
  destruct (digitValue 10 c) as [d|] eqn:Hd; [|done]. intros Hall.
  destruct (digit_not_space c d Hd) as (Hw & Hm & Hp & _).
  unfold parseInt10. simpl. rewrite Hw.
  assert (readSign (String c s) = (1, String c s)) as ->.
  { unfold readSign. destruct c as [[] [] [] [] [] [] [] []]; done. }
  simpl. rewrite Hd. rewrite digitsPrefix_allDigits by done.
  f_equal. lia.
Qed.

(** C7, as the code has it. For a successful upstream response the
    returned [contentLength] is what [parseInt] reads from the
    [content-length] header when that is a number other than zero, and
    the measured length of the body otherwise: an absent header, a header
    [parseInt] cannot read and a header of value zero all give the body's
    length, so a zero is reported only for an empty body. A header that is
    a decimal numeral is read as its value. What [parseInt] reads is the
    exact integer up to [2^53 - 1] in absolute value, and the two clauses
    on a value read are stated within that bound. *)
Theorem downloadFromUrl_contentLength (net : Cobalt.Net) (target : string)
    (response : Cobalt.Response) (body : Buffer) :
  Cobalt.fetchGet net target = Return response ->
  Cobalt.ok response = true ->
  Cobalt.arrayBuffer response = Return body ->
  exists d,
    Cobalt.downloadFromUrl net target = Return d /\
    Cobalt.buffer d = body /\
    (forall z,
       parseInt10 (Cobalt.orDefault (Cobalt.headers response "content-length") "0") =
         Num z ->
       Z.abs z <= Facts.MAX_SAFE_INTEGER ->
       Cobalt.contentLength d = if z =? 0 then lengthZ body else z) /\
    (Cobalt.headers response "content-length" = None ->
     Cobalt.contentLength d = lengthZ body) /\
    (forall value,
       Cobalt.headers response "content-length" = Some value ->
       Spec.numeric value = true ->
       Spec.decimalValue 0 value <= Facts.MAX_SAFE_INTEGER ->
       Cobalt.contentLength d =
         if Spec.decimalValue 0 value =? 0 then lengthZ body
         else Spec.decimalValue 0 value) /\
    (forall value,
       Cobalt.headers response "content-length" = Some value ->
       parseInt10 value = NaN ->
       Cobalt.contentLength d = lengthZ body) /\
    (Cobalt.contentLength d = 0 -> body = []).
Proof.
  intros Hf Hok Hbody. unfold Cobalt.downloadFromUrl.
  rewrite Hf, Hok, Hbody. simpl negb. cbv iota.
  eexists. split; [reflexivity|]. simpl.
  set (header := Cobalt.headers response "content-length").
  assert (forall x, match x with
                    | Num z => if truthy x then z else lengthZ body
                    | NaN => lengthZ body
                    end =
                    match x with
                    | Num z => if z =? 0 then lengthZ body else z
                    | NaN => lengthZ body
                    end) as Hshape.
  { intros [z|]; [|done]. simpl. by destruct (z =? 0). }
  rewrite Hshape. clear Hshape.
  split; [done|]. split; [|split; [|split; [|split]]].
  - intros z -> _. reflexivity.
  - intros ->. reflexivity.
  - intros value -> Hnum _.
    assert (Cobalt.orDefault (Some value) "0" = value) as ->.
    { destruct value; [done|reflexivity]. }
    by rewrite parseInt10_numeric.
  - intros value -> Hnan. destruct value as [|c value]; [reflexivity|].
    simpl Cobalt.orDefault. by rewrite Hnan.
  - destruct (parseInt10 _) as [z|].
    + destruct (z =? 0) eqn:Hz.
      * unfold lengthZ. destruct body; [done|]. simpl length. lia.
      * intros ->. done.
    + unfold lengthZ. destruct body; [done|]. simpl length. lia.
Qed.

Lemma downloadFromUrl_contentLength_witness :
  let net :=
    Samples.netOf (Throw Thrown)
      (Return (Samples.mediaResponse (Some "42") Samples.media3)) in
  Cobalt.fetchGet net "https://cdn/example.mp4" =
    Return (Samples.mediaResponse (Some "42") Samples.media3) /\
  Cobalt.ok (Samples.mediaResponse (Some "42") Samples.media3) = true /\
  Cobalt.arrayBuffer (Samples.mediaResponse (Some "42") Samples.media3) =
    Return Samples.media3 /\
  Spec.decimalValue 0 "42" <= Facts.MAX_SAFE_INTEGER /\
  exists d,
    Cobalt.downloadFromUrl net "https://cdn/example.mp4" = Return d /\
    Cobalt.contentLength d = 42.
Proof.
  intros net.
  assert (Spec.decimalValue 0 "42" <= Facts.MAX_SAFE_INTEGER) as Hsmall
    by (vm_compute; discriminate).
  split; [reflexivity|]. split; [reflexivity|]. split; [reflexivity|].
  split; [exact Hsmall|].
  destruct (downloadFromUrl_contentLength net "https://cdn/example.mp4"
              (Samples.mediaResponse (Some "42") Samples.media3) Samples.media3
              eq_refl eq_refl eq_refl) as (d & Hd & _ & _ & _ & Hnum & _).
  exists d. split; [exact Hd|]. exact (Hnum "42" eq_refl eq_refl Hsmall).
Defined.

(** A header [0] is a numeral, and the length returned is the body's, not
    zero; a header [12abc] is not a numeral, and the length returned is
    12, not the body's. *)
Lemma contentLength_zero_and_prefix_headers :
  (Spec.numeric "0" = true /\ Spec.decimalValue 0 "0" = 0 /\
   exists d,
     Cobalt.downloadFromUrl
       (Samples.netOf (Throw Thrown)
          (Return (Samples.mediaResponse (Some "0") Samples.media3)))
       "https://cdn/example.mp4" = Return d /\
     Cobalt.contentLength d = 3 /\ lengthZ (Cobalt.buffer d) = 3)
  /\
  (Spec.numeric "12abc" = false /\
   exists d,
     Cobalt.downloadFromUrl
       (Samples.netOf (Throw Thrown)
          (Return (Samples.mediaResponse (Some "12abc") Samples.media3)))
       "https://cdn/example.mp4" = Return d /\
     Cobalt.contentLength d = 12 /\ lengthZ (Cobalt.buffer d) = 3).
Proof.
  split; (split; [reflexivity|]); [split; [reflexivity|]|];
    eexists; (split; [reflexivity|]); split; reflexivity.
Qed.

End Fetching.

(** ** Storage keys *)

Section Keys.
Import Js.

Lemma sapp_inv_head (s a b : string) : s +:+ a = s +:+ b -> a = b.
Proof.
  induction s as [|c s IH]; [done|]. rewrite !sapp_cons. intros [= H]. by apply IH.
Qed.

(** A string is cut at the first occurrence of a character in one way. *)
Lemma cut_unique (c : ascii) (a a' b b' : string) :
  Spec.lacks c a = true -> Spec.lacks c a' = true ->
  a +:+ String c b = a' +:+ String c b' -> a = a' /\ b = b'.
Proof.
  revert a'. induction a as [|x a IH]; intros [|x' a'] Ha Ha'; simpl in *.
  - rewrite !sapp_nil_l. by intros [= ->].
  - rewrite sapp_nil_l, sapp_cons. intros [= <- _].
    by rewrite Ascii.eqb_refl in Ha'.
  - rewrite sapp_nil_l, sapp_cons. intros [= -> _].
    by rewrite Ascii.eqb_refl in Ha.
  - rewrite !sapp_cons. intros [= -> H].
    apply andb_true_iff in Ha as [_ Ha]. apply andb_true_iff in Ha' as [_ Ha'].
    destruct (IH a' Ha Ha' H) as [-> ->]. done.
Qed.

Lemma string_of_uint_lacks_dash (d : Decimal.uint) :
  Spec.lacks "-" (NilEmpty.string_of_uint d) = true.
Proof. induction d; simpl; done. Qed.

Lemma showN_lacks_dash (n : N) : Spec.lacks "-" (showN n) = true.
Proof.
  unfold showN, NilZero.string_of_uint.
  destruct (N.to_uint n); try done; apply (string_of_uint_lacks_dash (_ _)).
Qed.

Lemma showN_inj (n m : N) : showN n = showN m -> n = m.
Proof.
  unfold showN. intros H. apply DecimalN.Unsigned.to_uint_inj.
  assert (forall k, N.to_uint k <> Decimal.Nil) as Hnn.
  { intros [|q]; [done|]. simpl. apply DecimalPos.Unsigned.to_uint_nonnil. }
  pose proof (NilZero.usu _ (Hnn n)) as Hn.
  pose proof (NilZero.usu _ (Hnn m)) as Hm.
  rewrite H in Hn. congruence.
Qed.

Lemma isBase36_not_dot (c : ascii) : Spec.isBase36 c = true -> c <> "."%char.
Proof. intros H ->. done. Qed.

Lemma take_lacks_dot (n : nat) (s : string) :
  Spec.allBase36 s = true -> Spec.lacks "." (take n s) = true.
Proof.
  revert s. induction n as [|n IH]; intros [|c s]; simpl; try done.
  intros [Hc Hs]%andb_true_iff. rewrite IH by done.
  apply isBase36_not_dot in Hc. apply Ascii.eqb_neq in Hc. by rewrite Hc.
Qed.

(** The random part of a key has no dot. *)
Lemma randomString_lacks_dot (r : string) :
  Spec.isRandom36 r = true -> Spec.lacks "." (substring 2 15 r) = true.
Proof.
  unfold Spec.isRandom36, substring.
  destruct r as [|c0 [|c1 frac]]; try done.
  intros H. simpl drop. apply take_lacks_dot.
  destruct c0 as [[] [] [] [] [] [] [] []]; try done.
  destruct c1 as [[] [] [] [] [] [] [] []]; done.
Qed.

(** C9, as the code has it. A storage key is a function of the
    millisecond read from the clock, of the first thirteen base-36 digits
    of the random number drawn, and of the extension of the file name,
    and of nothing else: two invocations receive the same key exactly when
    they agree on the three. So two keys differ whenever the timestamps
    differ or the random digits differ, and two invocations in the same
    millisecond that draw the same digits collide. *)
Theorem generateFileKey_equal_iff (timestamp1 timestamp2 : N)
    (random1 random2 name1 name2 : string) :
  Spec.isRandom36 random1 = true ->
  Spec.isRandom36 random2 = true ->
  Storage.generateFileKey timestamp1 random1 name1 =
  Storage.generateFileKey timestamp2 random2 name2 <->
  timestamp1 = timestamp2 /\
  substring 2 15 random1 = substring 2 15 random2 /\
  splitPop "." "" name1 = splitPop "." "" name2.
Proof.
  intros H1 H2. unfold Storage.generateFileKey. split.
  - intros H. apply sapp_inv_head in H.
    change ("-" +:+ ?x) with (String "-" x) in H.
    apply cut_unique in H; try apply showN_lacks_dash.
    destruct H as [Ht H]. apply showN_inj in Ht.
    apply cut_unique in H; try by apply randomString_lacks_dot.
    by destruct H.
  - by intros (-> & -> & ->).
Qed.

Lemma generateFileKey_equal_iff_witness :
  Spec.isRandom36 "0.k3j9x2m1qa7" = true /\
  Spec.isRandom36 "0.k3j9x2m1qa8" = true /\
  (Storage.generateFileKey 1700000000000 "0.k3j9x2m1qa7" "a.mp4" =
   Storage.generateFileKey 1700000000000 "0.k3j9x2m1qa8" "a.mp4" <->
   1700000000000%N = 1700000000000%N /\
   substring 2 15 "0.k3j9x2m1qa7" = substring 2 15 "0.k3j9x2m1qa8" /\
   splitPop "." "" "a.mp4" = splitPop "." "" "a.mp4").
Proof.
  split; [reflexivity|]. split; [reflexivity|].
  apply generateFileKey_equal_iff; reflexivity.
Defined.

(** Two invocations in the same millisecond that draw the same random
    number receive the same key, whatever the names of their files. *)
Lemma generateFileKey_collision :
  Spec.isRandom36 "0.k3j9x2m1qa7" = true /\
  Storage.generateFileKey 1700000000000 "0.k3j9x2m1qa7" "first.mp4" =
  Storage.generateFileKey 1700000000000 "0.k3j9x2m1qa7" "second.mp4".
Proof. split; reflexivity. Qed.

End Keys.

(** ** The transcoder *)

Section Transcoder.
Import Js Sys.

Lemma filesOnly_ret {A : Type} (a : A) : Spec.filesOnly (ret a).
Proof. by intros w. Qed.

Lemma filesOnly_bind {A B : Type} (m : M A) (k : A -> M B) :
  Spec.filesOnly m -> (forall a, Spec.filesOnly (k a)) -> Spec.filesOnly (bind m k).
Proof.
  intros Hm Hk w. unfold bind. specialize (Hm w).
  destruct (m w) as [w1 [a|e]]; simpl in *; [|done].
  destruct Hm as [Hb0 Hv0]. destruct (Hk a w1) as [Hb Hv]. split; congruence.
Qed.

Lemma filesOnly_tryCatch {A : Type} (m : M A) (handler : exn -> M A) :
  Spec.filesOnly m -> (forall e, Spec.filesOnly (handler e)) ->
  Spec.filesOnly (tryCatch m handler).
Proof.
  intros Hm Hk w. unfold tryCatch. specialize (Hm w).
  destruct (m w) as [w1 [a|e]]; simpl in *; [done|].
  destruct Hm as [Hb0 Hv0]. destruct (Hk e w1) as [Hb Hv]. split; congruence.
Qed.

Lemma filesOnly_tryFinally {A : Type} (m : M A) (finalizer : M unit) :
  Spec.filesOnly m -> Spec.filesOnly finalizer ->
  Spec.filesOnly (tryFinally m finalizer).
Proof.
  intros Hm Hf w. unfold tryFinally. specialize (Hm w).
  destruct (m w) as [w1 r]; simpl in *. specialize (Hf w1).
  destruct Hm as [Hb0 Hv0].
  destruct (finalizer w1) as [w2 [[]|e]]; simpl in *; destruct Hf as [Hb Hv];
    split; congruence.
Qed.

Lemma filesOnly_writeFile (h : Compress.Host) (path : string) (data : Buffer) :
  Spec.filesOnly (Compress.writeFile h path data).
Proof.
  intros w. unfold Compress.writeFile.
  by destruct (Compress.writeFault h path) as [[e [k|]]|].
Qed.

Lemma filesOnly_readFile (h : Compress.Host) (path : string) :
  Spec.filesOnly (Compress.readFile h path).
Proof.
  intros w. unfold Compress.readFile.
  destruct (Compress.readFault h path); [done|]. by destruct (files w !! path).
Qed.

Lemma filesOnly_unlink (h : Compress.Host) (path : string) :
  Spec.filesOnly (Compress.unlink h path).
Proof.
  intros w. unfold Compress.unlink.
  destruct (Compress.unlinkFault h path); [done|]. by destruct (files w !! path).
Qed.

Lemma filesOnly_runFFmpeg (h : Compress.Host) (i o : string)
    (options : Compress.FFmpegOptions) :
  Spec.filesOnly (Compress.runFFmpeg h i o options).
Proof.
  intros w. unfold Compress.runFFmpeg.
  destruct (Compress.spawnFFmpeg h _ _) as [fs [[[| |]|] err|msg]]; done.
Qed.

Lemma filesOnly_cleanup (h : Compress.Host) (i o : string) :
  Spec.filesOnly (Compress.cleanup h i o).
Proof.
  unfold Compress.cleanup, swallow.
  apply filesOnly_bind; [|intros _];
    (apply filesOnly_tryCatch; [apply filesOnly_unlink|intros _; apply filesOnly_ret]).
Qed.

Lemma filesOnly_compressVideo (h : Compress.Host) (b : Buffer) (mime : string)
    (options : Compress.CompressionOptions) :
  Spec.filesOnly (Compress.compressVideo h b mime options).
Proof.
  unfold Compress.compressVideo, Compress.compressBody.
  apply filesOnly_tryFinally; [|apply filesOnly_cleanup].
  apply filesOnly_bind; [apply filesOnly_writeFile|intros _].
  apply filesOnly_bind; [apply filesOnly_runFFmpeg|intros _].
  apply filesOnly_bind; [apply filesOnly_readFile|intros c]. apply filesOnly_ret.
Qed.

Lemma filesOnly_checkFFmpegAvailable (h : Compress.Host) :
  Spec.filesOnly (Compress.checkFFmpegAvailable h).
Proof.
  intros w. unfold Compress.checkFFmpegAvailable.
  by destruct (Compress.spawnFFmpeg h _ _).
Qed.

(** A swallowed [unlink] returns normally; it removes the path unless a
    fault is injected, and creates nothing. *)
Lemma swallow_unlink (h : Compress.Host) (path : string) (w : World) :
  exists w',
    swallow (Compress.unlink h path) w = (w', Return tt) /\
    (Compress.unlinkFault h path = None -> files w' !! path = None) /\
    (forall q, files w !! q = None -> files w' !! q = None).
Proof.
  unfold swallow, tryCatch, Compress.unlink, ret.
  destruct (Compress.unlinkFault h path) as [e|] eqn:Hf.
  - exists w. by repeat split.
  - destruct (files w !! path) as [data|] eqn:Hp.
    + eexists. split; [reflexivity|]. simpl. split.
      * intros _. apply lookup_delete_eq.
      * intros q Hq. destruct (decide (path = q)) as [->|Hne]; [congruence|].
        by rewrite lookup_delete_ne.
    + exists w. by repeat split.
Qed.

(** The [finally] block returns normally and leaves neither file, unless
    a fault of [unlink] is injected. *)
Lemma cleanup_spec (h : Compress.Host) (i o : string) (w : World) :
  exists w',
    Compress.cleanup h i o w = (w', Return tt) /\
    (Compress.unlinkFault h i = None -> files w' !! i = None) /\
    (Compress.unlinkFault h o = None -> files w' !! o = None).
Proof.
  unfold Compress.cleanup, bind.
  destruct (swallow_unlink h i w) as (w1 & -> & Hi & _).
  destruct (swallow_unlink h o w1) as (w2 & -> & Ho & Hkeep).
  exists w2. split; [done|]. split; [|done].
  intros Hf. apply Hkeep. by apply Hi.
Qed.

(** The outcome of [compressVideo] is that of its [try] block. *)
Lemma compressVideo_outcome (h : Compress.Host) (inputBuffer : Buffer)
    (inputMimeType : string) (options : Compress.CompressionOptions) (w : World) :
  snd (Compress.compressVideo h inputBuffer inputMimeType options w) =
  snd (Compress.compressBody h (Compress.inputPathOf h inputMimeType)
         (Compress.outputPathOf h) inputBuffer (Compress.resolveOptions h options) w).
Proof.
  unfold Compress.compressVideo, tryFinally.
  destruct (Compress.compressBody h _ _ _ _ w) as [w1 r].
  by destruct (cleanup_spec h (Compress.inputPathOf h inputMimeType)
                 (Compress.outputPathOf h) w1) as (w2 & -> & _).
Qed.

(** After [compressVideo] neither temporary file exists, unless a fault
    of [unlink] is injected. *)
Lemma compressVideo_leaves (h : Compress.Host) (inputBuffer : Buffer)
    (inputMimeType : string) (options : Compress.CompressionOptions) (w : World) :
  let after := Compress.compressVideo h inputBuffer inputMimeType options w in
  (Compress.unlinkFault h (Compress.inputPathOf h inputMimeType) = None ->
   files (fst after) !! Compress.inputPathOf h inputMimeType = None) /\
  (Compress.unlinkFault h (Compress.outputPathOf h) = None ->
   files (fst after) !! Compress.outputPathOf h = None).
Proof.
  unfold Compress.compressVideo, tryFinally.
  destruct (Compress.compressBody h _ _ _ _ w) as [w1 r].
  by destruct (cleanup_spec h (Compress.inputPathOf h inputMimeType)
                 (Compress.outputPathOf h) w1) as (w2 & -> & Hi & Ho).
Qed.

(** C3. On every exit of [compressVideo], with a value or with an error,
    the [finally] block has tried to remove the input file and the output
    path; after the call neither exists, unless the removal itself was
    made to fail. A failing removal is swallowed: the outcome of the call
    is that of its [try] block, the same whatever the removals do. *)
Theorem compressVideo_cleans_up (h : Compress.Host) (inputBuffer : Buffer)
    (inputMimeType : string) (options : Compress.CompressionOptions) (w : World) :
  let inputPath := Compress.inputPathOf h inputMimeType in
  let outputPath := Compress.outputPathOf h in
  let after := Compress.compressVideo h inputBuffer inputMimeType options w in
  (Compress.unlinkFault h inputPath = None -> files (fst after) !! inputPath = None) /\
  (Compress.unlinkFault h outputPath = None -> files (fst after) !! outputPath = None) /\
  snd after =
    snd (Compress.compressBody h inputPath outputPath inputBuffer
           (Compress.resolveOptions h options) w) /\
  (forall fault,
     snd (Compress.compressVideo (Compress.withUnlinkFault h fault)
            inputBuffer inputMimeType options w) = snd after).
Proof.
  intros inputPath outputPath after.
  destruct (compressVideo_leaves h inputBuffer inputMimeType options w) as [Hi Ho].
  split; [exact Hi|]. split; [exact Ho|].
  split; [apply compressVideo_outcome|].
  intros fault. subst after. rewrite !compressVideo_outcome. reflexivity.
Qed.

Lemma compressVideo_cleans_up_witness :
  let h := Samples.failingEncoder in
  let after :=
    Compress.compressVideo h Samples.media3 "video/webm" Compress.noOptions
      Samples.emptyWorld in
  Compress.unlinkFault h (Compress.inputPathOf h "video/webm") = None /\
  Compress.unlinkFault h (Compress.outputPathOf h) = None /\
  files (fst after) !! Compress.inputPathOf h "video/webm" = None /\
  files (fst after) !! Compress.outputPathOf h = None.
Proof.
  intros h after.
  pose proof (compressVideo_cleans_up h Samples.media3 "video/webm" Compress.noOptions
                Samples.emptyWorld) as H.
  cbv zeta in H. destruct H as (Hi & Ho & _).
  split; [reflexivity|]. split; [reflexivity|].
  split; [exact (Hi eq_refl)|exact (Ho eq_refl)].
Defined.

End Transcoder.

(** ** The route *)

Section Orchestrator.
Import Js Sys.

(** A value returned by [compressVideo] has the size of its buffer. *)
Lemma compressVideo_size (h : Compress.Host) (b : Buffer) (mime : string)
    (options : Compress.CompressionOptions) (w : World) (c : Compress.CompressionResult) :
  snd (Compress.compressVideo h b mime options w) = Return c ->
  Compress.compressedSize c = lengthZ (Compress.buffer c).
Proof.
  rewrite compressVideo_outcome. unfold Compress.compressBody, bind.
  destruct (Compress.writeFile h _ _ w) as [w1 [[]|e]]; [|done].
  destruct (Compress.runFFmpeg h _ _ _ w1) as [w2 [[]|e]]; [|done].
  destruct (Compress.readFile h _ w2) as [w3 [data|e]]; [|done].
  simpl. by intros [= <-].
Qed.

(** The compression block never throws and touches neither the bucket
    nor the table; it gives back the downloaded bytes with their size and
    type, or the compressed bytes with their size and the MP4 type. *)
Lemma compressIfEnabled_spec (h : Route.Host) (shouldCompress : bool)
    (buffer : Buffer) (contentType : string) (w : World) :
  exists w' b size type,
    Route.compressIfEnabled h shouldCompress buffer contentType w =
      (w', Return (b, size, type)) /\
    blobs w' = blobs w /\ videos w' = videos w /\ size = lengthZ b /\
    ((b = buffer /\ type = contentType) \/
     (shouldCompress = true /\ type = "video/mp4" /\
      exists c w1, snd (Compress.compressVideo (Route.transcoder h) buffer contentType
                          Compress.noOptions w1) = Return c /\
                   b = Compress.buffer c)).
Proof.
  unfold Route.compressIfEnabled, bind.
  destruct shouldCompress.
  - pose proof (filesOnly_checkFFmpegAvailable (Route.transcoder h) w) as [Hb Hv].
    unfold Compress.checkFFmpegAvailable in *.
    destruct (Compress.spawnFFmpeg (Route.transcoder h) ["-version"] (files w))
      as [fs ending]. simpl in Hb, Hv.
    set (w1 := withFiles w fs) in *.
    destruct ending as [[[| |]|] err|msg];
      try (exists w1, buffer, (lengthZ buffer), contentType;
           repeat split; try done; by left).
    unfold tryCatch.
    pose proof (filesOnly_compressVideo (Route.transcoder h) buffer contentType
                  Compress.noOptions w1) as [Hb2 Hv2].
    pose proof (compressVideo_size (Route.transcoder h) buffer contentType
                  Compress.noOptions w1) as Hsize.
    destruct (Compress.compressVideo (Route.transcoder h) buffer contentType
                Compress.noOptions w1) as [w2 [c|e]] eqn:Hc; simpl in *.
    + exists w2, (Compress.buffer c), (Compress.compressedSize c), "video/mp4".
      repeat split; try congruence; [by apply Hsize|].
      right. repeat split. exists c, w1. by rewrite Hc.
    + exists w2, buffer, (lengthZ buffer), contentType.
      repeat split; try congruence. by left.
  - exists w, buffer, (lengthZ buffer), contentType. repeat split; try done. by left.
Qed.

(** The end of both branches: the upload, and then the creation of the
    row; [Hd] is the successful download, [Hb] and [Hv] say that the
    bucket and the table are still those of the initial world. *)
Ltac upload_then_create Hd Hb Hv Hsize :=
  let Hput := fresh "Hput" in
  unfold bind, Storage.uploadFile;
  destruct (Storage.putFault _ _) as [?|] eqn:Hput; [by apply Spec.storedNothing|];
  unfold Route.videoCreate;
  destruct (Route.createFault _ _) as [?|]; simpl;
  [ eapply Spec.storedBlob;
    [exact Hd|exact Hput|simpl; rewrite ?Hb; reflexivity|simpl; rewrite ?Hv; reflexivity]
  | eapply Spec.storedRecord;
    [exact Hd|exact Hput|simpl; rewrite ?Hb; reflexivity|simpl; rewrite ?Hv; reflexivity
    |reflexivity|reflexivity|exact Hsize|reflexivity|reflexivity|reflexivity] ].

Lemma handlePicker_stored (h : Route.Host) (bodyUrl : string)
    (platform : option Cobalt.Platform) (shouldCompress : bool)
    (firstVideo : Cobalt.PickerItem) (w : World) :
  let after := Route.handlePicker h bodyUrl platform shouldCompress firstVideo w in
  Spec.Stored h w (fst after) (snd after).
Proof.
  simpl. unfold Route.handlePicker, bind, lift.
  destruct (Cobalt.downloadFromUrl (Route.net h) (Cobalt.itemUrl firstVideo))
    as [download|e] eqn:Hd; [|by apply Spec.storedNothing].
  destruct (compressIfEnabled_spec h shouldCompress (Cobalt.buffer download)
              (Cobalt.contentType download) w)
    as (w1 & b & size & type & -> & Hb & Hv & Hsize & _).
  upload_then_create Hd Hb Hv Hsize.
Qed.

Lemma handleDirect_stored (h : Route.Host) (bodyUrl : string)
    (platform : option Cobalt.Platform) (shouldCompress : bool)
    (downloadUrl filename : string) (w : World) :
  let after := Route.handleDirect h bodyUrl platform shouldCompress downloadUrl filename w in
  Spec.Stored h w (fst after) (snd after).
Proof.
  simpl. unfold Route.handleDirect, bind, lift.
  destruct (Cobalt.downloadFromUrl (Route.net h) downloadUrl)
    as [download|e] eqn:Hd; [|by apply Spec.storedNothing].
  destruct (compressIfEnabled_spec h shouldCompress (Cobalt.buffer download)
              (Cobalt.contentType download) w)
    as (w1 & b & size & type & -> & Hb & Hv & Hsize & _).
  upload_then_create Hd Hb Hv Hsize.
Qed.

Lemma dispatch_stored (h : Route.Host) (bodyUrl : string)
    (platform : option Cobalt.Platform) (shouldCompress : bool)
    (cobaltResponse : Cobalt.CobaltResponse) (w : World) :
  let after := Route.dispatch h bodyUrl platform shouldCompress cobaltResponse w in
  Spec.Stored h w (fst after) (snd after).
Proof.
  destruct cobaltResponse as [u f|u f|items|code service|st]; simpl.
  - apply handleDirect_stored.
  - apply handleDirect_stored.
  - destruct (List.find Route.isVideo items) as [v|].
    + apply handlePicker_stored.
    + by apply Spec.storedNothing.
  - by apply Spec.storedNothing.
  - by apply Spec.storedNothing.
Qed.

(** The [catch] of the route turns every error into a response and
    leaves the world as the [try] block left it. *)
Lemma tryCatch_onError (m : M Route.HttpResponse) (w : World) :
  fst (tryCatch m Route.onError w) = fst (m w) /\
  exists response,
    snd (tryCatch m Route.onError w) = Return response /\
    (forall r, snd (m w) = Return r -> response = r).
Proof.
  unfold tryCatch, Route.onError, ret.
  destruct (m w) as [w1 [r|e]]; simpl; (split; [done|]); eexists; split; try done.
  by intros r' [= ->].
Qed.

Lemma POST_stored (h : Route.Host) (requestJson : result Route.DownloadRequest)
    (w : World) :
  let after := Route.POST h requestJson w in
  Spec.Stored h w (fst after) (snd after).
Proof.
  simpl. unfold Route.POST.
  match goal with |- context [tryCatch ?m _ _] => set (inner := m) end.
  destruct (tryCatch_onError inner w) as (-> & response & -> & Hsame).
  assert (Spec.Stored h w (fst (inner w)) (snd (inner w))) as Hinner.
  { subst inner. unfold bind, lift.
    destruct requestJson as [body|e]; [|by apply Spec.storedNothing].
    destruct (Route.missing (Route.url body)); [by apply Spec.storedNothing|].
    destruct (negb _); [by apply Spec.storedNothing|].
    destruct (Cobalt.requestDownload _ _) as [cobaltResponse|e];
      [|by apply Spec.storedNothing].
    apply dispatch_stored. }
  destruct Hinner as [Hb Hv|key blob target d Hd Hput Hb Hv
                     |key blob row target d resp Hd Hput Hb Hv Hk Hm Hs Hst Hr Hcode].
  - by apply Spec.storedNothing.
  - by eapply Spec.storedBlob.
  - assert (response = resp) as -> by (by apply Hsame).
    by eapply Spec.storedRecord.
Qed.


Lemma find_first {A : Type} (f : A -> bool) (l : list A) (x : A) :
  List.find f l = Some x ->
  exists before after,
    l = before ++ x :: after /\ f x = true /\ forall y, In y before -> f y = false.
Proof.
  induction l as [|a l IH]; simpl; [done|].
  destruct (f a) eqn:Ha.
  - intros [= ->]. by exists [], l.
  - intros H. destruct (IH H) as (before & after & -> & Hx & Hb).
    exists (a :: before), after. repeat split; [done|].
    intros y [<-|Hy]; [done|]. by apply Hb.
Qed.

Lemma app_singleton_neq {A : Type} (l : list A) (x : A) : l ++ [x] <> l.
Proof.
  intros H. apply (f_equal (@length A)) in H. rewrite length_app in H. simpl in H. lia.
Qed.

(** What the [catch] of the route makes of the outcome of its [try]. *)
Lemma tryCatch_onError_run (m : M Route.HttpResponse) (w : World) :
  tryCatch m Route.onError w =
  (fst (m w),
   Return match snd (m w) with
          | Return response => response
          | Throw e =>
              Route.respond (Route.errorBody match e with
                                             | Error message => message
                                             | Thrown => "Download failed"
                                             end) 500
          end).
Proof. unfold tryCatch, Route.onError, ret. by destruct (m w) as [w1 [r|e]]. Qed.

(** The picker branch under the [catch] of the route. *)
Lemma handlePicker_outcome (h : Route.Host) (bodyUrl : string)
    (platform : option Cobalt.Platform) (shouldCompress : bool)
    (firstVideo : Cobalt.PickerItem) (w : World) :
  Facts.Outcome h shouldCompress (Cobalt.itemUrl firstVideo)
    ("Video from " +:+ Route.showPlatform platform) "video.mp4" platform bodyUrl
    (Facts.pickerAnswer platform) w
    (tryCatch (Route.handlePicker h bodyUrl platform shouldCompress firstVideo)
       Route.onError w).
Proof.
  rewrite tryCatch_onError_run.
  unfold Facts.Outcome, Route.handlePicker, bind, lift, Facts.keyOf.
  destruct (Cobalt.downloadFromUrl (Route.net h) (Cobalt.itemUrl firstVideo))
    as [download|e]; [|reflexivity].
  destruct (compressIfEnabled_spec h shouldCompress (Cobalt.buffer download)
              (Cobalt.contentType download) w)
    as (w1 & b & size & type & -> & Hb & Hv & -> & Hchoice).
  exists b, type. split; [exact Hchoice|].
  unfold Storage.uploadFile.
  destruct (Storage.putFault _ _) as [e|]; [done|].
  cbv zeta. unfold Route.videoCreate, Facts.rowOf, Facts.keyOf. simpl data.
  destruct (Route.createFault _ _) as [e|]; simpl; by rewrite ?Hb, ?Hv.
Qed.

(** The tunnel and redirect branch under the [catch] of the route. *)
Lemma handleDirect_outcome (h : Route.Host) (bodyUrl : string)
    (platform : option Cobalt.Platform) (shouldCompress : bool)
    (downloadUrl filename : string) (w : World) :
  Facts.Outcome h shouldCompress downloadUrl (Cobalt.extractTitleFromFilename filename)
    (replaceExtension ".mp4" filename) platform bodyUrl (Facts.directAnswer platform) w
    (tryCatch (Route.handleDirect h bodyUrl platform shouldCompress downloadUrl filename)
       Route.onError w).
Proof.
  rewrite tryCatch_onError_run.
  unfold Facts.Outcome, Route.handleDirect, bind, lift, Facts.keyOf.
  destruct (Cobalt.downloadFromUrl (Route.net h) downloadUrl)
    as [download|e]; [|reflexivity].
  destruct (compressIfEnabled_spec h shouldCompress (Cobalt.buffer download)
              (Cobalt.contentType download) w)
    as (w1 & b & size & type & -> & Hb & Hv & -> & Hchoice).
  exists b, type. split; [exact Hchoice|].
  unfold Storage.uploadFile.
  destruct (Storage.putFault _ _) as [e|]; [done|].
  cbv zeta. unfold Route.videoCreate, Facts.rowOf, Facts.keyOf. simpl data.
  destruct (Route.createFault _ _) as [e|]; simpl; by rewrite ?Hb, ?Hv.
Qed.

(** The run of [POST] on a request with a supported URL, up to the
    answer of the resolution service. *)
Lemma POST_supported (h : Route.Host) (body : Route.DownloadRequest)
    (bodyUrl : string) (w : World) :
  Route.url body = Some bodyUrl -> bodyUrl <> "" ->
  Cobalt.isUrlSupported bodyUrl = true ->
  Route.POST h (Return body) w =
  tryCatch
    (bind (lift (Cobalt.requestDownload (Route.net h) (Route.cobaltOptions bodyUrl body)))
       (Route.dispatch h bodyUrl (Cobalt.detectPlatform bodyUrl)
          (Route.shouldCompressOf h body)))
    Route.onError w.
Proof.
  intros Hurl Hne Hsup. unfold Route.POST, tryCatch. unfold bind at 1. unfold lift at 1.
  rewrite Hurl. destruct bodyUrl as [|c rest]; [done|].
  change (Route.missing (Some (String c rest))) with false.
  change (Cobalt.orDefault (Some (String c rest)) "") with (String c rest).
  rewrite Hsup. reflexivity.
Qed.

(** A request with a supported URL, answered by the resolution service
    with an answer that starts a download. *)
Lemma POST_outcome (h : Route.Host) (body : Route.DownloadRequest) (bodyUrl : string)
    (answer : Cobalt.CobaltResponse) (target title name : string)
    (respond : VideoRecord -> Cobalt.Download -> Route.HttpResponse) (w : World) :
  Route.url body = Some bodyUrl -> bodyUrl <> "" ->
  Cobalt.isUrlSupported bodyUrl = true ->
  Cobalt.requestDownload (Route.net h) (Route.cobaltOptions bodyUrl body) = Return answer ->
  Facts.branch (Cobalt.detectPlatform bodyUrl) answer = Some (target, title, name, respond) ->
  Facts.Outcome h (Route.shouldCompressOf h body) target title name
    (Cobalt.detectPlatform bodyUrl) bodyUrl respond w (Route.POST h (Return body) w).
Proof.
  intros Hurl Hne Hsup Hreq Hbranch.
  assert (Route.POST h (Return body) w =
          tryCatch (Route.dispatch h bodyUrl (Cobalt.detectPlatform bodyUrl)
                      (Route.shouldCompressOf h body) answer) Route.onError w) as ->.
  { rewrite (POST_supported h body bodyUrl w) by done.
    unfold tryCatch, bind, lift. by rewrite Hreq. }
  destruct answer as [u f|u f|items|code service|st]; simpl in Hbranch |- *;
    try discriminate Hbranch.
  - injection Hbranch as <- <- <- <-. apply handleDirect_outcome.
  - injection Hbranch as <- <- <- <-. apply handleDirect_outcome.
  - destruct (List.find Route.isVideo items) as [v|]; [|discriminate Hbranch].
    injection Hbranch as <- <- <- <-. apply handlePicker_outcome.
Qed.

(** C8. A run of [POST] adds at most one row to the table, and only
    after the upload of the row's [fileKey] has succeeded in the same
    run: the bucket then holds, under that key, an object with the size
    and the type the row records. For the URL the run downloads and the
    key the run generates: when that download fails the world is
    untouched; when the upload under that key fails neither the table nor
    the bucket changes; and a row that the run adds has that key, after
    that download and that upload have succeeded. So if every row pointed
    to an object before the run, every row does after it. *)
Theorem record_only_after_upload (h : Route.Host)
    (requestJson : result Route.DownloadRequest) (w : World) :
  let w' := fst (Route.POST h requestJson w) in
  (videos w' = videos w \/
   exists row blob,
     videos w' = videos w ++ [row] /\
     Storage.putFault (Route.storage h) (fileKey (data row)) = None /\
     blobs w' = <[fileKey (data row) := blob]> (blobs w) /\
     blobs w' !! fileKey (data row) = Some blob /\
     blobContentType blob = mimeType (data row) /\
     lengthZ (blobBody blob) = fileSize (data row) /\
     status (data row) = "COMPLETED") /\
  (forall body bodyUrl answer target title name respond,
     requestJson = Return body ->
     Route.url body = Some bodyUrl -> bodyUrl <> "" ->
     Cobalt.isUrlSupported bodyUrl = true ->
     Cobalt.requestDownload (Route.net h) (Route.cobaltOptions bodyUrl body) =
       Return answer ->
     Facts.branch (Cobalt.detectPlatform bodyUrl) answer =
       Some (target, title, name, respond) ->
     (forall e,
        Cobalt.downloadFromUrl (Route.net h) target = Throw e ->
        Route.POST h requestJson w = (w, Return (Facts.caught e))) /\
     (forall d e,
        Cobalt.downloadFromUrl (Route.net h) target = Return d ->
        Storage.putFault (Route.storage h) (Facts.keyOf h name) = Some e ->
        videos w' = videos w /\ blobs w' = blobs w /\
        snd (Route.POST h requestJson w) = Return (Facts.caught e)) /\
     (forall row,
        videos w' = videos w ++ [row] ->
        fileKey (data row) = Facts.keyOf h name /\
        Storage.putFault (Route.storage h) (Facts.keyOf h name) = None /\
        exists d, Cobalt.downloadFromUrl (Route.net h) target = Return d)) /\
  (Spec.backed w -> Spec.backed w').
Proof.
  intros w'. subst w'. split; [|split].
  - pose proof (POST_stored h requestJson w) as Hst. simpl in Hst.
    destruct Hst as [Hb Hv|key blob target d Hd Hput Hb Hv
                    |key blob row target d resp Hd Hput Hb Hv Hk Hm Hs Hstatus Hr Hcode];
      [by left..|].
    right. exists row, blob. subst key. rewrite Hb.
    repeat split; try done. by rewrite lookup_insert_eq.
  - intros body bodyUrl answer target title name respond -> Hurl Hne Hsup Hreq Hbranch.
    pose proof (POST_outcome h body bodyUrl answer target title name respond w
                  Hurl Hne Hsup Hreq Hbranch) as Hout.
    unfold Facts.Outcome in Hout.
    destruct (Cobalt.downloadFromUrl (Route.net h) target) as [d|e].
    + destruct Hout as (b & type & _ & Hout).
      destruct (Storage.putFault (Route.storage h) (Facts.keyOf h name)) as [e|].
      * destruct Hout as (Hb & Hv & Hr).
        split; [done|]. split; [by intros d' e' _ [= <-]|].
        intros row Hrow. rewrite Hv in Hrow. by apply eq_sym, app_singleton_neq in Hrow.
      * cbv zeta in Hout. destruct Hout as (Hb & Hout).
        split; [done|]. split; [done|].
        intros row Hrow. destruct (Route.createFault h _) as [e|].
        -- destruct Hout as [Hv _]. rewrite Hv in Hrow.
           by apply eq_sym, app_singleton_neq in Hrow.
        -- destruct Hout as [Hv _]. rewrite Hv in Hrow.
           apply app_inj_tail in Hrow as [_ <-]. split; [done|]. split; [done|].
           by exists d.
    + split; [by intros e' [= <-]|]. split; [done|].
      intros row Hrow. rewrite Hout in Hrow. simpl in Hrow.
      by apply eq_sym, app_singleton_neq in Hrow.
  - pose proof (POST_stored h requestJson w) as Hst. simpl in Hst.
    destruct Hst as [Hb Hv|key blob target d Hd Hput Hb Hv
                    |key blob row target d resp Hd Hput Hb Hv Hk Hm Hs Hstatus Hr Hcode].
    + intros Hbacked row Hin. rewrite Hv in Hin. rewrite Hb. by apply Hbacked.
    + intros Hbacked row Hin. rewrite Hv in Hin. rewrite Hb.
      apply lookup_insert_is_Some. destruct (decide (key = fileKey (data row)));
        [by left|right; split; [done|by apply Hbacked]].
    + intros Hbacked row' Hin. rewrite Hv in Hin. rewrite Hb.
      apply lookup_insert_is_Some. apply in_app_or in Hin as [Hin|[<-|[]]].
      * destruct (decide (key = fileKey (data row')));
          [by left|right; split; [done|by apply Hbacked]].
      * by left.
Qed.

Lemma record_only_after_upload_witness :
  let h := Samples.hostOf (Samples.directNet "My_Video-Clip.mp4") Samples.goodEncoder
             Cases.bucketDown in
  let after := Route.POST h (Return Samples.sampleRequest) Samples.emptyWorld in
  Route.url Samples.sampleRequest = Some Samples.sampleUrl /\
  Samples.sampleUrl <> "" /\
  Cobalt.isUrlSupported Samples.sampleUrl = true /\
  Cobalt.requestDownload (Route.net h)
    (Route.cobaltOptions Samples.sampleUrl Samples.sampleRequest) =
    Return (Cobalt.tunnel "https://cdn/example.mp4" "My_Video-Clip.mp4") /\
  (exists d, Cobalt.downloadFromUrl (Route.net h) "https://cdn/example.mp4" = Return d) /\
  Storage.putFault (Route.storage h) (Facts.keyOf h "My_Video-Clip.mp4") =
    Some (Error "bucket unavailable") /\
  videos (fst after) = [] /\ blobs (fst after) = ∅ /\
  snd after = Return (Facts.caught (Error "bucket unavailable")).
Proof.
  intros h after.
  assert (Samples.sampleUrl <> "") as Hne by discriminate.
  split; [reflexivity|]. split; [exact Hne|]. split; [reflexivity|].
  split; [reflexivity|]. split; [eexists; reflexivity|]. split; [reflexivity|].
  pose proof (record_only_after_upload h (Return Samples.sampleRequest)
                Samples.emptyWorld) as H.
  cbv zeta in H. destruct H as (_ & H & _).
  destruct (H Samples.sampleRequest Samples.sampleUrl
              (Cobalt.tunnel "https://cdn/example.mp4" "My_Video-Clip.mp4")
              "https://cdn/example.mp4" _ "My_Video-Clip.mp4" _
              eq_refl eq_refl Hne eq_refl eq_refl eq_refl) as (_ & Hput & _).
  exact (Hput _ (Error "bucket unavailable") eq_refl eq_refl).
Defined.

(** C6. For a picker answer the route takes the first item of type
    video, whatever photo items come before it and whatever comes after
    it, and what it downloads, stores and records is that item: the bytes
    handed to the upload are those fetched from that item's URL, and when
    that download fails nothing else is tried and the world is untouched.
    When no item is a video the route answers 400 with the error
    [No video found in the content] and leaves the world as it was: no
    download, no upload, no row. *)
Theorem picker_first_video (h : Route.Host) (body : Route.DownloadRequest)
    (bodyUrl : string) (items : list Cobalt.PickerItem) (w : World) :
  Route.url body = Some bodyUrl -> bodyUrl <> "" ->
  Cobalt.isUrlSupported bodyUrl = true ->
  Cobalt.requestDownload (Route.net h) (Route.cobaltOptions bodyUrl body) =
    Return (Cobalt.picker items) ->
  match List.find Route.isVideo items with
  | None =>
      (forall item, In item items -> Cobalt.type item = Cobalt.photo) /\
      Route.POST h (Return body) w =
        (w, Return (Route.respond (Route.errorBody "No video found in the content") 400))
  | Some firstVideo =>
      (exists before after,
         items = before ++ firstVideo :: after /\
         Cobalt.type firstVideo = Cobalt.video /\
         forall item, In item before -> Cobalt.type item = Cobalt.photo) /\
      Facts.Outcome h (Route.shouldCompressOf h body) (Cobalt.itemUrl firstVideo)
        ("Video from " +:+ Route.showPlatform (Cobalt.detectPlatform bodyUrl))
        "video.mp4" (Cobalt.detectPlatform bodyUrl) bodyUrl
        (Facts.pickerAnswer (Cobalt.detectPlatform bodyUrl)) w
        (Route.POST h (Return body) w)
  end.
Proof.
  intros Hurl Hne Hsup Hreq.
  assert (forall item, Route.isVideo item = false -> Cobalt.type item = Cobalt.photo) as Hphoto.
  { intros item. unfold Route.isVideo. by destruct (Cobalt.type item). }
  destruct (List.find Route.isVideo items) as [firstVideo|] eqn:Hfind.
  - split.
    + destruct (find_first _ _ _ Hfind) as (before & after & -> & Hv & Hb).
      exists before, after. repeat split.
      * unfold Route.isVideo in Hv. by destruct (Cobalt.type firstVideo).
      * intros item Hin. apply Hphoto. by apply Hb.
    + apply (POST_outcome h body bodyUrl (Cobalt.picker items)); try done.
      simpl. by rewrite Hfind.
  - split.
    + intros item Hin. apply Hphoto. by apply (find_none _ _ Hfind).
    + rewrite (POST_supported h body bodyUrl w) by done.
      unfold tryCatch, bind, lift. rewrite Hreq. simpl Route.dispatch.
      by rewrite Hfind.
Qed.

Lemma picker_first_video_witness :
  let h := Samples.hostOf Cases.secondOnlyNet Samples.goodEncoder Samples.noFault in
  let after := Route.POST h (Return Samples.sampleRequest) Samples.emptyWorld in
  Route.url Samples.sampleRequest = Some Samples.sampleUrl /\
  Samples.sampleUrl <> "" /\
  Cobalt.isUrlSupported Samples.sampleUrl = true /\
  Cobalt.requestDownload (Route.net h)
    (Route.cobaltOptions Samples.sampleUrl Samples.sampleRequest) =
    Return (Cobalt.picker Samples.pickerItems) /\
  Facts.Outcome h (Route.shouldCompressOf h Samples.sampleRequest)
    (Cobalt.itemUrl Samples.secondItem)
    ("Video from " +:+ Route.showPlatform (Cobalt.detectPlatform Samples.sampleUrl))
    "video.mp4" (Cobalt.detectPlatform Samples.sampleUrl) Samples.sampleUrl
    (Facts.pickerAnswer (Cobalt.detectPlatform Samples.sampleUrl)) Samples.emptyWorld
    after.
Proof.
  intros h after.
  assert (Samples.sampleUrl <> "") as Hne by discriminate.
  split; [reflexivity|]. split; [exact Hne|]. split; [reflexivity|].
  split; [reflexivity|].
  exact (proj2 (picker_first_video h Samples.sampleRequest Samples.sampleUrl
                  Samples.pickerItems Samples.emptyWorld eq_refl Hne eq_refl eq_refl)).
Defined.

(** C2, as the code has it. [requestDownload] does not return a failure
    value for a transport or protocol failure: it rejects, with the error
    of [fetch] when the service cannot be reached and with the error
    [Cobalt API error: <status> <statusText>] for a response that is not a
    success. The route catches the error, answers 500 with its message,
    and stores nothing. *)
Theorem requestDownload_rejects (h : Route.Host) (body : Route.DownloadRequest)
    (bodyUrl : string) (w : World) :
  Route.url body = Some bodyUrl -> bodyUrl <> "" ->
  Cobalt.isUrlSupported bodyUrl = true ->
  let options := Route.cobaltOptions bodyUrl body in
  let answer :=
    Cobalt.fetchPost (Route.net h) (Cobalt.COBALT_API_URL (Route.net h))
      (Cobalt.requestBody options) in
  (forall e,
     answer = Throw e ->
     Cobalt.requestDownload (Route.net h) options = Throw e /\
     Route.POST h (Return body) w =
       (w, Return (Route.respond
                     (Route.errorBody match e with
                                      | Error message => message
                                      | Thrown => "Download failed"
                                      end) 500))) /\
  (forall response,
     answer = Return response -> Cobalt.ok response = false ->
     let message :=
       "Cobalt API error: " +:+ showN (Cobalt.status response) +:+ " "
       +:+ Cobalt.statusText response in
     Cobalt.requestDownload (Route.net h) options = Throw (Error message) /\
     Route.POST h (Return body) w =
       (w, Return (Route.respond (Route.errorBody message) 500))).
Proof.
  intros Hurl Hne Hsup options answer. subst options answer. split.
  - intros e He.
    assert (Cobalt.requestDownload (Route.net h) (Route.cobaltOptions bodyUrl body) =
            Throw e) as Hreq.
    { unfold Cobalt.requestDownload. by rewrite He. }
    split; [done|]. rewrite (POST_supported h body bodyUrl w) by done.
    unfold tryCatch, bind, lift. by rewrite Hreq.
  - intros response Hresp Hok message.
    assert (Cobalt.requestDownload (Route.net h) (Route.cobaltOptions bodyUrl body) =
            Throw (Error message)) as Hreq.
    { unfold Cobalt.requestDownload. by rewrite Hresp, Hok. }
    split; [done|]. rewrite (POST_supported h body bodyUrl w) by done.
    unfold tryCatch, bind, lift. by rewrite Hreq.
Qed.

Lemma requestDownload_rejects_witness :
  let h := Samples.hostOf (Samples.netOf (Return Samples.serviceDown) (Throw Thrown))
             Samples.goodEncoder Samples.noFault in
  Route.url Samples.sampleRequest = Some Samples.sampleUrl /\
  Samples.sampleUrl <> "" /\
  Cobalt.isUrlSupported Samples.sampleUrl = true /\
  Route.POST h (Return Samples.sampleRequest) Samples.emptyWorld =
    (Samples.emptyWorld,
     Return (Route.respond
               (Route.errorBody "Cobalt API error: 500 Internal Server Error") 500)).
Proof.
  intros h.
  assert (Samples.sampleUrl <> "") as Hne by discriminate.
  split; [reflexivity|]. split; [exact Hne|]. split; [reflexivity|].
  pose proof (requestDownload_rejects h Samples.sampleRequest Samples.sampleUrl
                Samples.emptyWorld eq_refl Hne eq_refl) as H.
  cbv zeta in H. destruct H as [_ H].
  exact (proj2 (H Samples.serviceDown eq_refl eq_refl)).
Defined.

(** A response 500 of the service, and a service that cannot be reached:
    [requestDownload] rejects, it returns no value. *)
Lemma requestDownload_transport_failure_is_thrown :
  Cobalt.requestDownload
    (Samples.netOf (Return Samples.serviceDown) (Throw Thrown)) Samples.sampleOptions =
    Throw (Error "Cobalt API error: 500 Internal Server Error")
  /\
  Cobalt.requestDownload
    (Samples.netOf (Throw (Error "fetch failed")) (Throw Thrown)) Samples.sampleOptions =
    Throw (Error "fetch failed")
  /\
  ~ exists value,
      Cobalt.requestDownload
        (Samples.netOf (Return Samples.serviceDown) (Throw Thrown)) Samples.sampleOptions =
      Return value.
Proof.
  split; [reflexivity|]. split; [reflexivity|]. by intros [value H].
Qed.




(** A name with an extension is renamed to MP4. *)
Lemma replaceExtension_mp4 (base ext : string) :
  Spec.isExtension ext ->
  replaceExtension ".mp4" (base +:+ "." +:+ ext) = base +:+ ".mp4".
Proof. apply replaceExtension_ext. Qed.

(** C5 fails on a suggested filename without an extension. The service
    suggests [video]; the download has three bytes and the encoder writes
    two, so the compression succeeds; the row is stored with the file
    name [video] and a key that ends in [.video]: neither ends in
    [.mp4]. *)
Theorem direct_name_without_extension :
  let after :=
    Route.POST
      (Samples.hostOf (Samples.directNet "video") Samples.goodEncoder Samples.noFault)
      (Return Samples.sampleRequest) Samples.emptyWorld in
  exists row,
    videos (fst after) = [row] /\
    mimeType (data row) = "video/mp4" /\
    fileSize (data row) = 2 /\
    fileName (data row) = "video" /\
    fileKey (data row) = "videos/1700000000000-k3j9x2m1qa7.video" /\
    Spec.endsWith ".mp4" (fileName (data row)) = false /\
    Spec.endsWith ".mp4" (fileKey (data row)) = false /\
    blobs (fst after) !! fileKey (data row) =
      Some {| blobBody := Samples.media2; blobContentType := "video/mp4" |}.
Proof.
  eexists. split; [vm_compute; reflexivity|]. repeat split.
Qed.

End Orchestrator.

(** ** Runs of the code on the sample hosts *)

Section Scenarios.
Import Js Sys.

(** The scenario of the specification: a YouTube URL, a direct answer
    with the filename [My_Video-Clip.mp4], a three-byte download that the
    encoder turns into two bytes. *)
Example scenario_direct :
  snd (Route.POST
         (Samples.hostOf (Samples.directNet "My_Video-Clip.mp4") Samples.goodEncoder
            Samples.noFault)
         (Return Samples.sampleRequest) Samples.emptyWorld) =
  Return (Route.respond
            (Route.directBody "ckv1" "My Video Clip" "My_Video-Clip.mp4"
               "videos/1700000000000-k3j9x2m1qa7.mp4" 2 3 1 "video/mp4"
               (Some Cobalt.YouTube)) 200).
Proof. by vm_compute. Qed.

(** The same run with an encoder that exits with code 1: the original
    bytes are stored with their own type, under a name in [.mp4]. *)
Example scenario_direct_fallback :
  snd (Route.POST
         (Samples.hostOf (Samples.directNet "My_Video-Clip.mp4") Samples.failingEncoder
            Samples.noFault)
         (Return Samples.sampleRequest) Samples.emptyWorld) =
  Return (Route.respond
            (Route.directBody "ckv1" "My Video Clip" "My_Video-Clip.mp4"
               "videos/1700000000000-k3j9x2m1qa7.mp4" 3 3 0 "video/webm"
               (Some Cobalt.YouTube)) 200).
Proof. by vm_compute. Qed.

(** A picker answer: the second item, the first video, is downloaded and
    stored under [video.mp4]'s extension. *)
Example scenario_picker :
  snd (Route.POST
         (Samples.hostOf Samples.pickerNet Samples.goodEncoder Samples.noFault)
         (Return Samples.sampleRequest) Samples.emptyWorld) =
  Return (Route.respond
            (Route.pickerBody "ckv1" "Video from YouTube"
               "videos/1700000000000-k3j9x2m1qa7.mp4" 2 (Some Cobalt.YouTube)) 200).
Proof. by vm_compute. Qed.

(** A URL of no supported platform is refused before any call. *)
Example scenario_unsupported :
  Route.POST
    (Samples.hostOf Samples.pickerNet Samples.goodEncoder Samples.noFault)
    (Return {| Route.url := Some "https://example.org/clip";
               Route.videoQuality := None;
               Route.downloadMode := None;
               Route.compress := None |})
    Samples.emptyWorld =
  (Samples.emptyWorld,
   Return (Route.respond
             (Route.errorBody
                "URL is not supported. Try YouTube, TikTok, Instagram, or LinkedIn.")
             400)).
Proof. by vm_compute. Qed.

(** The three exits of the encoder: no temporary file is left. *)
Example scenario_no_temporary_files :
  let left h :=
    map_to_list (files (fst (Compress.compressVideo h Samples.media3 "video/webm"
                                Compress.noOptions Samples.emptyWorld))) in
  left Samples.goodEncoder = [] /\
  left Samples.failingEncoder = [] /\
  left Samples.missingEncoder = [].
Proof. by vm_compute. Qed.

(** When every [unlink] fails, both files stay and the value returned is
    the same. *)
Example scenario_unlink_fails :
  let h := Samples.transcoderOf (Compress.closed (Some 0) "") true
             (fun _ => Some (Error "EPERM: operation not permitted")) in
  let after :=
    Compress.compressVideo h Samples.media3 "video/webm" Compress.noOptions
      Samples.emptyWorld in
  snd after =
    snd (Compress.compressVideo Samples.goodEncoder Samples.media3 "video/webm"
           Compress.noOptions Samples.emptyWorld) /\
  files (fst after) !! "/tmp/11111111-aaaa.webm" = Some Samples.media3 /\
  files (fst after) !! "/tmp/22222222-bbbb.mp4" = Some Samples.media2.
Proof. by vm_compute. Qed.

(** The argument vector of the encoder with the default settings. *)
Example scenario_arguments :
  Compress.ffmpegArgs "/tmp/in.webm" "/tmp/out.mp4"
    (Compress.resolveOptions Samples.goodEncoder Compress.noOptions) =
  ["-i"; "/tmp/in.webm"; "-y"; "-c:v"; "libx264"; "-preset"; "medium";
   "-crf"; "28"; "-maxrate"; "1500k"; "-bufsize"; "3000k";
   "-vf"; "scale=-2:'min(720,ih)'"; "-c:a"; "aac"; "-b:a"; "128k"; "-ac"; "2";
   "-movflags"; "+faststart"; "-pix_fmt"; "yuv420p"; "/tmp/out.mp4"].
Proof. reflexivity. Qed.

End Scenarios.

(** * Further properties *)

(** ** The route: what a run stores and answers *)

Section RouteRuns.
Import Js Sys.

Lemma handleDirect_run (h : Route.Host) (bodyUrl : string)
    (platform : option Cobalt.Platform) (shouldCompress : bool)
    (downloadUrl filename : string) (w : World) :
  let after := Route.handleDirect h bodyUrl platform shouldCompress downloadUrl filename w in
  Facts.Run h shouldCompress downloadUrl (Cobalt.extractTitleFromFilename filename)
    (replaceExtension ".mp4" filename) platform bodyUrl (Facts.directAnswer platform)
    w (fst after) (snd after).
Proof.
  simpl. unfold Route.handleDirect, bind, lift.
  destruct (Cobalt.downloadFromUrl (Route.net h) downloadUrl)
    as [download|e] eqn:Hd; [|by eapply Facts.runFailed].
  destruct (compressIfEnabled_spec h shouldCompress (Cobalt.buffer download)
              (Cobalt.contentType download) w)
    as (w1 & b & size & type & -> & Hb & Hv & -> & Hchoice).
  unfold Storage.uploadFile.
  destruct (Storage.putFault _ _) as [e|] eqn:Hput; [by eapply Facts.runFailed|].
  unfold Route.videoCreate.
  destruct (Route.createFault _ _) as [e|]; simpl.
  - eapply (Facts.runOrphan _ _ _ _ _ _ _ _ _ _ _ download b type e);
      try done; simpl; by rewrite ?Hb.
  - eapply (Facts.runCommitted _ _ _ _ _ _ _ _ _ _ _ download b type);
      try done; simpl; by rewrite ?Hb, ?Hv.
Qed.

Lemma handlePicker_run (h : Route.Host) (bodyUrl : string)
    (platform : option Cobalt.Platform) (shouldCompress : bool)
    (firstVideo : Cobalt.PickerItem) (w : World) :
  let after := Route.handlePicker h bodyUrl platform shouldCompress firstVideo w in
  Facts.Run h shouldCompress (Cobalt.itemUrl firstVideo)
    ("Video from " +:+ Route.showPlatform platform) "video.mp4" platform bodyUrl
    (Facts.pickerAnswer platform) w (fst after) (snd after).
Proof.
  simpl. unfold Route.handlePicker, bind, lift.
  destruct (Cobalt.downloadFromUrl (Route.net h) (Cobalt.itemUrl firstVideo))
    as [download|e] eqn:Hd; [|by eapply Facts.runFailed].
  destruct (compressIfEnabled_spec h shouldCompress (Cobalt.buffer download)
              (Cobalt.contentType download) w)
    as (w1 & b & size & type & -> & Hb & Hv & -> & Hchoice).
  unfold Storage.uploadFile.
  destruct (Storage.putFault _ _) as [e|] eqn:Hput; [by eapply Facts.runFailed|].
  unfold Route.videoCreate.
  destruct (Route.createFault _ _) as [e|]; simpl.
  - eapply (Facts.runOrphan _ _ _ _ _ _ _ _ _ _ _ download b type e);
      try done; simpl; by rewrite ?Hb.
  - eapply (Facts.runCommitted _ _ _ _ _ _ _ _ _ _ _ download b type);
      try done; simpl; by rewrite ?Hb, ?Hv.
Qed.

(** A run of [POST] either answers 400 or 500 without touching the
    world, or is the run of one of the two branches under the [catch]. *)
Lemma POST_cases (h : Route.Host) (requestJson : result Route.DownloadRequest)
    (w : World) :
  (exists response,
     Route.POST h requestJson w = (w, Return response) /\
     (Route.httpStatus response = 400%N \/ Route.httpStatus response = 500%N)) \/
  (exists shouldCompress target title name platform bodyUrl answer m,
     Route.POST h requestJson w = tryCatch m Route.onError w /\
     Facts.Run h shouldCompress target title name platform bodyUrl answer
       w (fst (m w)) (snd (m w)) /\
     forall row d, Route.httpStatus (answer row d) = 200%N).
Proof.
  unfold Route.POST. rewrite tryCatch_onError_run. unfold bind, lift.
  destruct requestJson as [body|e]; [|left; eexists; split; [reflexivity|right; reflexivity]].
  destruct (Route.missing (Route.url body));
    [left; eexists; split; [reflexivity|left; reflexivity]|].
  destruct (negb _); [left; eexists; split; [reflexivity|left; reflexivity]|].
  destruct (Cobalt.requestDownload _ _) as [cobaltResponse|e];
    [|left; eexists; split; [reflexivity|right; reflexivity]].
  set (bodyUrl := Cobalt.orDefault (Route.url body) "").
  set (platform := Cobalt.detectPlatform bodyUrl).
  set (sc := Route.shouldCompressOf h body).
  destruct cobaltResponse as [u f|u f|items|code service|st]; simpl Route.dispatch.
  - right. eexists _, _, _, _, _, _, _, (Route.handleDirect h bodyUrl platform sc u f).
    split; [by rewrite tryCatch_onError_run|].
    split; [apply handleDirect_run|done].
  - right. eexists _, _, _, _, _, _, _, (Route.handleDirect h bodyUrl platform sc u f).
    split; [by rewrite tryCatch_onError_run|].
    split; [apply handleDirect_run|done].
  - destruct (List.find Route.isVideo items) as [v|].
    + right. eexists _, _, _, _, _, _, _, (Route.handlePicker h bodyUrl platform sc v).
      split; [by rewrite tryCatch_onError_run|].
      split; [apply handlePicker_run|done].
    + left. eexists; split; [reflexivity|left; reflexivity].
  - left. eexists; split; [reflexivity|left; reflexivity].
  - left. eexists; split; [reflexivity|right; reflexivity].
Qed.

(** X1. [POST] always answers, with status 200, 400 or 500, and the
    status is 200 exactly when the run has added a row to the table;
    with any other status the table is as it was. *)
Theorem POST_success_iff_row (h : Route.Host)
    (requestJson : result Route.DownloadRequest) (w : World) :
  exists response,
    snd (Route.POST h requestJson w) = Return response /\
    (Route.httpStatus response = 200%N \/ Route.httpStatus response = 400%N \/
     Route.httpStatus response = 500%N) /\
    (Route.httpStatus response = 200%N <->
     exists row, videos (fst (Route.POST h requestJson w)) = videos w ++ [row]) /\
    (Route.httpStatus response <> 200%N ->
     videos (fst (Route.POST h requestJson w)) = videos w).
Proof.
  destruct (POST_cases h requestJson w)
    as [(response & -> & Hcode)
       |(sc & target & title & name & platform & bodyUrl & answer & m & -> & Hrun & H200)].
  - exists response. simpl. split; [done|]. split; [tauto|]. split; [|done].
    split.
    + intros H. destruct Hcode as [Hc|Hc]; rewrite Hc in H; discriminate.
    + intros [row Hrow]. by apply eq_sym, app_singleton_neq in Hrow.
  - rewrite tryCatch_onError_run. simpl.
    destruct Hrun as [e -> Hb Hv|d b type e Hd Hs Hput -> Hb Hv|d b type Hd Hs Hput -> Hb Hv].
    + eexists. split; [done|]. simpl. split; [tauto|]. split; [|done].
      split; [discriminate|]. rewrite Hv. intros [row Hrow].
      by apply eq_sym, app_singleton_neq in Hrow.
    + eexists. split; [done|]. simpl. split; [tauto|]. split; [|done].
      split; [discriminate|]. rewrite Hv. intros [row Hrow].
      by apply eq_sym, app_singleton_neq in Hrow.
    + eexists. split; [done|]. rewrite H200. split; [tauto|]. split; [|done].
      split; [|done]. intros _. by eexists.
Qed.

(** X2. [POST] never removes or changes a row, and changes the bucket at
    no key other than the one it generates from the clock and the random
    number of the run: every other object is as it was. *)
Theorem POST_touches_only_its_key (h : Route.Host)
    (requestJson : result Route.DownloadRequest) (w : World) :
  let w' := fst (Route.POST h requestJson w) in
  Facts.extends (videos w) (videos w') /\
  forall key,
    (forall name, key <> Storage.generateFileKey (Route.now h) (Route.random36 h) name) ->
    blobs w' !! key = blobs w !! key.
Proof.
  simpl.
  destruct (POST_cases h requestJson w)
    as [(response & -> & Hcode)
       |(sc & target & title & name & platform & bodyUrl & answer & m & -> & Hrun & H200)].
  - simpl. split; [exists []; by rewrite app_nil_r|done].
  - rewrite tryCatch_onError_run. simpl.
    destruct Hrun as [e _ Hb Hv|d b type e Hd Hs Hput _ Hb Hv|d b type Hd Hs Hput _ Hb Hv];
      rewrite Hb, Hv.
    + split; [exists []; by rewrite app_nil_r|done].
    + split; [exists []; by rewrite app_nil_r|].
      intros key Hkey. rewrite lookup_insert_ne; [done|].
      intros Heq. by apply (Hkey name).
    + split; [by eexists|].
      intros key Hkey. rewrite lookup_insert_ne; [done|].
      intros Heq. by apply (Hkey name).
Qed.

(** The run of [POST] for a direct answer of the resolution service. *)
Lemma POST_direct (h : Route.Host) (body : Route.DownloadRequest)
    (bodyUrl downloadUrl filename : string) (w : World) :
  Route.url body = Some bodyUrl -> bodyUrl <> "" ->
  Cobalt.isUrlSupported bodyUrl = true ->
  Cobalt.requestDownload (Route.net h) (Route.cobaltOptions bodyUrl body) =
    Return (Cobalt.tunnel downloadUrl filename) \/
  Cobalt.requestDownload (Route.net h) (Route.cobaltOptions bodyUrl body) =
    Return (Cobalt.redirect downloadUrl filename) ->
  Route.POST h (Return body) w =
  tryCatch
    (Route.handleDirect h bodyUrl (Cobalt.detectPlatform bodyUrl)
       (Route.shouldCompressOf h body) downloadUrl filename)
    Route.onError w.
Proof.
  intros Hurl Hne Hsup Hreq. rewrite (POST_supported h body bodyUrl w) by done.
  unfold tryCatch, bind, lift. by destruct Hreq as [-> | ->].
Qed.

(** X3. On the direct path, a run that adds a row adds this one: the
    title is derived from the suggested filename; the file name is the
    suggested one with its extension, if it has one, replaced by [.mp4],
    whether or not the bytes were compressed; the key is generated from
    that name; size and type are those of the object stored under the
    key, which holds the download as it is or the encoder's output as
    [video/mp4]. The response repeats these fields and reports the bytes
    saved as the downloaded length minus the stored length. *)
Theorem POST_direct_row (h : Route.Host) (body : Route.DownloadRequest)
    (bodyUrl downloadUrl filename : string) (w : World) (row : VideoRecord) :
  Route.url body = Some bodyUrl -> bodyUrl <> "" ->
  Cobalt.isUrlSupported bodyUrl = true ->
  Cobalt.requestDownload (Route.net h) (Route.cobaltOptions bodyUrl body) =
    Return (Cobalt.tunnel downloadUrl filename) \/
  Cobalt.requestDownload (Route.net h) (Route.cobaltOptions bodyUrl body) =
    Return (Cobalt.redirect downloadUrl filename) ->
  videos (fst (Route.POST h (Return body) w)) = videos w ++ [row] ->
  exists d b type,
    Cobalt.downloadFromUrl (Route.net h) downloadUrl = Return d /\
    Facts.stores h (Route.shouldCompressOf h body) d b type /\
    row = Facts.rowOf h (Cobalt.extractTitleFromFilename filename)
            (replaceExtension ".mp4" filename) (Cobalt.detectPlatform bodyUrl)
            bodyUrl b type /\
    blobs (fst (Route.POST h (Return body) w)) !! fileKey (data row) =
      Some {| blobBody := b; blobContentType := type |} /\
    snd (Route.POST h (Return body) w) =
      Return (Facts.directAnswer (Cobalt.detectPlatform bodyUrl) row d).
Proof.
  intros Hurl Hne Hsup Hreq. rewrite (POST_direct h body bodyUrl downloadUrl filename w)
    by done.
  rewrite tryCatch_onError_run. simpl.
  pose proof (handleDirect_run h bodyUrl (Cobalt.detectPlatform bodyUrl)
                (Route.shouldCompressOf h body) downloadUrl filename w) as Hrun.
  simpl in Hrun.
  destruct Hrun as [e _ Hb Hv|d b type e Hd Hs Hput _ Hb Hv|d b type Hd Hs Hput Hr Hb Hv];
    rewrite Hv; intros Hrow.
  - by apply eq_sym, app_singleton_neq in Hrow.
  - by apply eq_sym, app_singleton_neq in Hrow.
  - apply app_inj_tail in Hrow as [_ <-].
    exists d, b, type. rewrite Hb, Hr. repeat split; try done.
    simpl. by rewrite lookup_insert_eq.
Qed.

(** X4. On the picker path, a run that adds a row adds this one: the
    title is [Video from] and the platform's name, the file name is
    [video.mp4], the key is generated from that name, and size and type
    are those of the object stored under the key, downloaded from the
    item the route took. *)
Theorem POST_picker_row (h : Route.Host) (body : Route.DownloadRequest)
    (bodyUrl : string) (items : list Cobalt.PickerItem) (firstVideo : Cobalt.PickerItem)
    (w : World) (row : VideoRecord) :
  Route.url body = Some bodyUrl -> bodyUrl <> "" ->
  Cobalt.isUrlSupported bodyUrl = true ->
  Cobalt.requestDownload (Route.net h) (Route.cobaltOptions bodyUrl body) =
    Return (Cobalt.picker items) ->
  List.find Route.isVideo items = Some firstVideo ->
  videos (fst (Route.POST h (Return body) w)) = videos w ++ [row] ->
  exists d b type,
    Cobalt.downloadFromUrl (Route.net h) (Cobalt.itemUrl firstVideo) = Return d /\
    Facts.stores h (Route.shouldCompressOf h body) d b type /\
    row = Facts.rowOf h ("Video from " +:+ Route.showPlatform (Cobalt.detectPlatform bodyUrl))
            "video.mp4" (Cobalt.detectPlatform bodyUrl) bodyUrl b type /\
    blobs (fst (Route.POST h (Return body) w)) !! fileKey (data row) =
      Some {| blobBody := b; blobContentType := type |} /\
    snd (Route.POST h (Return body) w) =
      Return (Facts.pickerAnswer (Cobalt.detectPlatform bodyUrl) row d).
Proof.
  intros Hurl Hne Hsup Hreq Hfind. rewrite (POST_supported h body bodyUrl w) by done.
  rewrite tryCatch_onError_run. unfold bind, lift. rewrite Hreq.
  simpl Route.dispatch. rewrite Hfind.
  pose proof (handlePicker_run h bodyUrl (Cobalt.detectPlatform bodyUrl)
                (Route.shouldCompressOf h body) firstVideo w) as Hrun.
  simpl in Hrun. simpl fst. simpl snd.
  destruct Hrun as [e _ Hb Hv|d b type e Hd Hs Hput _ Hb Hv|d b type Hd Hs Hput Hr Hb Hv];
    rewrite Hv; intros Hrow.
  - by apply eq_sym, app_singleton_neq in Hrow.
  - by apply eq_sym, app_singleton_neq in Hrow.
  - apply app_inj_tail in Hrow as [_ <-].
    exists d, b, type. rewrite Hb, Hr. repeat split; try done.
    simpl. by rewrite lookup_insert_eq.
Qed.

(** X5. A request without a URL, with an empty one, or with a URL of no
    supported platform is answered 400 with the world untouched; the
    answer is the same on every host, so nothing of the host is used: no
    call to the resolution service, no download, no encoder. *)
Theorem POST_refuses_before_any_call (h h' : Route.Host)
    (body : Route.DownloadRequest) (w : World) :
  Route.missing (Route.url body) = true \/
  Cobalt.isUrlSupported (Cobalt.orDefault (Route.url body) "") = false ->
  exists message,
    Route.POST h (Return body) w =
      (w, Return (Route.respond (Route.errorBody message) 400)) /\
    Route.POST h' (Return body) w = Route.POST h (Return body) w /\
    (Route.missing (Route.url body) = true -> message = "URL is required").
Proof.
  intros Hbad. unfold Route.POST, tryCatch, bind, lift.
  destruct (Route.missing (Route.url body)) eqn:Hmiss.
  - eexists. repeat split.
  - destruct Hbad as [Hbad|Hbad]; [done|]. rewrite Hbad. simpl.
    eexists. repeat split. done.
Qed.

(** X6. When the resolution service answers with its error variant the
    route answers 400 with [Download failed:] and the service's code; for
    a status it does not know it answers 500. In both cases the world is
    untouched. *)
Theorem POST_upstream_error (h : Route.Host) (body : Route.DownloadRequest)
    (bodyUrl : string) (answer : Cobalt.CobaltResponse) (w : World) :
  Route.url body = Some bodyUrl -> bodyUrl <> "" ->
  Cobalt.isUrlSupported bodyUrl = true ->
  Cobalt.requestDownload (Route.net h) (Route.cobaltOptions bodyUrl body) = Return answer ->
  match answer with
  | Cobalt.error code _ =>
      Route.POST h (Return body) w =
        (w, Return (Route.respond (Route.errorBody ("Download failed: " +:+ code)) 400))
  | Cobalt.other _ =>
      Route.POST h (Return body) w =
        (w, Return (Route.respond
                      (Route.errorBody "Unexpected response from download service") 500))
  | _ => True
  end.
Proof.
  intros Hurl Hne Hsup Hreq. rewrite (POST_supported h body bodyUrl w) by done.
  unfold tryCatch, bind, lift. rewrite Hreq. by destruct answer.
Qed.

End RouteRuns.

(** ** Numerals: printing and reading back *)

Section Numerals.
Import Js.

Lemma decimalValue_acc (d : Decimal.uint) (acc : positive) :
  Spec.decimalValue (Z.pos acc) (NilEmpty.string_of_uint d) =
  Z.pos (Pos.of_uint_acc d acc).
Proof.
  revert acc. induction d; intros acc; simpl; try done;
    change (digitValue 10 _) with (Some 0) || change (digitValue 10 _) with (Some 1)
    || change (digitValue 10 _) with (Some 2) || change (digitValue 10 _) with (Some 3)
    || change (digitValue 10 _) with (Some 4) || change (digitValue 10 _) with (Some 5)
    || change (digitValue 10 _) with (Some 6) || change (digitValue 10 _) with (Some 7)
    || change (digitValue 10 _) with (Some 8) || change (digitValue 10 _) with (Some 9);
    rewrite <- IHd; f_equal; lia.
Qed.

Lemma decimalValue_of_uint (d : Decimal.uint) :
  Spec.decimalValue 0 (NilEmpty.string_of_uint d) = Z.of_N (Pos.of_uint d).
Proof.
  induction d; simpl; try done;
    change (digitValue 10 _) with (Some 0) || change (digitValue 10 _) with (Some 1)
    || change (digitValue 10 _) with (Some 2) || change (digitValue 10 _) with (Some 3)
    || change (digitValue 10 _) with (Some 4) || change (digitValue 10 _) with (Some 5)
    || change (digitValue 10 _) with (Some 6) || change (digitValue 10 _) with (Some 7)
    || change (digitValue 10 _) with (Some 8) || change (digitValue 10 _) with (Some 9);
    simpl; try exact IHd; apply decimalValue_acc.
Qed.

Lemma to_uint_not_nil (n : N) : N.to_uint n <> Decimal.Nil.
Proof. destruct n as [|q]; [done|]. simpl. apply DecimalPos.Unsigned.to_uint_nonnil. Qed.

Lemma showN_eq (n : N) : showN n = NilEmpty.string_of_uint (N.to_uint n).
Proof.
  unfold showN, NilZero.string_of_uint. pose proof (to_uint_not_nil n).
  by destruct (N.to_uint n).
Qed.

(** Reading back a printed number gives the number. *)
Lemma decimalValue_showN (n : N) : Spec.decimalValue 0 (showN n) = Z.of_N n.
Proof.
  rewrite showN_eq, decimalValue_of_uint. f_equal. apply DecimalN.Unsigned.of_to.
Qed.

Lemma string_of_uint_allDigits (d : Decimal.uint) :
  Spec.allDigits (NilEmpty.string_of_uint d) = true.
Proof. induction d; simpl; done. Qed.

Lemma showN_allDigits (n : N) : Spec.allDigits (showN n) = true.
Proof. rewrite showN_eq. apply string_of_uint_allDigits. Qed.

Lemma showN_not_empty (n : N) : showN n <> "".
Proof.
  rewrite showN_eq. pose proof (to_uint_not_nil n). by destruct (N.to_uint n).
Qed.

Lemma showN_numeric (n : N) : Spec.numeric (showN n) = true.
Proof.
  unfold Spec.numeric. rewrite showN_allDigits.
  pose proof (showN_not_empty n). by destruct (showN n).
Qed.

(** The digits of a numeral followed by a letter are read up to the
    letter. *)
Lemma digitsPrefix_k (s rest : string) (a : Z) :
  Spec.allDigits s = true ->
  digitsPrefix 10 (Some a) (s +:+ String "k" rest) = Some (Spec.decimalValue a s).
Proof.
  revert a. induction s as [|c s IH]; intros a; [done|].
  rewrite sapp_cons. simpl.
  destruct (digitValue 10 c) as [d|]; [|done]. intros H. by rewrite IH.
Qed.

(** [parseInt] of a bit rate such as [1500k] is the number before the
    letter. *)
Lemma parseInt_bitrate (n : N) : parseInt (showN n +:+ "k") = Num (Z.of_N n).
Proof.
  pose proof (showN_allDigits n) as Hall. pose proof (showN_not_empty n) as Hne.
  pose proof (decimalValue_showN n) as Hval.
  destruct (showN n) as [|c s]; [done|]. clear Hne.
  rewrite sapp_cons. simpl in Hall, Hval.
  destruct (digitValue 10 c) as [d|] eqn:Hd; [|done].
  destruct (digit_not_space c d Hd) as (Hw & Hm & Hp & _).
  unfold parseInt. simpl trimStart. rewrite Hw.
  assert (readSign (String c (s +:+ "k")) = (1, String c (s +:+ "k"))) as ->.
  { unfold readSign. destruct c as [[] [] [] [] [] [] [] []]; done. }
  assert (match String c (s +:+ "k") with
          | String "0" (String "x" r) => (16, r)
          | String "0" (String "X" r) => (16, r)
          | _ => (10, String c (s +:+ "k"))
          end = (10, String c (s +:+ "k"))) as ->.
  { destruct s as [|c2 s]; [by destruct c as [[] [] [] [] [] [] [] []]|].
    rewrite sapp_cons. simpl in Hall.
    destruct (digitValue 10 c2) as [d2|] eqn:Hd2; [|done].
    destruct c as [[] [] [] [] [] [] [] []]; try done;
      destruct c2 as [[] [] [] [] [] [] [] []]; done. }
  simpl. rewrite Hd. rewrite digitsPrefix_k by done. rewrite Hval. f_equal. lia.
Qed.

End Numerals.

(** ** The transcoder: success, paths, diagnostics, arguments *)

Section TranscoderMore.
Import Js Sys.

(** X7. [compressVideo] returns a value exactly when the input file
    could be written, the encoder ended with exit code zero, and the
    output path could then be read; the value holds the bytes the encoder
    left at the output path, the length of the input and the length of
    those bytes. In every other case it throws. *)
Theorem compressVideo_returns_iff (h : Compress.Host) (inputBuffer : Buffer)
    (inputMimeType : string) (options : Compress.CompressionOptions) (w : World)
    (c : Compress.CompressionResult) :
  let inputPath := Compress.inputPathOf h inputMimeType in
  let outputPath := Compress.outputPathOf h in
  let run :=
    Compress.spawnFFmpeg h
      (Compress.ffmpegArgs inputPath outputPath (Compress.resolveOptions h options))
      (<[inputPath := inputBuffer]> (files w)) in
  snd (Compress.compressVideo h inputBuffer inputMimeType options w) = Return c <->
  Compress.writeFault h inputPath = None /\
  (exists stderr, snd run = Compress.closed (Some 0) stderr) /\
  Compress.readFault h outputPath = None /\
  exists data,
    fst run !! outputPath = Some data /\
    c = {| Compress.buffer := data;
           Compress.originalSize := lengthZ inputBuffer;
           Compress.compressedSize := lengthZ data;
           Compress.compressionRatio :=
             Compress.ratioOf (lengthZ inputBuffer) (lengthZ data) |}.
Proof.
  intros inputPath outputPath run. rewrite compressVideo_outcome.
  fold inputPath outputPath.
  unfold Compress.compressBody, bind, Compress.writeFile.
  destruct (Compress.writeFault h inputPath) as [[e [k|]]|]; simpl;
    [split; [done|by intros [? _]]..|].
  unfold Compress.runFFmpeg. simpl files. fold run.
  destruct run as [fs ending]. simpl.
  destruct ending as [[[| |]|] err|msg]; simpl;
    try (split; [done|by intros (_ & [? ?] & _)]).
  unfold Compress.readFile. simpl.
  destruct (Compress.readFault h outputPath) as [e|];
    [split; [done|by intros (_ & _ & ? & _)]|].
  destruct (fs !! outputPath) as [data|]; simpl.
  - split.
    + intros [= <-]. repeat split; [by eexists|]. by exists data.
    + intros (_ & _ & _ & data' & [= <-] & ->). done.
  - split; [done|]. by intros (_ & _ & _ & data' & ? & _).
Qed.

Lemma lacks_app_false (c : ascii) (x y : string) :
  Spec.lacks c (x +:+ String c y) = false.
Proof.
  induction x as [|a x IH].
  - rewrite sapp_nil_l. simpl. by rewrite Ascii.eqb_refl.
  - rewrite sapp_cons. simpl. rewrite IH. apply andb_false_r.
Qed.

(** A string is cut at the last occurrence of a character in one way. *)
Lemma cut_last_unique (c : ascii) (a a' b b' : string) :
  Spec.lacks c b = true -> Spec.lacks c b' = true ->
  a +:+ String c b = a' +:+ String c b' -> a = a' /\ b = b'.
Proof.
  intros Hb Hb'. revert a'. induction a as [|x a IH]; intros [|x' a'].
  - rewrite !sapp_nil_l. by intros [= ->].
  - rewrite sapp_nil_l, sapp_cons. intros [= <- ->].
    by rewrite lacks_app_false in Hb.
  - rewrite sapp_nil_l, sapp_cons. intros [= -> <-].
    by rewrite lacks_app_false in Hb'.
  - rewrite !sapp_cons. intros [= -> H]. by destruct (IH a' H) as [-> ->].
Qed.

(** The extension of the input file is one of the seven of the table,
    or the text of an inherited property. *)
Lemma getExtension_values (mimeType : string) :
  In (Compress.getExtensionFromMimeType mimeType)
     (["mp4"; "webm"; "mov"; "avi"; "mkv"; "mpeg"; "3gp"]
      ++ map snd Compress.objectPrototype).
Proof.
  unfold Compress.getExtensionFromMimeType, Compress.mimeMapAt, Compress.inherited.
  apply in_or_app.
  destruct (Compress.mimeMap !! mimeType) as [e|] eqn:Hm.
  - left. apply elem_of_list_to_map_2 in Hm.
    repeat (apply elem_of_cons in Hm as [[= _ ->]|Hm]; [simpl; tauto|]).
    by apply elem_of_nil in Hm.
  - destruct ((list_to_map Compress.objectPrototype : gmap string string) !! mimeType)
      as [text|] eqn:Hi; [|left; by left].
    right. apply elem_of_list_to_map_2 in Hi.
    repeat (apply elem_of_cons in Hi as [[= _ ->]|Hi]; [vm_compute; tauto|]).
    by apply elem_of_nil in Hi.
Qed.

(** An inherited key is not a key of the table, so the lookup gives the
    inherited value, which is no extension of the table. *)
Lemma getExtension_inherited (mimeType text : string) :
  Compress.inherited mimeType = Some text ->
  Compress.getExtensionFromMimeType mimeType = text /\
  ~ In text ["mp4"; "webm"; "mov"; "avi"; "mkv"; "mpeg"; "3gp"].
Proof.
  unfold Compress.inherited. intros Hi. apply elem_of_list_to_map_2 in Hi.
  repeat (apply elem_of_cons in Hi as [[= -> ->]|Hi];
          [split; [by vm_compute|];
           vm_compute; intros H; repeat (destruct H as [H|H]; [discriminate H|]); exact H|]).
  by apply elem_of_nil in Hi.
Qed.

(** X8. The extension of the temporary input file is one of the seven
    of the table for a content type that is a key of it, and [mp4] for
    any other content type, except for the names an object literal
    inherits ([constructor], [toString], [__proto__] and the like): for
    those the lookup gives the inherited value, and the path carries its
    text, which is none of the seven. In every case the two temporary
    paths of one invocation are the same path only when the two random
    identifiers are equal and the input is written with the extension
    [mp4]; otherwise the encoder's output cannot overwrite its input. *)
Theorem temporary_paths_distinct (h : Compress.Host) (inputMimeType : string) :
  (Compress.inherited inputMimeType = None ->
   In (Compress.getExtensionFromMimeType inputMimeType)
      ["mp4"; "webm"; "mov"; "avi"; "mkv"; "mpeg"; "3gp"]) /\
  (Compress.mimeMap !! inputMimeType = None ->
   Compress.inherited inputMimeType = None ->
   Compress.getExtensionFromMimeType inputMimeType = "mp4") /\
  (forall text,
     Compress.inherited inputMimeType = Some text ->
     Compress.getExtensionFromMimeType inputMimeType = text /\
     ~ In text ["mp4"; "webm"; "mov"; "avi"; "mkv"; "mpeg"; "3gp"]) /\
  (Compress.inputPathOf h inputMimeType = Compress.outputPathOf h <->
   Compress.inputId h = Compress.outputId h /\
   Compress.getExtensionFromMimeType inputMimeType = "mp4").
Proof.
  split; [|split; [|split; [apply getExtension_inherited|]]].
  { intros Hnone. pose proof (getExtension_values inputMimeType) as Hin.
    apply in_app_or in Hin as [Hin|Hin]; [done|].
    unfold Compress.getExtensionFromMimeType, Compress.mimeMapAt in *.
    destruct (Compress.mimeMap !! inputMimeType) as [e|] eqn:Hm.
    - apply elem_of_list_to_map_2 in Hm.
      repeat (apply elem_of_cons in Hm as [[= _ ->]|Hm]; [simpl; tauto|]).
      by apply elem_of_nil in Hm.
    - rewrite Hnone. by left. }
  { unfold Compress.getExtensionFromMimeType, Compress.mimeMapAt. by intros -> ->. }
  unfold Compress.inputPathOf, Compress.outputPathOf, Compress.join. split.
  - intros H. apply sapp_inv_head in H.
    change ("/" +:+ ?x) with (String "/" x) in H. injection H as H.
    change ("." +:+ ?x) with (String "." x) in H.
    change (Compress.outputId h +:+ ".mp4")
      with (Compress.outputId h +:+ String "." "mp4") in H.
    apply cut_last_unique in H; [done| |done].
    generalize (getExtension_values inputMimeType).
    generalize (Compress.getExtensionFromMimeType inputMimeType).
    intros ext Hin. vm_compute in Hin.
    repeat (destruct Hin as [<-|Hin]; [reflexivity|]). destruct Hin.
  - by intros [-> ->].
Qed.

Lemma drop_suffix (n : nat) (s : string) : exists head, s = head +:+ drop n s.
Proof.
  revert s. induction n as [|n IH]; intros s; [by exists ""|].
  destruct s as [|c s]; [by exists ""|].
  destruct (IH s) as [head Hhead]. exists (String c head).
  rewrite sapp_cons. simpl. by rewrite <- Hhead.
Qed.

Lemma drop_length (n : nat) (s : string) :
  String.length (drop n s) = (String.length s - n)%nat.
Proof.
  revert s. induction n as [|n IH]; intros s; [simpl; lia|].
  destruct s as [|c s]; [done|]. simpl. apply IH.
Qed.

(** X9. When the encoder ends with a code other than zero, the error of
    [runFFmpeg] carries the code and the tail of the encoder's standard
    error: its last 500 characters, or all of it when it is not longer. *)
Theorem runFFmpeg_failure_message (h : Compress.Host) (inputPath outputPath : string)
    (options : Compress.FFmpegOptions) (w : World) (code : option Z) (stderr : string) :
  snd (Compress.spawnFFmpeg h (Compress.ffmpegArgs inputPath outputPath options)
         (files w)) = Compress.closed code stderr ->
  code <> Some 0 ->
  exists tail,
    snd (Compress.runFFmpeg h inputPath outputPath options w) =
      Throw (Error ("FFmpeg exited with code "
                    +:+ match code with Some c => showZ c | None => "null" end
                    +:+ ": " +:+ tail)) /\
    (exists head, stderr = head +:+ tail) /\
    (String.length tail <= 500)%nat /\
    ((String.length stderr <= 500)%nat -> tail = stderr).
Proof.
  intros Hend Hcode. exists (sliceLast 500 stderr). split; [|split; [|split]].
  - unfold Compress.runFFmpeg.
    destruct (Compress.spawnFFmpeg h _ _) as [fs ending]. simpl in Hend. subst ending.
    by destruct code as [[| |]|].
  - apply drop_suffix.
  - unfold sliceLast. rewrite drop_length. lia.
  - intros Hlen. unfold sliceLast.
    replace (String.length stderr - 500)%nat with 0%nat by lia. done.
Qed.

(** X10. For a bit rate written as a number followed by [k], the
    encoder is given that ceiling after [-maxrate] and twice the number,
    with the [k], after [-bufsize]. The number is one that a double holds
    exactly, at most [2^53 - 1]. *)
Theorem ffmpegArgs_buffer_twice_ceiling (inputPath outputPath : string)
    (options : Compress.FFmpegOptions) (n : N) :
  Compress.ffVideoBitrate options = showN n +:+ "k" ->
  (n <= 9007199254740991)%N ->
  exists before after,
    Compress.ffmpegArgs inputPath outputPath options =
    before ++ ["-maxrate"; showN n +:+ "k"; "-bufsize"; showN (2 * n) +:+ "k"] ++ after.
Proof.
  intros Hrate _. unfold Compress.ffmpegArgs. rewrite Hrate, parseInt_bitrate.
  simpl double. unfold showNumber, showZ.
  assert ((Z.of_N n * 2 <? 0) = false) as -> by (apply Z.ltb_ge; lia).
  replace (Z.to_N (Z.of_N n * 2)) with (2 * n)%N by lia.
  by exists ["-i"; inputPath; "-y"; "-c:v"; "libx264"; "-preset"; "medium";
             "-crf"; Compress.ffCrf options],
            ["-vf"; "scale=-2:'min(" +:+ showNumber (Compress.ffMaxResolution options)
                    +:+ ",ih)'";
             "-c:a"; "aac"; "-b:a"; Compress.ffAudioBitrate options; "-ac"; "2";
             "-movflags"; "+faststart"; "-pix_fmt"; "yuv420p"; outputPath].
Qed.

(** X11. Compression is skipped, without starting any process, when the
    request says [compress: false] or the environment sets
    [VIDEO_COMPRESSION_ENABLED] to [false]; when the version probe does
    not end with exit code zero, only the probe has run. In both cases
    the block hands on the downloaded bytes, their length and their
    type. *)
Theorem compression_skipped (h : Route.Host) (buffer : Buffer) (contentType : string)
    (w : World) :
  (forall body,
     Route.shouldCompressOf h body = false <->
     Route.compress body = Some false \/
     Compress.env (Route.transcoder h) "VIDEO_COMPRESSION_ENABLED" = Some "false") /\
  Route.compressIfEnabled h false buffer contentType w =
    (w, Return (buffer, lengthZ buffer, contentType)) /\
  (Spec.encoderFailed
     (snd (Compress.spawnFFmpeg (Route.transcoder h) ["-version"] (files w))) = true ->
   Route.compressIfEnabled h true buffer contentType w =
     (withFiles w (fst (Compress.spawnFFmpeg (Route.transcoder h) ["-version"] (files w))),
      Return (buffer, lengthZ buffer, contentType))).
Proof.
  split; [|split; [reflexivity|]].
  - intros body. unfold Route.shouldCompressOf, Route.COMPRESSION_ENABLED.
    destruct (Route.compress body) as [[|]|];
      destruct (Compress.env (Route.transcoder h) "VIDEO_COMPRESSION_ENABLED") as [v|];
      simpl; try (destruct (String.eqb_spec v "false") as [->|Hv]); simpl;
      split; try done; try tauto; try (intros [?|?]; congruence);
      try (intros _; by right) ; try (intros _; by left).
  - unfold Route.compressIfEnabled, bind, Compress.checkFFmpegAvailable.
    destruct (Compress.spawnFFmpeg (Route.transcoder h) ["-version"] (files w))
      as [fs ending]. simpl.
    by destruct ending as [[[| |]|] err|msg].
Qed.

End TranscoderMore.

(** ** Titles, keys and the request to the resolution service *)

Section NamesMore.
Import Js.

Lemma toUpperCaseChar_not_separator (c : ascii) :
  isSeparator c = false -> isSeparator (toUpperCaseChar c) = false.
Proof. destruct c as [[] [] [] [] [] [] [] []]; vm_compute; done. Qed.

Lemma lacks_separator (c : ascii) (s : string) :
  isSeparator c = false -> 
  Spec.lacks "_" s = true -> Spec.lacks "-" s = true ->
  Spec.lacks "_" (String c s) = true /\ Spec.lacks "-" (String c s) = true.
Proof.
  unfold isSeparator. intros Hc H1 H2. simpl. rewrite H1, H2.
  apply orb_false_iff in Hc as [-> ->]. done.
Qed.

Lemma lacks_not_separator (c : ascii) (s : string) :
  Spec.lacks "_" (String c s) = true -> Spec.lacks "-" (String c s) = true ->
  isSeparator c = false.
Proof.
  simpl. unfold isSeparator.
  intros [H1 _]%andb_true_iff [H2 _]%andb_true_iff.
  apply negb_true_iff in H1, H2. by rewrite H1, H2.
Qed.

(** The first character in upper case, the rest as it is. *)
Lemma capitalize_shape (cleaned : string) :
  Spec.lacks "_" cleaned = true -> Spec.lacks "-" cleaned = true ->
  let capitalized := toUpperCase (charAt0 cleaned) +:+ sliceFrom 1 cleaned in
  Spec.lacks "_" capitalized = true /\ Spec.lacks "-" capitalized = true /\
  String.length capitalized = String.length cleaned /\
  (capitalized = "" <-> cleaned = "").
Proof.
  intros H1 H2. destruct cleaned as [|a r]; [done|].
  change (toUpperCase (charAt0 (String a r)) +:+ sliceFrom 1 (String a r))
    with (String (toUpperCaseChar a) r).
  pose proof (lacks_not_separator _ _ H1 H2) as Ha.
  apply toUpperCaseChar_not_separator in Ha.
  simpl in H1, H2.
  apply andb_true_iff in H1 as [_ H1]. apply andb_true_iff in H2 as [_ H2].
  destruct (lacks_separator _ _ Ha H1 H2) as [H3 H4].
  cbv zeta. rewrite H3, H4. done.
Qed.

(** X12. For an ASCII filename, the title has no underscore and no
    dash, and has the length of the filename without its extension. It is
    empty exactly when the filename is empty or is nothing but an
    extension (a dot followed by characters other than a dot and a
    slash): such a name gives a row with an empty title. *)
Theorem extractTitle_shape (filename : string) :
  Facts.isAscii filename = true ->
  Spec.lacks "_" (Cobalt.extractTitleFromFilename filename) = true /\
  Spec.lacks "-" (Cobalt.extractTitleFromFilename filename) = true /\
  String.length (Cobalt.extractTitleFromFilename filename) =
    String.length (replaceExtension "" filename) /\
  (Cobalt.extractTitleFromFilename filename = "" <->
   filename = "" \/ exists ext, filename = "." +:+ ext /\ Spec.isExtension ext).
Proof.
  intros _. unfold Cobalt.extractTitleFromFilename.
  set (stem := replaceExtension "" filename).
  assert (stem = "" <->
          filename = "" \/ exists ext, filename = "." +:+ ext /\ Spec.isExtension ext)
    as Hstem.
  { subst stem. destruct filename as [|c s]; [by split; [left|]|].
    rewrite replaceExtension_cons.
    destruct (matchExtensionHere (String c s)) eqn:Hm.
    - split; [intros _; right; by apply matchExtensionHere_iff|done].
    - split; [done|]. intros [?|Hext]; [done|].
      apply matchExtensionHere_iff in Hext. congruence. }
  destruct (replaceSeparators_lacks stem) as [H1 H2].
  assert (String.length (replaceSeparators stem) = String.length stem) as Hlen.
  { clear. induction stem as [|c s IH]; [done|]. simpl. by rewrite IH. }
  assert (replaceSeparators stem = "" <-> stem = "") as Hempty.
  { clear. by destruct stem. }
  destruct (capitalize_shape (replaceSeparators stem) H1 H2) as (H3 & H4 & H5 & H6).
  cbv zeta in *. rewrite H3, H4, H5, Hlen, H6, Hempty, Hstem. done.
Qed.

Lemma splitPop_lacks (acc s : string) :
  Spec.lacks "." s = true -> splitPop "." acc s = acc +:+ s.
Proof.
  revert acc. induction s as [|c s IH]; intros acc; simpl.
  - by rewrite sapp_nil_r.
  - intros [Hc Hs]%andb_true_iff. apply negb_true_iff in Hc. rewrite Hc.
    rewrite IH by done. by rewrite sapp_assoc.
Qed.

(** [split(".").pop()] is the text after the last dot. *)
Lemma splitPop_last (acc base ext : string) :
  Spec.lacks "." ext = true -> splitPop "." acc (base +:+ "." +:+ ext) = ext.
Proof.
  intros Hext. revert acc. induction base as [|c base IH]; intros acc.
  - rewrite sapp_nil_l. change ("." +:+ ext) with (String "." ext). simpl.
    by rewrite splitPop_lacks.
  - rewrite sapp_cons. simpl. destruct (Ascii.eqb c "."); apply IH.
Qed.

Lemma take_length (n : nat) (s : string) : (String.length (take n s) <= n)%nat.
Proof.
  revert s. induction n as [|n IH]; intros [|c s]; simpl; try lia.
  specialize (IH s). lia.
Qed.

(** [take] gives a prefix, of the full length unless the string ends
    before. *)
Lemma take_prefix (n : nat) (s : string) :
  exists rest, s = take n s +:+ rest /\ (String.length (take n s) = n \/ rest = "").
Proof.
  revert s. induction n as [|n IH]; intros s.
  - exists s. split; [by rewrite sapp_nil_l|by left].
  - destruct s as [|c s]; [exists ""; split; [done|by right]|].
    destruct (IH s) as (rest & Hs & Hlen). exists rest. simpl. rewrite sapp_cons.
    split; [by rewrite <- Hs|]. destruct Hlen as [-> | ->]; [by left|by right].
Qed.

(** X13. A storage key is [videos/], the timestamp in decimal, a dash,
    the random part, a dot, and the extension. The random part is what
    follows the first two characters of the random string, cut after
    thirteen characters: it is a prefix of that text, thirteen characters
    long unless the text is shorter, and then all of it. The extension is
    the text after the last dot of the file name; a name without a dot is
    taken whole as the extension, and a name that ends with a dot gives a
    key that ends with a dot. *)
Theorem generateFileKey_shape (timestamp : N) (random36 name : string) :
  (exists random extension,
     Storage.generateFileKey timestamp random36 name =
       "videos/" +:+ showN timestamp +:+ "-" +:+ random +:+ "." +:+ extension /\
     (exists rest,
        drop 2 random36 = random +:+ rest /\
        (String.length random = 13%nat \/ rest = "")) /\
     (String.length random <= 13)%nat /\
     (forall base ext,
        name = base +:+ "." +:+ ext -> Spec.lacks "." ext = true -> extension = ext) /\
     (Spec.lacks "." name = true -> extension = name)) /\
  Spec.allDigits (showN timestamp) = true.
Proof.
  split; [|apply showN_allDigits].
  exists (substring 2 15 random36), (splitPop "." "" name).
  split; [reflexivity|]. split; [apply (take_prefix 13)|].
  split; [apply take_length|]. split.
  - intros base ext -> Hext. by apply splitPop_last.
  - intros Hname. by rewrite splitPop_lacks.
Qed.

Lemma orDefault_not_empty (x : option string) (d : string) :
  d <> "" -> Cobalt.orDefault x d <> "".
Proof. intros Hd. by destruct x as [[|c s]|]. Qed.

Lemma orDefault_given (v d : string) : v <> "" -> Cobalt.orDefault (Some v) d = v.
Proof. intros Hv. by destruct v. Qed.

(** X14. The body sent to the resolution service is fully specified:
    none of its six option fields is ever empty. A field the caller gave
    is sent as given; a field that is absent, or given as the empty
    string, is sent as its default (1080, mp3, 128, auto, basic, h264). *)
Theorem requestBody_fully_specified (options : Cobalt.CobaltDownloadOptions) :
  let body := Cobalt.requestBody options in
  Cobalt.bodyUrl body = Cobalt.url options /\
  (Cobalt.bodyVideoQuality body <> "" /\ Cobalt.bodyAudioFormat body <> "" /\
   Cobalt.bodyAudioBitrate body <> "" /\ Cobalt.bodyDownloadMode body <> "" /\
   Cobalt.bodyFilenameStyle body <> "" /\ Cobalt.bodyYoutubeVideoCodec body <> "") /\
  (forall v, v <> "" ->
     (Cobalt.videoQuality options = Some v -> Cobalt.bodyVideoQuality body = v) /\
     (Cobalt.audioFormat options = Some v -> Cobalt.bodyAudioFormat body = v) /\
     (Cobalt.audioBitrate options = Some v -> Cobalt.bodyAudioBitrate body = v) /\
     (Cobalt.downloadMode options = Some v -> Cobalt.bodyDownloadMode body = v) /\
     (Cobalt.filenameStyle options = Some v -> Cobalt.bodyFilenameStyle body = v) /\
     (Cobalt.youtubeVideoCodec options = Some v ->
      Cobalt.bodyYoutubeVideoCodec body = v)) /\
  (forall unset, unset = None \/ unset = Some "" ->
     (Cobalt.videoQuality options = unset -> Cobalt.bodyVideoQuality body = "1080") /\
     (Cobalt.audioFormat options = unset -> Cobalt.bodyAudioFormat body = "mp3") /\
     (Cobalt.audioBitrate options = unset -> Cobalt.bodyAudioBitrate body = "128") /\
     (Cobalt.downloadMode options = unset -> Cobalt.bodyDownloadMode body = "auto") /\
     (Cobalt.filenameStyle options = unset -> Cobalt.bodyFilenameStyle body = "basic") /\
     (Cobalt.youtubeVideoCodec options = unset ->
      Cobalt.bodyYoutubeVideoCodec body = "h264")).
Proof.
  simpl. split; [done|]. split; [|split].
  - repeat split; by apply orDefault_not_empty.
  - intros v Hv. repeat split; intros ->; by apply orDefault_given.
  - intros unset [-> | ->]; repeat split; by intros ->.
Qed.

End NamesMore.

(** ** The videos route and the health route *)

Section VideosRoute.
Import Js Sys.

Lemma find_hasId_none (wanted : string) (rows : list VideoRecord) :
  (forall row, In row rows -> id row <> wanted) ->
  List.find (Videos.hasId wanted) rows = None.
Proof.
  induction rows as [|r rows IH]; intros H; [done|]. simpl. unfold Videos.hasId at 1.
  destruct (String.eqb_spec (id r) wanted) as [Heq|_].
  - by destruct (H r (or_introl eq_refl)).
  - apply IH. intros row Hin. apply H. by right.
Qed.

Lemma find_hasId_exists (wanted : string) (rows : list VideoRecord) (found : VideoRecord) :
  List.find (Videos.hasId wanted) rows = Some found ->
  In found rows /\ id found = wanted /\ existsb (Videos.hasId wanted) rows = true.
Proof.
  intros H. destruct (find_some _ _ H) as [Hin Hid].
  split; [done|]. split; [by apply String.eqb_eq|].
  apply existsb_exists. by exists found.
Qed.

(** X15. [DELETE] without an [id], or with an empty one, answers 400;
    with an [id] that no row has it answers 404. In both cases the table
    and the bucket are untouched. *)
Theorem DELETE_without_row (h : Videos.Host) (idParam : option string) (w : World) :
  (Route.missing idParam = true ->
   Videos.DELETE h idParam w =
     (w, Return (Videos.respond (Videos.errorBody "Video ID is required") 400))) /\
  (forall wanted,
     idParam = Some wanted -> wanted <> "" ->
     Videos.findUniqueFault h wanted = None ->
     (forall row, In row (videos w) -> id row <> wanted) ->
     Videos.DELETE h idParam w =
       (w, Return (Videos.respond (Videos.errorBody "Video not found") 404))).
Proof.
  split.
  - intros Hmiss. unfold Videos.DELETE, tryCatch. by rewrite Hmiss.
  - intros wanted -> Hne Hfault Hrows.
    unfold Videos.DELETE, tryCatch, bind, Videos.findUnique.
    destruct wanted as [|c rest]; [done|].
    change (Route.missing (Some (String c rest))) with false.
    change (Cobalt.orDefault (Some (String c rest)) "") with (String c rest).
    cbv iota. rewrite Hfault. by rewrite find_hasId_none.
Qed.

(** The run of [DELETE] for an [id] that a row has. *)
Lemma DELETE_found (h : Videos.Host) (wanted : string) (found : VideoRecord) (w : World) :
  wanted <> "" ->
  Videos.findUniqueFault h wanted = None ->
  List.find (Videos.hasId wanted) (videos w) = Some found ->
  let after := Videos.DELETE h (Some wanted) w in
  let key := fileKey (data found) in
  files (fst after) = files w /\
  blobs (fst after) =
    match Bucket.deleteFault (Videos.bucket h) key with
    | None => delete key (blobs w)
    | Some _ => blobs w
    end /\
  match Videos.rowDeleteFault h wanted with
  | None =>
      videos (fst after) =
        List.filter (fun row => negb (Videos.hasId wanted row)) (videos w) /\
      snd after = Return (Videos.respond Videos.successBody 200)
  | Some _ =>
      videos (fst after) = videos w /\
      snd after = Return (Videos.respond (Videos.errorBody "Failed to delete video") 500)
  end.
Proof.
  intros Hne Hfault Hfind.
  destruct (find_hasId_exists _ _ _ Hfind) as (_ & _ & Hex).
  unfold Videos.DELETE, tryCatch, bind, Videos.findUnique.
  destruct wanted as [|c rest]; [done|].
  change (Route.missing (Some (String c rest))) with false.
  change (Cobalt.orDefault (Some (String c rest)) "") with (String c rest).
  cbv iota. rewrite Hfault, Hfind.
  unfold swallow, tryCatch, Bucket.deleteFile, ret, Videos.rowDelete.
  destruct (Bucket.deleteFault (Videos.bucket h) (fileKey (data found))) as [e|];
    simpl; rewrite Hex;
    by destruct (Videos.rowDeleteFault h (String c rest)) as [e'|].
Qed.

(** X16. [DELETE] with the [id] of a row answers 200 when the row could
    be deleted: the row is gone and every other row is kept. The object
    under the row's key is deleted first; if that deletion fails the
    failure is swallowed, the answer is still 200 and the object stays in
    the bucket without a row. *)
Theorem DELETE_removes_row (h : Videos.Host) (wanted : string) (found : VideoRecord)
    (w : World) :
  wanted <> "" ->
  Videos.findUniqueFault h wanted = None ->
  List.find (Videos.hasId wanted) (videos w) = Some found ->
  Videos.rowDeleteFault h wanted = None ->
  let after := Videos.DELETE h (Some wanted) w in
  let key := fileKey (data found) in
  snd after = Return (Videos.respond Videos.successBody 200) /\
  (forall row, In row (videos (fst after)) <-> In row (videos w) /\ id row <> wanted) /\
  match Bucket.deleteFault (Videos.bucket h) key with
  | None => blobs (fst after) = delete key (blobs w) /\ blobs (fst after) !! key = None
  | Some _ => blobs (fst after) = blobs w
  end.
Proof.
  intros Hne Hfault Hfind Hrow.
  pose proof (DELETE_found h wanted found w Hne Hfault Hfind) as H.
  cbv zeta in *. rewrite Hrow in H. destruct H as (_ & Hb & Hv & Hr).
  split; [done|]. split.
  - intros row. rewrite Hv, filter_In. unfold Videos.hasId.
    destruct (String.eqb_spec (id row) wanted); simpl; split;
      try tauto; by intros [_ ?].
  - destruct (Bucket.deleteFault _ _); [done|].
    split; [done|]. rewrite Hb. apply lookup_delete_eq.
Qed.

(** X17. The object is deleted before the row: when the object has been
    deleted and the deletion of the row then fails, [DELETE] answers 500
    and the row stays in the table, pointing to a key that the bucket no
    longer has. *)
Theorem DELETE_row_failure_leaves_dangling_row (h : Videos.Host) (wanted : string)
    (found : VideoRecord) (w : World) (e : exn) :
  wanted <> "" ->
  Videos.findUniqueFault h wanted = None ->
  List.find (Videos.hasId wanted) (videos w) = Some found ->
  Bucket.deleteFault (Videos.bucket h) (fileKey (data found)) = None ->
  Videos.rowDeleteFault h wanted = Some e ->
  let after := Videos.DELETE h (Some wanted) w in
  snd after = Return (Videos.respond (Videos.errorBody "Failed to delete video") 500) /\
  In found (videos (fst after)) /\
  blobs (fst after) !! fileKey (data found) = None /\
  ~ Spec.backed (fst after).
Proof.
  intros Hne Hfault Hfind Hblob Hrow.
  pose proof (DELETE_found h wanted found w Hne Hfault Hfind) as H.
  cbv zeta in *. rewrite Hrow, Hblob in H. destruct H as (_ & Hb & Hv & Hr).
  destruct (find_hasId_exists _ _ _ Hfind) as (Hin & _ & _).
  assert (blobs (Videos.DELETE h (Some wanted) w).1 !! fileKey (data found) = None)
    as Hgone by (rewrite Hb; apply lookup_delete_eq).
  repeat split; try done; [by rewrite Hv|].
  intros Hbacked. specialize (Hbacked found). rewrite Hv in Hbacked.
  destruct (Hbacked Hin) as [blob Hblob']. congruence.
Qed.

Lemma all_withUrl (h : Videos.Host) (rows : list VideoRecord) (w : World) :
  Videos.all (Videos.withUrl h) rows w =
  (w, Return (map (fun row => (row, Facts.signedUrl h row)) rows)).
Proof.
  induction rows as [|row rows IH]; [done|].
  simpl. unfold bind at 1.
  assert (Videos.withUrl h row w = (w, Return (row, Facts.signedUrl h row))) as ->.
  { unfold Videos.withUrl, tryCatch, bind, Bucket.getSignedDownloadUrl, lift, ret,
      Facts.signedUrl.
    by destruct (Bucket.presign _ _ _). }
  unfold bind. by rewrite IH.
Qed.

(** X18. The listing answers 200 with the rows most recent first, fifty
    at most, each with its signed URL for one hour, or with [null] in its
    place when the signing of that row fails: a failure to sign never
    fails the listing. It answers 500 only when the query fails. The world
    is untouched. *)
Theorem GET_lists_most_recent (h : Videos.Host) (w : World) :
  let listed := firstn 50 (rev (videos w)) in
  (length listed <= 50)%nat /\
  (length listed = Nat.min 50 (length (videos w))) /\
  match Videos.findManyFault h with
  | None =>
      Videos.GET h w =
        (w, Return (Videos.respond
                      (Videos.videosBody
                         (map (fun row => (row, Facts.signedUrl h row)) listed)) 200))
  | Some _ =>
      Videos.GET h w =
        (w, Return (Videos.respond (Videos.errorBody "Failed to list videos") 500))
  end.
Proof.
  simpl. split; [rewrite length_firstn; lia|].
  split; [by rewrite length_firstn, length_rev|].
  unfold Videos.GET, tryCatch, bind, Videos.findMany.
  destruct (Videos.findManyFault h) as [e|]; [done|].
  by rewrite all_withUrl.
Qed.

Lemma filter_not_hasId_app (wanted : string) (rows : list VideoRecord) (row : VideoRecord) :
  (forall r, In r rows -> id r <> wanted) -> id row = wanted ->
  List.filter (fun r => negb (Videos.hasId wanted r)) (rows ++ [row]) = rows.
Proof.
  intros Hrows Hrow. rewrite List.filter_app. simpl. unfold Videos.hasId at 2.
  rewrite Hrow, String.eqb_refl. simpl. rewrite app_nil_r.
  induction rows as [|r rows IH]; [done|]. simpl. unfold Videos.hasId at 1.
  destruct (String.eqb_spec (id r) wanted) as [Heq|_].
  - by destruct (Hrows r (or_introl eq_refl)).
  - simpl. f_equal. apply IH. intros r' Hin. apply Hrows. by right.
Qed.

Lemma find_hasId_app (wanted : string) (rows : list VideoRecord) (row : VideoRecord) :
  (forall r, In r rows -> id r <> wanted) -> id row = wanted ->
  List.find (Videos.hasId wanted) (rows ++ [row]) = Some row.
Proof.
  intros Hrows Hrow. induction rows as [|r rows IH]; simpl.
  - unfold Videos.hasId. by rewrite Hrow, String.eqb_refl.
  - unfold Videos.hasId at 1. destruct (String.eqb_spec (id r) wanted) as [Heq|_].
    + by destruct (Hrows r (or_introl eq_refl)).
    + apply IH. intros r' Hin. apply Hrows. by right.
Qed.

(** X19. Deleting the row that a run of [POST] has just added undoes the
    run on the table and on the bucket, provided the new [id] and the new
    key were not in use before the run and nothing fails in the deletion:
    the table and the bucket are then as they were before the [POST]. *)
Theorem POST_then_DELETE_restores (hr : Route.Host) (hv : Videos.Host)
    (requestJson : result Route.DownloadRequest) (w : World) (row : VideoRecord) :
  let w1 := fst (Route.POST hr requestJson w) in
  videos w1 = videos w ++ [row] ->
  id row <> "" ->
  (forall r, In r (videos w) -> id r <> id row) ->
  blobs w !! fileKey (data row) = None ->
  Videos.findUniqueFault hv (id row) = None ->
  Bucket.deleteFault (Videos.bucket hv) (fileKey (data row)) = None ->
  Videos.rowDeleteFault hv (id row) = None ->
  let after := Videos.DELETE hv (Some (id row)) w1 in
  videos (fst after) = videos w /\
  blobs (fst after) = blobs w /\
  snd after = Return (Videos.respond Videos.successBody 200).
Proof.
  intros w1 Hrow Hid Hfresh Hkey Hfind Hblob Hdel.
  pose proof (POST_stored hr requestJson w) as Hst. simpl in Hst. fold w1 in Hst.
  assert (exists blob, blobs w1 = <[fileKey (data row) := blob]> (blobs w)) as [blob Hb].
  { destruct Hst as [_ Hv|key blob target d _ _ _ Hv
                    |key blob row' target d resp _ _ Hb Hv Hk _ _ _ _ _].
    - rewrite Hv in Hrow. by apply eq_sym, app_singleton_neq in Hrow.
    - rewrite Hv in Hrow. by apply eq_sym, app_singleton_neq in Hrow.
    - rewrite Hv in Hrow. apply app_inj_tail in Hrow as [_ ->].
      exists blob. by rewrite Hb, Hk. }
  assert (List.find (Videos.hasId (id row)) (videos w1) = Some row) as Hfound.
  { rewrite Hrow. by apply find_hasId_app. }
  pose proof (DELETE_found hv (id row) row w1 Hid Hfind Hfound) as H.
  cbv zeta in H. rewrite Hblob, Hdel in H. destruct H as (_ & Hb' & Hv' & Hr).
  split; [|split; [|done]].
  - rewrite Hv', Hrow. by apply filter_not_hasId_app.
  - rewrite Hb', Hb. by apply delete_insert_id.
Qed.

(** X20. The health route never fails and leaves the world alone. It
    answers 200 with [healthy] exactly when the database query and the
    bucket probe both succeed, and 503 with [unhealthy] otherwise; each
    service is reported [connected] exactly when its own probe succeeded,
    and the latency of the database, the difference of the two clock
    readings around the query, is present exactly when the query
    succeeded. *)
Theorem health_reports_both_probes (h : Health.Host) (w : World) :
  let database := match Health.queryFault h with None => true | Some _ => false end in
  let storage :=
    match Bucket.headFault (Health.bucket h) with None => true | Some _ => false end in
  Health.GET h w =
  (w, Return
        {| Health.httpStatus := if database && storage then 200 else 503;
           Health.payload :=
             {| Health.status := if database && storage then "healthy" else "unhealthy";
                Health.timestamp := Health.isoNow h;
                Health.databaseStatus := if database then "connected" else "disconnected";
                Health.databaseLatency :=
                  if database
                  then Some (Z.of_N (Health.dbEnd h) - Z.of_N (Health.dbStart h))
                  else None;
                Health.storageStatus := if storage then "connected" else "disconnected";
                Health.appName :=
                  Cobalt.orDefault (Health.env h "NEXT_PUBLIC_APP_NAME") "app-transcribe";
                Health.appEnvironment :=
                  Cobalt.orDefault (Health.env h "NODE_ENV") "development" |} |}).
Proof.
  simpl. unfold Health.GET, bind, tryCatch, Health.queryRaw,
    Bucket.checkStorageHealth, tryCatch, bind, Bucket.headBucket, ret.
  by destruct (Health.queryFault h), (Bucket.headFault (Health.bucket h)).
Qed.

End VideosRoute.

(** ** The queue of the downloader *)

Section QueueFacts.
Import Js.

(** The loop of [addMultipleToQueue] adds, in their order, the URLs of
    the batch that are neither known nor met earlier in the batch, and
    counts the others. *)
Lemma addLoop_spec (draw : nat -> string) (urls : list string)
    (existing : gset string) (newItems : list Queue.QueueItem) (skipped : nat) :
  exists added,
    Queue.addLoop draw urls existing newItems skipped =
      (newItems ++ added, (skipped + (length urls - length added))%nat) /\
    (length added <= length urls)%nat /\
    NoDup (map Queue.url added) /\
    (forall u, In u (map Queue.url added) <-> In u urls /\ u ∉ existing) /\
    Forall Facts.fresh_item added.
Proof.
  revert existing newItems skipped.
  induction urls as [|u rest IH]; intros existing newItems skipped; simpl.
  - exists []. rewrite app_nil_r, Nat.add_0_r. repeat split; try done.
    + constructor.
    + by intros [[] _].
  - destruct (decide (u ∈ existing)) as [Hin|Hout].
    + destruct (IH existing newItems (S skipped)) as (added & -> & Hlen & Hnd & Hmem & Hfresh).
      exists added. split; [f_equal; lia|]. split; [lia|]. split; [done|].
      split; [|done]. intros v. rewrite Hmem. split.
      * intros [? ?]. split; [by right|done].
      * intros [[<-|?] ?]; [done|by split].
    + destruct (IH ({[u]} ∪ existing)
                  (newItems ++ [Queue.newItem (draw (length newItems)) u]) skipped)
        as (added & -> & Hlen & Hnd & Hmem & Hfresh).
      exists (Queue.newItem (draw (length newItems)) u :: added).
      split; [rewrite <- app_assoc; simpl; f_equal; lia|].
      split; [simpl; lia|]. split; [|split].
      * simpl. apply NoDup_cons. split; [|done].
        rewrite list_elem_of_In, Hmem. intros [_ Hu]. apply Hu.
        apply elem_of_union. left. by apply elem_of_singleton.
      * intros v. simpl. rewrite Hmem. split.
        -- intros [<-|[? Hv]]; [by split; [left|]|].
           split; [by right|]. intros Hx. apply Hv, elem_of_union. by right.
        -- intros [[<-|Hr] Hv]; [by left|].
           destruct (decide (v = u)) as [->|Hne]; [by left|].
           right. split; [done|].
           intros [Hx|Hx]%elem_of_union; [by apply elem_of_singleton in Hx|done].
      * constructor; [done|done].
Qed.

(** X21. Adding a batch of URLs keeps the items of the queue as they
    are and in their order, and appends one pending item for every URL of
    the batch that is neither in the queue nor earlier in the batch, in
    the order of the batch. So a queue without a repeated URL stays
    without one, every URL of the batch is in the queue afterwards, and
    the warning about duplicates is shown exactly when some URL of the
    batch was not added. The input field is cleared. *)
Theorem addMultipleToQueue_dedupes (draw : nat -> string) (s : Queue.State)
    (urls : list string) :
  let s' := fst (Queue.addMultipleToQueue draw s urls) in
  let toasts := snd (Queue.addMultipleToQueue draw s urls) in
  exists added,
    Queue.queue s' = Queue.queue s ++ added /\
    Forall Facts.fresh_item added /\
    (length added <= length urls)%nat /\
    (toasts = [] <-> length added = length urls) /\
    (forall u, In u (map Queue.url (Queue.queue s')) <->
               In u (map Queue.url (Queue.queue s)) \/ In u urls) /\
    (NoDup (map Queue.url (Queue.queue s)) -> NoDup (map Queue.url (Queue.queue s'))) /\
    Queue.urlInput s' = "" /\
    Queue.isProcessing s' = Queue.isProcessing s.
Proof.
  simpl. unfold Queue.addMultipleToQueue.
  destruct (addLoop_spec draw urls (list_to_set (map Queue.url (Queue.queue s))) [] 0)
    as (added & -> & Hlen & Hnd & Hmem & Hfresh).
  simpl. exists added.
  assert (match added with
          | [] => Queue.queue s
          | _ :: _ => Queue.queue s ++ added
          end = Queue.queue s ++ added) as ->.
  { destruct added; [by rewrite app_nil_r|done]. }
  assert (forall u, u ∉ (list_to_set (map Queue.url (Queue.queue s)) : gset string) <->
                    ~ In u (map Queue.url (Queue.queue s))) as Hset.
  { intros u. by rewrite elem_of_list_to_set, list_elem_of_In. }
  split; [done|]. split; [done|]. split; [done|]. split; [|split; [|split]].
  - destruct (length urls - length added)%nat eqn:Hk; simpl.
    + split; [intros _; lia|done].
    + split; [done|]. intros H. lia.
  - intros u. rewrite map_app, in_app_iff, Hmem, Hset.
    destruct (in_dec String.string_dec u (map Queue.url (Queue.queue s))); tauto.
  - intros Hq. rewrite map_app. apply NoDup_app. split; [done|]. split; [|done].
    intros u Hu Hadded. rewrite list_elem_of_In in Hu, Hadded.
    apply Hmem in Hadded as [_ Hn]. by apply Hset in Hn.
  - done.
Qed.

(** X22. [addToQueue] adds one pending item at the end for a URL that is
    not blank and not yet in the queue, and clears the input field; it
    leaves the state as it is for a blank URL, and for a URL already in
    the queue, for which it shows an error. A queue without a repeated
    URL stays without one. The URL is stored as typed, not trimmed. *)
Theorem addToQueue_keeps_urls_distinct (random36 : string) (s : Queue.State)
    (urlToAdd : string) :
  let s' := fst (Queue.addToQueue random36 s urlToAdd) in
  let toasts := snd (Queue.addToQueue random36 s urlToAdd) in
  (NoDup (map Queue.url (Queue.queue s)) -> NoDup (map Queue.url (Queue.queue s'))) /\
  (Queue.blank urlToAdd = true -> s' = s /\ toasts = []) /\
  (Queue.blank urlToAdd = false -> In urlToAdd (map Queue.url (Queue.queue s)) ->
   s' = s /\ toasts = [Queue.toastError "Link already in queue"]) /\
  (Queue.blank urlToAdd = false -> ~ In urlToAdd (map Queue.url (Queue.queue s)) ->
   Queue.queue s' = Queue.queue s ++ [Queue.newItem random36 urlToAdd] /\
   Queue.urlInput s' = "" /\ toasts = []).
Proof.
  simpl. unfold Queue.addToQueue.
  assert (existsb (Queue.hasUrl urlToAdd) (Queue.queue s) = true <->
          In urlToAdd (map Queue.url (Queue.queue s))) as Hex.
  { rewrite existsb_exists, in_map_iff. unfold Queue.hasUrl.
    split; intros (i & H1 & H2); exists i.
    - by apply String.eqb_eq in H2.
    - split; [done|]. by apply String.eqb_eq. }
  destruct (Queue.blank urlToAdd); simpl.
  { repeat split; done. }
  destruct (existsb (Queue.hasUrl urlToAdd) (Queue.queue s)) eqn:He; simpl.
  - assert (In urlToAdd (map Queue.url (Queue.queue s))) as Hin by (by apply Hex).
    repeat split; try done.
  - assert (~ In urlToAdd (map Queue.url (Queue.queue s))) as Hn.
    { intros H. by apply Hex in H. }
    split; [|repeat split; done].
    intros Hq. rewrite map_app. apply NoDup_app. split; [done|].
    split; [|apply NoDup_singleton].
    intros u Hu Hnew. simpl in Hnew. apply list_elem_of_In in Hu.
    apply list_elem_of_singleton in Hnew. by subst u.
Qed.

Lemma iter_tick (n : nat) (wanted : string) (q : list Queue.QueueItem) :
  Nat.iter n (Queue.tick wanted) (Queue.markDownloading wanted q) =
  map (fun i =>
         if String.eqb (Queue.id i) wanted then
           {| Queue.id := Queue.id i; Queue.url := Queue.url i;
              Queue.status := Queue.downloading;
              Queue.progress := Z.min (10 + 5 * Z.of_nat n) 90;
              Queue.errorMessage := Queue.errorMessage i |}
         else i) q.
Proof.
  induction n as [|n IH].
  - done.
  - rewrite Nat.iter_succ, IH. unfold Queue.tick. rewrite map_map.
    apply map_ext. intros i.
    destruct (String.eqb (Queue.id i) wanted) eqn:Hi; simpl.
    + rewrite Hi. simpl. f_equal. lia.
    + by rewrite Hi.
Qed.

(** [downloadItem] settles every item that has the id of its item, and
    touches no other. *)
Lemma downloadItem_map (ticks : nat) (answer : Queue.Answer) (item : Queue.QueueItem)
    (q : list Queue.QueueItem) :
  Queue.downloadItem ticks answer item q =
  map (fun i =>
         if String.eqb (Queue.id i) (Queue.id item) then Facts.settled ticks answer i
         else i) q.
Proof.
  unfold Queue.downloadItem. rewrite iter_tick.
  destruct answer as [e|[|] [dataError|e]];
    unfold Queue.markError, Queue.markCompleted; rewrite map_map;
    apply map_ext; intros i;
    destruct (String.eqb (Queue.id i) (Queue.id item)) eqn:Hi; simpl; by rewrite Hi.
Qed.

Lemma settled_id (ticks : nat) (answer : Queue.Answer) (i : Queue.QueueItem) :
  Queue.id (Facts.settled ticks answer i) = Queue.id i /\
  Queue.url (Facts.settled ticks answer i) = Queue.url i /\
  Queue.isPending (Facts.settled ticks answer i) = false.
Proof. by destruct answer as [e|[|] [dataError|e]]. Qed.

Lemma fold_downloadItem (ticks : Queue.QueueItem -> nat)
    (answer : Queue.QueueItem -> Queue.Answer) (items q : list Queue.QueueItem) :
  fold_left (fun q item => Queue.downloadItem (ticks item) (answer item) item q) items q =
  map (fun i => fold_left (Facts.hit ticks answer) items i) q.
Proof.
  revert q. induction items as [|p rest IH]; intros q; simpl.
  - by rewrite map_id.
  - rewrite IH, downloadItem_map, map_map. done.
Qed.

Lemma fold_hit_other (ticks : Queue.QueueItem -> nat)
    (answer : Queue.QueueItem -> Queue.Answer) (items : list Queue.QueueItem)
    (x : Queue.QueueItem) :
  (forall p, In p items -> Queue.id p <> Queue.id x) ->
  fold_left (Facts.hit ticks answer) items x = x.
Proof.
  induction items as [|p rest IH]; intros H; simpl; [done|].
  unfold Facts.hit at 2. destruct (String.eqb_spec (Queue.id x) (Queue.id p)) as [Heq|_].
  - by destruct (H p (or_introl eq_refl)).
  - apply IH. intros p' Hin. apply H. by right.
Qed.

Lemma fold_hit_own (ticks : Queue.QueueItem -> nat)
    (answer : Queue.QueueItem -> Queue.Answer) (items : list Queue.QueueItem)
    (i : Queue.QueueItem) :
  NoDup (map Queue.id items) -> In i items ->
  fold_left (Facts.hit ticks answer) items i = Facts.settled (ticks i) (answer i) i.
Proof.
  induction items as [|p rest IH]; intros Hnd Hin; [done|].
  simpl in Hnd. apply NoDup_cons in Hnd as [Hp Hnd]. rewrite list_elem_of_In in Hp.
  simpl. destruct Hin as [->|Hin].
  - unfold Facts.hit at 2. rewrite String.eqb_refl.
    apply fold_hit_other. intros p Hin Heq. apply Hp.
    destruct (settled_id (ticks i) (answer i) i) as (Hid & _ & _).
    rewrite Hid in Heq. rewrite <- Heq. by apply in_map.
  - unfold Facts.hit at 2.
    destruct (String.eqb_spec (Queue.id i) (Queue.id p)) as [Heq|_].
    + destruct Hp. rewrite <- Heq. by apply in_map.
    + by apply IH.
Qed.

Lemma NoDup_map_filter {A B : Type} (f : A -> B) (P : A -> bool) (l : list A) :
  NoDup (map f l) -> NoDup (map f (List.filter P l)).
Proof.
  induction l as [|a l IH]; simpl; [done|].
  intros [Ha Hl]%NoDup_cons. destruct (P a); simpl; [|by apply IH].
  apply NoDup_cons. split; [|by apply IH].
  rewrite list_elem_of_In in *. intros Hin. apply Ha.
  apply in_map_iff in Hin as (x & <- & Hx). apply in_map.
  by apply filter_In in Hx as [? _].
Qed.

Lemma NoDup_map_inj {A B : Type} (f : A -> B) (l : list A) (x y : A) :
  NoDup (map f l) -> In x l -> In y l -> f x = f y -> x = y.
Proof.
  induction l as [|a l IH]; simpl; [done|].
  intros [Ha Hl]%NoDup_cons Hx Hy Heq. rewrite list_elem_of_In in Ha.
  destruct Hx as [->|Hx], Hy as [->|Hy]; try done.
  - destruct Ha. rewrite Heq. by apply in_map.
  - destruct Ha. rewrite <- Heq. by apply in_map.
  - by apply IH.
Qed.

(** X23. [processQueue] does nothing while a run is in progress.
    Otherwise, on a queue whose ids are distinct, it settles every
    pending item and no other: a pending item ends [completed] with
    progress 100 when its request is answered with success, and [error]
    with a message and a progress between 10 and 90 otherwise. No item is
    left pending, and the items keep their order, their ids and their
    URLs. *)
Theorem processQueue_settles_pending (ticks : Queue.QueueItem -> nat)
    (answer : Queue.QueueItem -> Queue.Answer) (s : Queue.State) :
  (Queue.isProcessing s = true -> Queue.processQueue ticks answer s = s) /\
  (Queue.isProcessing s = false ->
   NoDup (map Queue.id (Queue.queue s)) ->
   let s' := Queue.processQueue ticks answer s in
   Queue.queue s' = map (Facts.processed ticks answer) (Queue.queue s) /\
   Queue.isProcessing s' = false /\
   Queue.urlInput s' = Queue.urlInput s /\
   map Queue.id (Queue.queue s') = map Queue.id (Queue.queue s) /\
   map Queue.url (Queue.queue s') = map Queue.url (Queue.queue s) /\
   Forall (fun i => Queue.isPending i = false) (Queue.queue s')).
Proof.
  unfold Queue.processQueue. split; [by intros ->|].
  intros -> Hnd. simpl.
  assert (fold_left
            (fun q item => Queue.downloadItem (ticks item) (answer item) item q)
            (List.filter Queue.isPending (Queue.queue s)) (Queue.queue s) =
          map (Facts.processed ticks answer) (Queue.queue s)) as ->.
  { rewrite fold_downloadItem. apply map_ext_in. intros i Hi.
    unfold Facts.processed. destruct (Queue.isPending i) eqn:Hp.
    - apply fold_hit_own; [by apply NoDup_map_filter|].
      apply filter_In. by split.
    - apply fold_hit_other. intros p Hin Heq.
      apply filter_In in Hin as [Hin Hpp].
      assert (p = i) as -> by (by apply (NoDup_map_inj Queue.id (Queue.queue s))).
      congruence. }
  split; [done|]. split; [done|]. split; [done|].
  assert (forall i, Queue.id (Facts.processed ticks answer i) = Queue.id i /\
                    Queue.url (Facts.processed ticks answer i) = Queue.url i /\
                    Queue.isPending (Facts.processed ticks answer i) = false) as Hp.
  { intros i. unfold Facts.processed. destruct (Queue.isPending i) eqn:Hi; [|done].
    apply settled_id. }
  split; [|split].
  - rewrite map_map. apply map_ext. intros i. apply Hp.
  - rewrite map_map. apply map_ext. intros i. apply Hp.
  - apply Forall_forall. intros i Hi. apply list_elem_of_In in Hi.
    apply in_map_iff in Hi as (j & <- & _). apply Hp.
Qed.

End QueueFacts.

(** ** Sizes for the log *)

Section Sizes.
Import Js.
Local Open Scope N_scope.

Lemma half_up (num den scale : N) :
  den <> 0 ->
  let n := (2 * num * scale + den) / (2 * den) in
  2 * den * n <= 2 * num * scale + den /\ 2 * num * scale + den < 2 * den * n + 2 * den.
Proof.
  intros Hden n. subst n.
  pose proof (N.div_mod' (2 * num * scale + den) (2 * den)) as Hdm.
  assert (2 * den <> 0) as Hpos by lia.
  pose proof (N.mod_lt (2 * num * scale + den) (2 * den) Hpos) as Hlt.
  set (q := (2 * num * scale + den) / (2 * den)) in *.
  set (r := (2 * num * scale + den) mod (2 * den)) in *.
  set (total := 2 * num * scale + den) in *.
  set (product := 2 * den * q) in *.
  clearbody q r total product. lia.
Qed.

(** The last two decimal digits of a number. *)
Lemma two_digits (n : N) :
  n mod 100 / 10 mod 10 = n / 10 mod 10 /\ n mod 100 mod 10 = n mod 10.
Proof.
  pose proof (N.div_mod' n 100) as E1.
  pose proof (N.mod_lt n 100 ltac:(done)) as L1.
  pose proof (N.div_mod' (n mod 100) 10) as E2.
  pose proof (N.mod_lt (n mod 100) 10 ltac:(done)) as L2.
  pose proof (N.div_mod' n 10) as E3.
  pose proof (N.mod_lt n 10 ltac:(done)) as L3.
  pose proof (N.div_mod' (n / 10) 10) as E4.
  pose proof (N.mod_lt (n / 10) 10 ltac:(done)) as L4.
  pose proof (N.div_mod' (n mod 100 / 10) 10) as E5.
  pose proof (N.mod_lt (n mod 100 / 10) 10 ltac:(done)) as L5.
  set (k := n mod 100 / 10 mod 10) in *. set (h := n mod 100 / 10 / 10) in *.
  set (b := n mod 100 / 10) in *. set (c := n mod 100 mod 10) in *.
  set (r := n mod 100) in *. set (a := n / 100) in *.
  set (g := n / 10 mod 10) in *. set (f := n / 10 / 10) in *.
  set (d := n / 10) in *. set (e := n mod 10) in *.
  clearbody k h b c r a g f d e. lia.
Qed.

(** X24. [formatSize] prints a length below 1024 as it is, in bytes, and
    a larger one in the largest of KB, MB and GB that it reaches, with
    one decimal (two for GB): the number printed is the quotient rounded
    to the nearest, halves up, so it is off by at most half a unit of its
    last digit. Just below a power of 1024 the rounding prints 1024.0 in
    the lower unit. Lengths are integers up to [2^53 - 1]. *)
Theorem formatSize_rounds_to_nearest (bytes : N) :
  (bytes < 1024 -> Format.formatSize bytes = showN bytes +:+ " B") /\
  (1024 <= bytes < 1024 * 1024 ->
   exists n,
     Format.formatSize bytes = showN (n / 10) +:+ "." +:+ showN (n mod 10) +:+ " KB" /\
     1024 * n <= 10 * bytes + 512 /\ 10 * bytes < 1024 * n + 512 /\
     10 <= n <= 10240) /\
  (1024 * 1024 <= bytes < 1024 * 1024 * 1024 ->
   exists n,
     Format.formatSize bytes = showN (n / 10) +:+ "." +:+ showN (n mod 10) +:+ " MB" /\
     1048576 * n <= 10 * bytes + 524288 /\ 10 * bytes < 1048576 * n + 524288 /\
     10 <= n <= 10240) /\
  (1024 * 1024 * 1024 <= bytes <= 9007199254740991 ->
   exists n,
     Format.formatSize bytes =
       showN (n / 100) +:+ "." +:+ showN (n / 10 mod 10) +:+ showN (n mod 10) +:+ " GB" /\
     1073741824 * n <= 100 * bytes + 536870912 /\
     100 * bytes < 1073741824 * n + 536870912 /\
     100 <= n) /\
  Format.formatSize 1048575 = "1024.0 KB".
Proof.
  unfold Format.formatSize.
  split; [|split; [|split; [|split; [|reflexivity]]]].
  - intros H. apply N.ltb_lt in H. by rewrite H.
  - intros [H1 H2]. apply N.ltb_ge in H1. apply N.ltb_lt in H2. rewrite H1, H2.
    apply N.ltb_ge in H1. apply N.ltb_lt in H2.
    unfold Format.toFixed. change (10 ^ N.of_nat 1) with 10.
    set (n := (2 * bytes * 10 + 1024) / (2 * 1024)).
    pose proof (half_up bytes 1024 10 ltac:(done)) as Hn. cbv zeta in Hn. fold n in Hn.
    exists n. split; [|lia].
    simpl Format.pad. rewrite N.Div0.mod_mod. unfold "+:+" at 3.
    by rewrite !sapp_assoc.
  - intros [H1 H2].
    assert ((bytes <? 1024) = false) as -> by (apply N.ltb_ge; lia).
    apply N.ltb_ge in H1. apply N.ltb_lt in H2. rewrite H1, H2.
    apply N.ltb_ge in H1. apply N.ltb_lt in H2.
    unfold Format.toFixed. change (10 ^ N.of_nat 1) with 10.
    set (n := (2 * bytes * 10 + 1024 * 1024) / (2 * (1024 * 1024))).
    pose proof (half_up bytes (1024 * 1024) 10 ltac:(done)) as Hn.
    cbv zeta in Hn. fold n in Hn.
    exists n. split; [|lia].
    simpl Format.pad. rewrite N.Div0.mod_mod. unfold "+:+" at 3.
    by rewrite !sapp_assoc.
  - intros [H1 _].
    assert ((bytes <? 1024) = false) as -> by (apply N.ltb_ge; lia).
    assert ((bytes <? 1024 * 1024) = false) as -> by (apply N.ltb_ge; lia).
    apply N.ltb_ge in H1. rewrite H1. apply N.ltb_ge in H1.
    unfold Format.toFixed. change (10 ^ N.of_nat 2) with 100.
    set (n := (2 * bytes * 100 + 1024 * 1024 * 1024) / (2 * (1024 * 1024 * 1024))).
    pose proof (half_up bytes (1024 * 1024 * 1024) 100 ltac:(done)) as Hn.
    cbv zeta in Hn. fold n in Hn.
    exists n. split; [|lia].
    simpl Format.pad.
    destruct (two_digits n) as [-> ->].
    by rewrite sapp_nil_l, !sapp_assoc.
Qed.

End Sizes.

(** ** The further properties on the sample hosts *)

Section Instances.
Import Js Sys.

Lemma POST_direct_row_witness :
  Route.url Samples.sampleRequest = Some Samples.sampleUrl /\
  Samples.sampleUrl <> "" /\
  Cobalt.isUrlSupported Samples.sampleUrl = true /\
  Cobalt.requestDownload (Route.net Cases.directHost)
    (Route.cobaltOptions Samples.sampleUrl Samples.sampleRequest) =
    Return (Cobalt.tunnel "https://cdn/example.mp4" "My_Video-Clip.mp4") /\
  videos (fst (Route.POST Cases.directHost (Return Samples.sampleRequest)
                 Samples.emptyWorld)) =
    videos Samples.emptyWorld ++ [Cases.clipRow] /\
  exists d,
    Cobalt.downloadFromUrl (Route.net Cases.directHost) "https://cdn/example.mp4" =
      Return d /\
    snd (Route.POST Cases.directHost (Return Samples.sampleRequest) Samples.emptyWorld) =
      Return (Facts.directAnswer (Cobalt.detectPlatform Samples.sampleUrl)
                Cases.clipRow d).
Proof.
  assert (Samples.sampleUrl <> "") as Hne by discriminate.
  assert (videos (fst (Route.POST Cases.directHost (Return Samples.sampleRequest)
                         Samples.emptyWorld)) =
          videos Samples.emptyWorld ++ [Cases.clipRow]) as Hrow by (by vm_compute).
  split; [reflexivity|]. split; [exact Hne|]. split; [reflexivity|].
  split; [reflexivity|]. split; [exact Hrow|].
  destruct (POST_direct_row Cases.directHost Samples.sampleRequest Samples.sampleUrl
              "https://cdn/example.mp4" "My_Video-Clip.mp4" Samples.emptyWorld
              Cases.clipRow eq_refl Hne eq_refl (or_introl eq_refl) Hrow)
    as (d & b & type & Hd & _ & _ & _ & Hanswer).
  exists d. split; [exact Hd|exact Hanswer].
Defined.

Lemma POST_picker_row_witness :
  Route.url Samples.sampleRequest = Some Samples.sampleUrl /\
  Samples.sampleUrl <> "" /\
  Cobalt.isUrlSupported Samples.sampleUrl = true /\
  Cobalt.requestDownload (Route.net Cases.pickerHost)
    (Route.cobaltOptions Samples.sampleUrl Samples.sampleRequest) =
    Return (Cobalt.picker Samples.pickerItems) /\
  List.find Route.isVideo Samples.pickerItems = Some Samples.secondItem /\
  videos (fst (Route.POST Cases.pickerHost (Return Samples.sampleRequest)
                 Samples.emptyWorld)) =
    videos Samples.emptyWorld ++ [Cases.pickedRow] /\
  exists d,
    Cobalt.downloadFromUrl (Route.net Cases.pickerHost)
      (Cobalt.itemUrl Samples.secondItem) = Return d /\
    snd (Route.POST Cases.pickerHost (Return Samples.sampleRequest) Samples.emptyWorld) =
      Return (Facts.pickerAnswer (Cobalt.detectPlatform Samples.sampleUrl)
                Cases.pickedRow d).
Proof.
  assert (Samples.sampleUrl <> "") as Hne by discriminate.
  assert (videos (fst (Route.POST Cases.pickerHost (Return Samples.sampleRequest)
                         Samples.emptyWorld)) =
          videos Samples.emptyWorld ++ [Cases.pickedRow]) as Hrow by (by vm_compute).
  split; [reflexivity|]. split; [exact Hne|]. split; [reflexivity|].
  split; [reflexivity|]. split; [reflexivity|]. split; [exact Hrow|].
  destruct (POST_picker_row Cases.pickerHost Samples.sampleRequest Samples.sampleUrl
              Samples.pickerItems Samples.secondItem Samples.emptyWorld
              Cases.pickedRow eq_refl Hne eq_refl eq_refl eq_refl Hrow)
    as (d & b & type & Hd & _ & _ & _ & Hanswer).
  exists d. split; [exact Hd|exact Hanswer].
Defined.

Lemma POST_refuses_before_any_call_witness :
  Cobalt.isUrlSupported (Cobalt.orDefault (Route.url Cases.otherRequest) "") = false /\
  Route.POST Cases.pickerHost (Return Cases.otherRequest) Samples.emptyWorld =
  Route.POST Cases.directHost (Return Cases.otherRequest) Samples.emptyWorld.
Proof.
  split; [reflexivity|].
  destruct (POST_refuses_before_any_call Cases.directHost Cases.pickerHost
              Cases.otherRequest Samples.emptyWorld (or_intror eq_refl))
    as (message & _ & Hsame & _).
  exact Hsame.
Defined.

Lemma POST_upstream_error_witness :
  Route.url Samples.sampleRequest = Some Samples.sampleUrl /\
  Samples.sampleUrl <> "" /\
  Cobalt.isUrlSupported Samples.sampleUrl = true /\
  Cobalt.requestDownload (Route.net Cases.refusingHost)
    (Route.cobaltOptions Samples.sampleUrl Samples.sampleRequest) =
    Return (Cobalt.error "error.api.link.invalid" None) /\
  Route.POST Cases.refusingHost (Return Samples.sampleRequest) Samples.emptyWorld =
    (Samples.emptyWorld,
     Return (Route.respond
               (Route.errorBody "Download failed: error.api.link.invalid") 400)).
Proof.
  assert (Samples.sampleUrl <> "") as Hne by discriminate.
  split; [reflexivity|]. split; [exact Hne|]. split; [reflexivity|].
  split; [reflexivity|].
  exact (POST_upstream_error Cases.refusingHost Samples.sampleRequest Samples.sampleUrl
           (Cobalt.error "error.api.link.invalid" None) Samples.emptyWorld
           eq_refl Hne eq_refl eq_refl).
Defined.

Lemma runFFmpeg_failure_message_witness :
  snd (Compress.spawnFFmpeg Samples.failingEncoder
         (Compress.ffmpegArgs "/tmp/in.webm" "/tmp/out.mp4" Cases.defaultOptions)
         (files Samples.emptyWorld)) =
    Compress.closed (Some 1) "Invalid data found when processing input" /\
  Some 1 <> Some 0 /\
  exists tail,
    snd (Compress.runFFmpeg Samples.failingEncoder "/tmp/in.webm" "/tmp/out.mp4"
           Cases.defaultOptions Samples.emptyWorld) =
      Throw (Error ("FFmpeg exited with code " +:+ showZ 1 +:+ ": " +:+ tail)) /\
    ((String.length "Invalid data found when processing input" <= 500)%nat ->
     tail = "Invalid data found when processing input").
Proof.
  assert (Some 1 <> Some 0) as Hcode by discriminate.
  split; [reflexivity|]. split; [exact Hcode|].
  destruct (runFFmpeg_failure_message Samples.failingEncoder "/tmp/in.webm"
              "/tmp/out.mp4" Cases.defaultOptions Samples.emptyWorld (Some 1)
              "Invalid data found when processing input" eq_refl Hcode)
    as (tail & Hmsg & _ & _ & Hall).
  exists tail. split; [exact Hmsg|exact Hall].
Defined.

Lemma ffmpegArgs_buffer_twice_ceiling_witness :
  Compress.ffVideoBitrate Cases.defaultOptions = showN 1500 +:+ "k" /\
  (1500 <= 9007199254740991)%N /\
  exists before after,
    Compress.ffmpegArgs "/tmp/in.webm" "/tmp/out.mp4" Cases.defaultOptions =
    before ++ ["-maxrate"; showN 1500 +:+ "k"; "-bufsize"; showN (2 * 1500) +:+ "k"]
    ++ after.
Proof.
  assert (1500 <= 9007199254740991)%N as Hsmall by lia.
  split; [reflexivity|]. split; [exact Hsmall|].
  exact (ffmpegArgs_buffer_twice_ceiling "/tmp/in.webm" "/tmp/out.mp4"
           Cases.defaultOptions 1500 eq_refl Hsmall).
Defined.

Lemma DELETE_without_row_witness :
  Some "nobody" = Some "nobody" /\ "nobody" <> "" /\
  Videos.findUniqueFault (Cases.videosHost None None) "nobody" = None /\
  (forall row, In row (videos Cases.clipWorld) -> id row <> "nobody") /\
  Videos.DELETE (Cases.videosHost None None) (Some "nobody") Cases.clipWorld =
    (Cases.clipWorld,
     Return (Videos.respond (Videos.errorBody "Video not found") 404)).
Proof.
  assert ("nobody" <> "") as Hne by discriminate.
  assert (forall row, In row (videos Cases.clipWorld) -> id row <> "nobody") as Hrows.
  { intros row [<-|[]]. discriminate. }
  split; [reflexivity|]. split; [exact Hne|]. split; [reflexivity|].
  split; [exact Hrows|].
  exact (proj2 (DELETE_without_row (Cases.videosHost None None) (Some "nobody")
                  Cases.clipWorld) "nobody" eq_refl Hne eq_refl Hrows).
Defined.

Lemma DELETE_removes_row_witness :
  "ckv1" <> "" /\
  Videos.findUniqueFault (Cases.videosHost None None) "ckv1" = None /\
  List.find (Videos.hasId "ckv1") (videos Cases.clipWorld) = Some Cases.clipRow /\
  Videos.rowDeleteFault (Cases.videosHost None None) "ckv1" = None /\
  snd (Videos.DELETE (Cases.videosHost None None) (Some "ckv1") Cases.clipWorld) =
    Return (Videos.respond Videos.successBody 200).
Proof.
  assert ("ckv1" <> "") as Hne by discriminate.
  split; [exact Hne|]. split; [reflexivity|]. split; [reflexivity|].
  split; [reflexivity|].
  exact (proj1 (DELETE_removes_row (Cases.videosHost None None) "ckv1" Cases.clipRow
                  Cases.clipWorld Hne eq_refl eq_refl eq_refl)).
Defined.

Lemma DELETE_row_failure_leaves_dangling_row_witness :
  let h := Cases.videosHost None (Some (Error "connection closed")) in
  "ckv1" <> "" /\
  Videos.findUniqueFault h "ckv1" = None /\
  List.find (Videos.hasId "ckv1") (videos Cases.clipWorld) = Some Cases.clipRow /\
  Bucket.deleteFault (Videos.bucket h) (fileKey (data Cases.clipRow)) = None /\
  Videos.rowDeleteFault h "ckv1" = Some (Error "connection closed") /\
  ~ Spec.backed (fst (Videos.DELETE h (Some "ckv1") Cases.clipWorld)).
Proof.
  intros h.
  assert ("ckv1" <> "") as Hne by discriminate.
  split; [exact Hne|]. split; [reflexivity|]. split; [reflexivity|].
  split; [reflexivity|]. split; [reflexivity|].
  exact (proj2 (proj2 (proj2
           (DELETE_row_failure_leaves_dangling_row h "ckv1" Cases.clipRow Cases.clipWorld
              (Error "connection closed") Hne eq_refl eq_refl eq_refl eq_refl)))).
Defined.

Lemma POST_then_DELETE_restores_witness :
  let w1 := fst (Route.POST Cases.directHost (Return Samples.sampleRequest)
                   Samples.emptyWorld) in
  videos w1 = videos Samples.emptyWorld ++ [Cases.clipRow] /\
  id Cases.clipRow <> "" /\
  blobs Samples.emptyWorld !! fileKey (data Cases.clipRow) = None /\
  let after :=
    Videos.DELETE (Cases.videosHost None None) (Some (id Cases.clipRow)) w1 in
  videos (fst after) = videos Samples.emptyWorld /\
  blobs (fst after) = blobs Samples.emptyWorld.
Proof.
  intros w1.
  assert (videos w1 = videos Samples.emptyWorld ++ [Cases.clipRow]) as Hrow
    by (by vm_compute).
  assert (id Cases.clipRow <> "") as Hid by discriminate.
  assert (forall r, In r (videos Samples.emptyWorld) -> id r <> id Cases.clipRow)
    as Hfresh by (intros r []).
  split; [exact Hrow|]. split; [exact Hid|]. split; [reflexivity|].
  intros after.
  destruct (POST_then_DELETE_restores Cases.directHost (Cases.videosHost None None)
              (Return Samples.sampleRequest) Samples.emptyWorld Cases.clipRow
              Hrow Hid Hfresh eq_refl eq_refl eq_refl eq_refl) as (Hv & Hb & _).
  split; [exact Hv|exact Hb].
Defined.

Lemma processQueue_settles_pending_witness :
  Queue.isProcessing Cases.twoItems = false /\
  NoDup (map Queue.id (Queue.queue Cases.twoItems)) /\
  Queue.queue (Queue.processQueue (fun _ => 3%nat)
                 (fun _ => Queue.answered true (Return None)) Cases.twoItems) =
  map (Facts.processed (fun _ => 3%nat) (fun _ => Queue.answered true (Return None)))
    (Queue.queue Cases.twoItems).
Proof.
  assert (NoDup (map Queue.id (Queue.queue Cases.twoItems))) as Hnd.
  { simpl. apply NoDup_cons. split.
    - intros Hin. apply list_elem_of_singleton in Hin. discriminate Hin.
    - apply NoDup_singleton. }
  split; [reflexivity|]. split; [exact Hnd|].
  exact (proj1 (proj2 (processQueue_settles_pending (fun _ => 3%nat)
                         (fun _ => Queue.answered true (Return None)) Cases.twoItems)
                  eq_refl Hnd)).
Defined.

Lemma formatSize_rounds_to_nearest_witness :
  (1024 <= 1536 < 1024 * 1024)%N /\
  exists n,
    Format.formatSize 1536 = showN (n / 10) +:+ "." +:+ showN (n mod 10) +:+ " KB" /\
    (1024 * n <= 10 * 1536 + 512)%N /\ (10 * 1536 < 1024 * n + 512)%N /\
    (10 <= n <= 10240)%N.
Proof.
  assert (1024 <= 1536 < 1024 * 1024)%N as Hrange by lia.
  split; [exact Hrange|].
  exact (proj1 (proj2 (formatSize_rounds_to_nearest 1536)) Hrange).
Defined.

Lemma addToQueue_keeps_urls_distinct_witness :
  Queue.blank "https://youtu.be/3" = false /\
  ~ In "https://youtu.be/3" (map Queue.url (Queue.queue Cases.twoItems)) /\
  Queue.queue (fst (Queue.addToQueue "0.k3j9x2m1qa7" Cases.twoItems "https://youtu.be/3")) =
    Queue.queue Cases.twoItems ++ [Queue.newItem "0.k3j9x2m1qa7" "https://youtu.be/3"].
Proof.
  assert (~ In "https://youtu.be/3" (map Queue.url (Queue.queue Cases.twoItems))) as Hnew.
  { simpl. intros [H|[H|[]]]; discriminate H. }
  split; [reflexivity|]. split; [exact Hnew|].
  exact (proj1 (proj2 (proj2 (proj2
           (addToQueue_keeps_urls_distinct "0.k3j9x2m1qa7" Cases.twoItems
              "https://youtu.be/3"))) eq_refl Hnew)).
Defined.

Lemma extractTitle_shape_witness :
  Facts.isAscii "My_Video-Clip.mp4" = true /\
  Spec.lacks "_" (Cobalt.extractTitleFromFilename "My_Video-Clip.mp4") = true /\
  Spec.lacks "-" (Cobalt.extractTitleFromFilename "My_Video-Clip.mp4") = true /\
  String.length (Cobalt.extractTitleFromFilename "My_Video-Clip.mp4") =
    String.length (replaceExtension "" "My_Video-Clip.mp4").
Proof.
  split; [reflexivity|].
  destruct (extractTitle_shape "My_Video-Clip.mp4" eq_refl) as (H1 & H2 & H3 & _).
  split; [exact H1|]. split; [exact H2|exact H3].
Defined.

End Instances.
